(** * Cost-and-margin allocation of the MoySklad finance scripts

    A shallow embedding of the order-processing core of the repository
    (optimized_script.py, app.py, sync_script.py and final.py) and the proofs
    of its specified properties.

    Conventions of the embedding.
    - Python floats are idealised as exact rationals ([Q], compared with
      [==]); NaN and the infinities are outside the model.
    - Strings are byte strings holding UTF-8, so the Cyrillic keywords of the
      scripts are written as they are in the source; [in] on UTF-8 text is
      sub-string search on the bytes.
    - A JSON key that may be absent is an [option] field and [.get(k, d)] is
      written out with its default.
    - Exceptions are values of [res]; [try]/[except] is a [match] on it. *)

From Stdlib Require Import QArith Qround Qabs Lqa String Ascii List ZArith Lia.
From stdpp Require Import gmap strings.

Open Scope string_scope.

(** ** Python built-ins used by the scripts *)

Module Py.

(** The exception classes that occur: the two raised by [float()] and the
    ones [requests.get] / [raise_for_status] raise.  [Timeout],
    [ConnectionError] and [HTTPError] are subclasses of
    [requests.exceptions.RequestException]; [TypeError] and [ValueError] are
    not. *)
Inductive exn : Type :=
  | TypeError
  | ValueError
  | Timeout
  | ConnectionError
  | HTTPError.

Definition is_Timeout (e : exn) : bool :=
  match e with Timeout => true | _ => false end.

Definition is_RequestException (e : exn) : bool :=
  match e with
  | Timeout | ConnectionError | HTTPError => true
  | TypeError | ValueError => false
  end.

(** Outcome of a Python call: a value or a raised exception. *)
Inductive res (A : Type) : Type :=
  | Ok (a : A)
  | Raise (e : exn).
Arguments Ok {A} a.
Arguments Raise {A} e.

Definition bind {A B : Type} (c : res A) (k : A -> res B) : res B :=
  match c with
  | Ok a => k a
  | Raise e => Raise e
  end.

(** [for x in xs: acc = body(acc, x)], stopping at the first exception. *)
Fixpoint for_each {A S : Type} (body : S -> A -> res S) (s : S) (xs : list A)
  : res S :=
  match xs with
  | [] => Ok s
  | x :: xs' => bind (body s x) (fun s' => for_each body s' xs')
  end.

(** [needle in hay] on strings. *)
Fixpoint contains (needle hay : string) : bool :=
  String.prefix needle hay ||
  match hay with
  | EmptyString => false
  | String _ hay' => contains needle hay'
  end.

(** [any(word in s for word in words)]. *)
Definition any_in (words : list string) (s : string) : bool :=
  existsb (fun word => contains word s) words.

(** [str.lower()] on the Basic Latin letters and on the Cyrillic block
    U+0400..U+042F (in UTF-8: D0 80..D0 AF), which holds the Russian capital
    letters; every other character is left as it is. *)
Definition lower_ascii (c : ascii) : ascii :=
  let n := N_of_ascii c in
  if ((65 <=? n) && (n <=? 90))%N then ascii_of_N (n + 32) else c.

Fixpoint lower (s : string) : string :=
  match s with
  | EmptyString => EmptyString
  | String c s' =>
      if (N_of_ascii c =? 208)%N then
        match s' with
        | EmptyString => String c EmptyString
        | String d s'' =>
            let n := N_of_ascii d in
            if ((128 <=? n) && (n <=? 143))%N then
              String (ascii_of_N 209) (String (ascii_of_N (n + 16)) (lower s''))
            else if ((144 <=? n) && (n <=? 159))%N then
              String c (String (ascii_of_N (n + 32)) (lower s''))
            else if ((160 <=? n) && (n <=? 175))%N then
              String (ascii_of_N 209) (String (ascii_of_N (n - 32)) (lower s''))
            else String c (String d (lower s''))
        end
      else String (lower_ascii c) (lower s')
  end.

(** The plain decimal literals accepted by [float(str)]: an optional sign,
    digits, and an optional fraction.  (Python also accepts surrounding
    blanks, exponents, underscores, [inf] and [nan]; those are not covered
    and count as unparsable here.) *)
Definition digit_of (c : ascii) : option Z :=
  let n := N_of_ascii c in
  if ((48 <=? n) && (n <=? 57))%N then Some (Z.of_N (n - 48)) else None.

Fixpoint parse_frac (s : string) (num : Z) (den : positive) : option Q :=
  match s with
  | EmptyString => Some (num # den)
  | String c s' =>
      match digit_of c with
      | Some d => parse_frac s' (10 * num + d)%Z (10 * den)%positive
      | None => None
      end
  end.

Fixpoint parse_int (s : string) (num : Z) : option Q :=
  match s with
  | EmptyString => Some (inject_Z num)
  | String c s' =>
      if (N_of_ascii c =? 46)%N then parse_frac s' num 1%positive
      else match digit_of c with
           | Some d => parse_int s' (10 * num + d)%Z
           | None => None
           end
  end.

Definition has_digit (s : string) : bool :=
  existsb (fun c => match digit_of c with Some _ => true | None => false end)
          (list_ascii_of_string s).

Definition float_of_str (s : string) : option Q :=
  match s with
  | EmptyString => None
  | String c s' =>
      if (N_of_ascii c =? 45)%N then
        if has_digit s' then option_map Qopp (parse_int s' 0) else None
      else if (N_of_ascii c =? 43)%N then
        if has_digit s' then parse_int s' 0 else None
      else if has_digit s then parse_int s 0 else None
  end.

(** [round(x, 2)]: to the nearest multiple of 1/100, a tie going to the even
    one. *)
Definition round_half_even (x : Q) : Z :=
  let f := Qfloor x in
  let r := (x - inject_Z f)%Q in
  if Qlt_le_dec r (1 # 2) then f
  else if Qlt_le_dec (1 # 2) r then (f + 1)%Z
  else if Z.even f then f else (f + 1)%Z.

Definition round2 (x : Q) : Q :=
  (inject_Z (round_half_even (x * 100)) / 100)%Q.

(** [sum(xs)] of numbers. *)
Definition sum (xs : list Q) : Q := fold_right Qplus 0%Q xs.

End Py.

Import Py.

(** ** Orders as they come from the API (JSON) *)

(** A JSON value of an attribute: [null], a boolean, a number, a string, or
    an object (attributes of a dictionary type carry one). *)
Inductive json : Type :=
  | VNone
  | VBool (b : bool)
  | VNum (x : Q)
  | VStr (s : string)
  | VObj.

(** An entry of [order["attributes"]]; a missing ["name"] reads as [""] and a
    missing ["value"] as [None]. *)
Record attribute : Type := {
  attr_name : string;
  attr_value : json
}.

(** ["buyPrice": {"value": ...}] *)
Record buy_price_obj : Type := {
  bp_value : option Q
}.

(** A catalog entry (product, bundle or variant) as JSON; [meta_type] is
    ["meta"]["type"] and [product_href] is ["product"]["meta"]["href"]. *)
Record catalog_entry : Type := {
  item_id : option string;
  item_name : option string;
  item_article : option string;
  item_code : option string;
  meta_type : option string;
  buyPrice : option buy_price_obj;
  product_href : option string
}.

(** An entry of [order["positions"]["rows"]]. *)
Record position : Type := {
  pos_quantity : option Q;
  pos_price : option Q;
  pos_discount : option Q;
  pos_vat : option Q;
  pos_assortment : catalog_entry
}.

Record order : Type := {
  order_name : option string;
  order_moment : option string;
  order_sum_field : option Q;
  order_vatSum : option Q;
  order_attributes : list attribute;
  order_positions : list position
}.

(** [d.get(key, default)] *)
Definition get {A : Type} (field : option A) (default : A) : A :=
  match field with
  | Some a => a
  | None => default
  end.

(** ** AttributeExtractor: [OrderProcessor.extract_commission_and_delivery]
    (optimized_script.py, app.py and sync_script.py have the same body) *)

Module Extractor.

Section Builtins.

(** [str.lower] and [float] on strings are built-ins of the interpreter:
    the extractor is written over any such pair, and run with [Py.lower] and
    [Py.float_of_str]. *)
Variable str_lower : string -> string.
Variable str_to_float : string -> option Q.

(** [float(v)]: [TypeError] on [None] and on objects, [ValueError] on a
    string that is not a number. *)
Definition float (v : json) : res Q :=
  match v with
  | VNone => Raise TypeError
  | VBool b => Ok (if b then 1 else 0)%Q
  | VNum x => Ok x
  | VStr s =>
      match str_to_float s with
      | Some x => Ok x
      | None => Raise ValueError
      end
  | VObj => Raise TypeError
  end.

(** [attr_value is None or attr_value == ""] *)
Definition is_blank (v : json) : bool :=
  match v with
  | VNone => true
  | VStr EmptyString => true
  | _ => false
  end.

(** The three running totals of the loop, and the returned dictionary. *)
Record costs : Type := {
  commission_percent : Q;
  commission_sum : Q;
  delivery_cost : Q
}.

(** The [if]/[elif]/[elif] chain on the commission keywords. *)
Definition classify_commission (c : costs) (attr_name attr_name_lower : string)
    (attr_value : Q) : costs :=
  if contains "комисс" attr_name_lower && contains "товар" attr_name_lower then
    {| commission_percent := commission_percent c;
       commission_sum := (commission_sum c + attr_value)%Q;
       delivery_cost := delivery_cost c |}
  else if contains "комисс" attr_name_lower
          && contains "доставк" attr_name_lower then
    {| commission_percent := commission_percent c;
       commission_sum := (commission_sum c + attr_value)%Q;
       delivery_cost := delivery_cost c |}
  else if contains "комисс" attr_name_lower then
    if contains "%" attr_name then
      {| commission_percent := attr_value;
         commission_sum := commission_sum c;
         delivery_cost := delivery_cost c |}
    else if contains "сумма" attr_name_lower then
      {| commission_percent := commission_percent c;
         commission_sum := (commission_sum c + attr_value)%Q;
         delivery_cost := delivery_cost c |}
    else c
  else c.

(** The separate [if] on the delivery keywords. *)
Definition classify_delivery (c : costs) (attr_name_lower : string)
    (attr_value : Q) : costs :=
  if contains "доставк" attr_name_lower || contains "delivery" attr_name_lower
  then
    if negb (contains "комисс" attr_name_lower) then
      if any_in ["стоимость"; "сумма"; "цена"; "cost"] attr_name_lower then
        {| commission_percent := commission_percent c;
           commission_sum := commission_sum c;
           delivery_cost := (delivery_cost c + attr_value)%Q |}
      else c
    else c
  else c.

(** Body of [for attr in attributes]. *)
Definition scan_attribute (c : costs) (attr : attribute) : res costs :=
  let attr_name := attr_name attr in
  let attr_value := attr_value attr in
  if is_blank attr_value then Ok c
  else
    match float attr_value with
    | Raise _ => Ok c
    | Ok attr_value =>
        let attr_name_lower := str_lower attr_name in
        let c := classify_commission c attr_name attr_name_lower attr_value in
        Ok (classify_delivery c attr_name_lower attr_value)
    end.

Definition no_costs : costs :=
  {| commission_percent := 0; commission_sum := 0; delivery_cost := 0 |}.

(** The statements after the loop: the commission is derived from the
    percentage when there is one and no sum was accumulated. *)
Definition apply_percent (order_sum : Q) (c : costs) : costs :=
  if Qlt_le_dec 0 (commission_percent c) then
    if Qeq_dec (commission_sum c) 0 then
      {| commission_percent := commission_percent c;
         commission_sum := (order_sum * (commission_percent c / 100))%Q;
         delivery_cost := delivery_cost c |}
    else c
  else c.

Definition extract_commission_and_delivery (o : order) : res costs :=
  bind (for_each scan_attribute no_costs (order_attributes o)) (fun c =>
  let order_sum := (get (order_sum_field o) 0 / 100)%Q in
  Ok (apply_percent order_sum c)).

End Builtins.

End Extractor.

(** ** CostResolver and AllocationEngine of optimized_script.py
    ([OrderProcessor.get_buy_price_for_item] and
    [OrderProcessor.process_orders]; app.py and sync_script.py have the same
    bodies) *)

(** The dictionary returned by [get_buy_price_for_item]: the buy price in
    minor units and the label of the rule that produced it. *)
Record buy_price_info : Type := {
  value : Q;
  source : string
}.

(** [buy_price_obj and buy_price_obj.get('value', 0) > 0], for
    [buy_price_obj = item.get('buyPrice', {})]. *)
Definition has_positive_value (buy_price_obj : option buy_price_obj) : bool :=
  match buy_price_obj with
  | None => false
  | Some o => if Qlt_le_dec 0 (get (bp_value o) 0%Q) then true else false
  end.

(** [buy_price_obj.get('value', 0)] *)
Definition get_value (buy_price_obj : option buy_price_obj) : Q :=
  match buy_price_obj with
  | None => 0%Q
  | Some o => get (bp_value o) 0%Q
  end.

(** [buy_price_info['value'] / 100 if buy_price_info['value'] > 0 else 0] *)
Definition cost_per_unit_of (buy_price_info : buy_price_info) : Q :=
  if Qlt_le_dec 0 (value buy_price_info) then (value buy_price_info / 100)%Q
  else 0%Q.

Definition not_found : buy_price_info :=
  {| value := 0; source := "не найдена" |}.

(** Truthiness of [item.get('article')]. *)
Definition truthy_str (s : option string) : option string :=
  match s with
  | Some EmptyString => None
  | other => other
  end.

Module Optimized.

Definition get_buy_price_for_item (item : catalog_entry) (item_type : string)
    (products_cache : gmap string catalog_entry) : buy_price_info :=
  if String.eqb item_type "product" then
    let buy_price_obj := buyPrice item in
    if has_positive_value buy_price_obj then
      {| value := get_value buy_price_obj; source := "товар" |}
    else not_found
  else if String.eqb item_type "bundle" then
    match truthy_str (item_article item) with
    | Some article =>
        match products_cache !! article with
        | Some base_product =>
            let buy_price_obj := buyPrice base_product in
            if has_positive_value buy_price_obj then
              {| value := get_value buy_price_obj;
                 source := "основной товар (арт. " ++ article ++ ")" |}
            else not_found
        | None => not_found
        end
    | None => not_found
    end
  else if String.eqb item_type "variant" then
    let buy_price_obj := buyPrice item in
    if has_positive_value buy_price_obj then
      {| value := get_value buy_price_obj; source := "модификация" |}
    else not_found
  else not_found.

(** The local variables of one pass of [for pos in positions]. *)
Record position_calc : Type := {
  item_type : string;
  buy_price : buy_price_info;
  cost_per_unit : Q;
  quantity : Q;
  price : Q;
  position_sum : Q;
  position_share : Q;
  delivery_per_position : Q;
  commission_per_position : Q;
  product_cost : Q;
  full_cost : Q;
  profit : Q;
  margin_percent : Q
}.

(** [(position_sum / order_sum) if order_sum > 0 else
     (1 / total_positions if total_positions > 0 else 0)] *)
Definition share (position_sum order_sum : Q) (total_positions : nat) : Q :=
  if Qlt_le_dec 0 order_sum then (position_sum / order_sum)%Q
  else if (0 <? total_positions)%nat
       then (1 / inject_Z (Z.of_nat total_positions))%Q
       else 0%Q.

Definition calc_position (products_cache : gmap string catalog_entry)
    (costs : Extractor.costs) (order_sum : Q) (total_positions : nat)
    (pos : position) : position_calc :=
  let assortment := pos_assortment pos in
  let item_type := get (meta_type assortment) "product" in
  let buy_price_info :=
    get_buy_price_for_item assortment item_type products_cache in
  let cost_per_unit := cost_per_unit_of buy_price_info in
  let quantity := get (pos_quantity pos) 0%Q in
  let price := (get (pos_price pos) 0 / 100)%Q in
  let position_sum := (price * quantity)%Q in
  let position_share := share position_sum order_sum total_positions in
  let delivery_per_position :=
    (Extractor.delivery_cost costs * position_share)%Q in
  let commission_per_position :=
    (Extractor.commission_sum costs * position_share)%Q in
  let product_cost := (cost_per_unit * quantity)%Q in
  let full_cost :=
    (product_cost + delivery_per_position + commission_per_position)%Q in
  let profit := (position_sum - full_cost)%Q in
  let margin_percent :=
    if Qlt_le_dec 0 position_sum then (profit / position_sum * 100)%Q
    else 0%Q in
  {| item_type := item_type; buy_price := buy_price_info;
     cost_per_unit := cost_per_unit; quantity := quantity; price := price;
     position_sum := position_sum; position_share := position_share;
     delivery_per_position := delivery_per_position;
     commission_per_position := commission_per_position;
     product_cost := product_cost; full_cost := full_cost;
     profit := profit; margin_percent := margin_percent |}.

(** A row of [positions_data]; the comment gives the key of the source. *)
Record position_data : Type := {
  pd_order : string;            (* "Номер заказа" *)
  pd_item : string;             (* "Товар" *)
  pd_article : string;          (* "Артикул" *)
  pd_type : string;             (* "Тип" *)
  pd_quantity : Q;              (* "Количество" *)
  pd_price : Q;                 (* "Цена" *)
  pd_sum : Q;                   (* "Сумма" *)
  pd_cost_per_unit : Q;         (* "Себестоимость товара ед." *)
  pd_product_cost : Q;          (* "Себестоимость товара общая" *)
  pd_delivery : Q;              (* "Доставка на позицию" *)
  pd_commission : Q;            (* "Комиссия на позицию" *)
  pd_full_cost : Q;             (* "ПОЛНАЯ себестоимость" *)
  pd_profit : Q;                (* "Прибыль" *)
  pd_margin : Q;                (* "Маржа %" *)
  pd_source : string            (* "Источник себестоимости" *)
}.

Definition emit_position (o : order) (pos : position) (k : position_calc)
  : position_data :=
  {| pd_order := get (order_name o) "";
     pd_item := get (item_name (pos_assortment pos)) "";
     pd_article := get (item_article (pos_assortment pos)) "";
     pd_type := item_type k;
     pd_quantity := quantity k;
     pd_price := round2 (price k);
     pd_sum := round2 (position_sum k);
     pd_cost_per_unit := round2 (cost_per_unit k);
     pd_product_cost := round2 (product_cost k);
     pd_delivery := round2 (delivery_per_position k);
     pd_commission := round2 (commission_per_position k);
     pd_full_cost := round2 (full_cost k);
     pd_profit := round2 (profit k);
     pd_margin := round2 (margin_percent k);
     pd_source := source (buy_price k) |}.

(** An entry of [summaries]. *)
Record summary : Type := {
  sm_order : string;            (* "Номер заказа" *)
  sm_revenue : Q;               (* "Выручка" *)
  sm_product_cost : Q;          (* "Себестоимость товаров" *)
  sm_delivery : Q;              (* "Доставка" *)
  sm_commission : Q;            (* "Комиссия МП" *)
  sm_full_cost : Q;             (* "ПОЛНАЯ себестоимость" *)
  sm_vat : Q;                   (* "НДС" *)
  sm_net_profit : Q;            (* "Чистая прибыль" *)
  sm_margin : Q;                (* "Рентабельность %" *)
  sm_positions : nat;           (* "Количество товаров" *)
  sm_cost_available : string    (* "Себестоимость доступна" *)
}.

(** Body of [for pos in positions]: [order_cost += full_cost] and
    [positions_data.append(position_data)]. *)
Definition process_position (products_cache : gmap string catalog_entry)
    (costs : Extractor.costs) (o : order) (order_sum : Q)
    (total_positions : nat) (st : Q * list position_data) (pos : position)
  : Q * list position_data :=
  let k := calc_position products_cache costs order_sum total_positions pos in
  ((fst st + full_cost k)%Q, (snd st ++ [emit_position o pos k])%list).

(** [sum(p["Себестоимость товара общая"] for p in positions_data
         if p["Номер заказа"] == order.get("name", ""))] *)
Definition product_cost_of_order (positions_data : list position_data)
    (name : string) : Q :=
  sum (map pd_product_cost
         (List.filter (fun p => String.eqb (pd_order p) name) positions_data)).

Definition make_summary (o : order) (costs : Extractor.costs)
    (order_sum order_cost : Q) (total_positions : nat)
    (positions_data : list position_data) : summary :=
  let vat_sum := (get (order_vatSum o) 0 / 100)%Q in
  let net_profit := (order_sum - order_cost - vat_sum)%Q in
  let margin_percent :=
    if Qlt_le_dec 0 order_sum then (net_profit / order_sum * 100)%Q
    else 0%Q in
  {| sm_order := get (order_name o) "";
     sm_revenue := round2 order_sum;
     sm_product_cost :=
       round2 (product_cost_of_order positions_data (get (order_name o) ""));
     sm_delivery := round2 (Extractor.delivery_cost costs);
     sm_commission := round2 (Extractor.commission_sum costs);
     sm_full_cost := round2 order_cost;
     sm_vat := round2 vat_sum;
     sm_net_profit := round2 net_profit;
     sm_margin := round2 margin_percent;
     sm_positions := total_positions;
     sm_cost_available :=
       if Qlt_le_dec 0 order_cost then "Да" else "Нет" |}.

Section Builtins.

Variable str_lower : string -> string.
Variable str_to_float : string -> option Q.

(** Body of [for idx, order in enumerate(orders)], on the two output lists
    the figures go to ([orders_data], a copy of the header fields, is left
    out). *)
Definition process_order (products_cache : gmap string catalog_entry)
    (out : list position_data * list summary) (o : order)
  : res (list position_data * list summary) :=
  bind (Extractor.extract_commission_and_delivery str_lower str_to_float o)
    (fun costs =>
  let positions := order_positions o in
  let total_positions := length positions in
  let order_sum := (get (order_sum_field o) 0 / 100)%Q in
  let '(order_cost, positions_data) :=
    fold_left
      (process_position products_cache costs o order_sum total_positions)
      positions (0%Q, fst out) in
  Ok (positions_data,
      (snd out ++ [make_summary o costs order_sum order_cost total_positions
                     positions_data])%list)).

Definition process_orders (orders : list order)
    (products_cache : gmap string catalog_entry)
  : res (list position_data * list summary) :=
  for_each (process_order products_cache) ([], []) orders.

End Builtins.

End Optimized.

(** ** CostResolver of final.py
    ([MoySkladAPI._make_request], [get_item_by_href],
    [get_product_by_article] and [OrderProcessor.get_buy_price_for_item]) *)

(** A JSON object without any of the fields of a catalog entry (what a
    listing body is when it is read as an entity). *)
Definition no_fields : catalog_entry :=
  {| item_id := None; item_name := None; item_article := None;
     item_code := None; meta_type := None; buyPrice := None;
     product_href := None |}.

Module Final.

(** The two kinds of GET request the resolver causes. *)
Inductive request : Type :=
  | GetProductByArticle (article : string)
      (* /entity/product, filter "article=<article>", limit 1 *)
  | GetHref (href : string).

(** A decoded JSON body: a listing with ["rows"], or one entity. *)
Inductive body : Type :=
  | Rows (rows : list catalog_entry)
  | Entity (e : catalog_entry).

(** The remote service: what the [n]-th request of the run is answered
    with, a body or the exception [requests.get] / [raise_for_status] /
    [response.json] raises. *)
Definition service : Type := nat -> request -> res body.

(** The mutable fields of [OrderProcessor] the resolver touches, and the log
    of the requests sent so far. *)
Record state : Type := {
  product_cache : gmap string catalog_entry;
  buy_price_cache : gmap (option string) buy_price_info;
  calls : list request
}.

Definition M (A : Type) : Type := state -> res A * state.

Definition ret {A : Type} (a : A) : M A := fun st => (Ok a, st).

Definition bindM {A B : Type} (c : M A) (k : A -> M B) : M B :=
  fun st =>
    match c st with
    | (Ok a, st') => k a st'
    | (Raise e, st') => (Raise e, st')
    end.

Notation "x <- c ;; k" := (bindM c (fun x => k))
  (at level 100, c at next level, right associativity).

(** [try: body  except <classes>: return handler] *)
Definition try_except {A : Type} (body : M A) (catches : exn -> bool)
    (handler : A) : M A :=
  fun st =>
    match body st with
    | (Ok a, st') => (Ok a, st')
    | (Raise e, st') => if catches e then (Ok handler, st') else (Raise e, st')
    end.

(** The state after a request has been sent. *)
Definition log_call (st : state) (req : request) : state :=
  {| product_cache := product_cache st;
     buy_price_cache := buy_price_cache st;
     calls := (calls st ++ [req])%list |}.

Section Service.

Variable api : service.

(** [requests.get(...)], [raise_for_status()] and [response.json()] *)
Definition requests_get (req : request) : M body :=
  fun st => (api (length (calls st)) req, log_call st req).

(** [MoySkladAPI._make_request]: [Timeout] and [RequestException] are
    caught and give [None]. *)
Definition _make_request (req : request) : M (option body) :=
  try_except
    (try_except (data <- requests_get req ;; ret (Some data)) is_Timeout None)
    is_RequestException None.

(** [MoySkladAPI.get_item_by_href]: every [Exception] is caught. *)
Definition get_item_by_href (href : option string)
  : M (option catalog_entry) :=
  match truthy_str href with
  | None => ret None
  | Some href =>
      try_except
        (try_except
           (data <- requests_get (GetHref href) ;;
            ret (Some match data with
                      | Entity e => e
                      | Rows _ => no_fields
                      end))
           is_Timeout None)
        (fun _ => true) None
  end.

(** [MoySkladAPI.get_product_by_article]:
    [data['rows'][0] if data and data.get('rows') else None] *)
Definition get_product_by_article (article : string)
  : M (option catalog_entry) :=
  data <- _make_request (GetProductByArticle article) ;;
  ret match data with
      | Some (Rows (product :: _)) => Some product
      | _ => None
      end.

(** [self.product_cache[article] = base_product] *)
Definition set_product_cache (article : string) (base_product : catalog_entry)
  : M unit :=
  fun st =>
    (Ok tt,
     {| product_cache := <[article := base_product]> (product_cache st);
        buy_price_cache := buy_price_cache st;
        calls := calls st |}).

(** [self.buy_price_cache[item_id] = result] *)
Definition set_buy_price_cache (item_id : option string)
    (result : buy_price_info) : M unit :=
  fun st =>
    (Ok tt,
     {| product_cache := product_cache st;
        buy_price_cache := <[item_id := result]> (buy_price_cache st);
        calls := calls st |}).

Definition get_state : M state := fun st => (Ok st, st).

(** The [if]/[elif] chain of [get_buy_price_for_item] that computes
    [buy_price] and [source] on a miss of [buy_price_cache]. *)
Definition resolve (item : catalog_entry) (item_type : string)
  : M buy_price_info :=
  if String.eqb item_type "product" then
    let buy_price_obj := buyPrice item in
    if has_positive_value buy_price_obj then
      ret {| value := get_value buy_price_obj; source := "товар" |}
    else ret not_found
  else if String.eqb item_type "bundle" then
    match truthy_str (item_article item) with
    | Some article =>
        st <- get_state ;;
        base_product <-
          match product_cache st !! article with
          | Some base_product => ret (Some base_product)
          | None =>
              base_product <- get_product_by_article article ;;
              match base_product with
              | Some p => _ <- set_product_cache article p ;; ret (Some p)
              | None => ret None
              end
          end ;;
        match base_product with
        | Some base_product =>
            let buy_price_obj := buyPrice base_product in
            if has_positive_value buy_price_obj then
              ret {| value := get_value buy_price_obj;
                     source := "основной товар (арт. " ++ article ++ ")" |}
            else ret not_found
        | None => ret not_found
        end
    | None => ret not_found
    end
  else if String.eqb item_type "variant" then
    let buy_price_obj := buyPrice item in
    if has_positive_value buy_price_obj then
      ret {| value := get_value buy_price_obj; source := "модификация" |}
    else
      match product_href item with
      | Some product_href =>
          base_product <- get_item_by_href (Some product_href) ;;
          match base_product with
          | Some base_product =>
              let buy_price_obj := buyPrice base_product in
              if has_positive_value buy_price_obj then
                ret {| value := get_value buy_price_obj;
                       source := "базовый товар модификации" |}
              else ret not_found
          | None => ret not_found
          end
      | None => ret not_found
      end
  else ret not_found.

Definition get_buy_price_for_item (item : catalog_entry) (item_type : string)
  : M buy_price_info :=
  let item_id := item_id item in
  st <- get_state ;;
  match buy_price_cache st !! item_id with
  | Some cached => ret cached
  | None =>
      result <- resolve item item_type ;;
      _ <- set_buy_price_cache item_id result ;;
      ret result
  end.

End Service.

Definition empty_state : state :=
  {| product_cache := ∅; buy_price_cache := ∅; calls := [] |}.

End Final.

(** ** The order summary of final.py
    ([OrderProcessor.calculate_order_summary]) *)

Module FinalReport.

(** An entry of the separately fetched [order_positions['rows']]: the
    quantity and the ["assortment"]["meta"] reference of the line. *)
Record position_ref : Type := {
  ref_quantity : option Q;
  ref_href : option string;
  ref_type : option string
}.

(** The dictionary [calculate_order_summary] returns. *)
Record summary : Type := {
  fs_order : string;            (* "Номер заказа" *)
  fs_revenue : Q;               (* "Выручка" *)
  fs_cost : Q;                  (* "Себестоимость" *)
  fs_commission : Q;            (* "Комиссия МП" *)
  fs_vat : Q;                   (* "НДС" *)
  fs_net_profit : Q;            (* "Чистая прибыль" *)
  fs_margin : Q;                (* "Рентабельность %" *)
  fs_quantity : Q;              (* "Количество товаров" *)
  fs_cost_available : string    (* "Себестоимость доступна" *)
}.

(** [for x in xs: s = body(s, x)] with the state of the processor threaded
    through, stopping at the first exception. *)
Fixpoint for_eachM {A S : Type} (body : S -> A -> Final.M S) (s : S)
    (xs : list A) : Final.M S :=
  match xs with
  | [] => Final.ret s
  | x :: xs' => Final.bindM (body s x) (fun s' => for_eachM body s' xs')
  end.

(** Truthiness of an attribute value (an object value, a reference to a
    dictionary entry, is a non-empty dictionary). *)
Definition truthy (v : json) : bool :=
  match v with
  | VNone => false
  | VBool b => b
  | VNum x => if Qeq_dec x 0 then false else true
  | VStr EmptyString => false
  | VStr _ => true
  | VObj => true
  end.

(** A pure computation run inside the processor. *)
Definition lift {A : Type} (c : res A) : Final.M A := fun st => (c, st).

(** The summary returned when there are no position rows. *)
Definition summary_without_rows (o : order) : summary :=
  {| fs_order := get (order_name o) "";
     fs_revenue := round2 (get (order_sum_field o) 0 / 100)%Q;
     fs_cost := 0;
     fs_commission := 0;
     fs_vat := (get (order_vatSum o) 0 / 100)%Q;
     fs_net_profit := 0;
     fs_margin := 0;
     fs_quantity := 0;
     fs_cost_available := "Нет" |}.

(** The statements after the two loops. *)
Definition summarize (o : order) (total_cost total_quantity : Q)
    (commission_percent marketplace_commission : Q) : summary :=
  let total_revenue := (get (order_sum_field o) 0 / 100)%Q in
  let marketplace_commission :=
    if Qlt_le_dec 0 commission_percent then
      if Qeq_dec marketplace_commission 0
      then (total_revenue * (commission_percent / 100))%Q
      else marketplace_commission
    else marketplace_commission in
  let vat_sum := (get (order_vatSum o) 0 / 100)%Q in
  let net_profit :=
    (total_revenue - total_cost - marketplace_commission - vat_sum)%Q in
  let margin_percent :=
    if Qlt_le_dec 0 total_revenue
    then (net_profit / total_revenue * 100)%Q
    else 0%Q in
  {| fs_order := get (order_name o) "";
     fs_revenue := round2 total_revenue;
     fs_cost := round2 total_cost;
     fs_commission := round2 marketplace_commission;
     fs_vat := round2 vat_sum;
     fs_net_profit := round2 net_profit;
     fs_margin := round2 margin_percent;
     fs_quantity := total_quantity;
     fs_cost_available := if Qlt_le_dec 0 total_cost then "Да" else "Нет" |}.

Section Builtins.

Variable str_lower : string -> string.
Variable str_to_float : string -> option Q.
Variable api : Final.service.

(** [float(attr.get("value", 0) or 0)] *)
Definition float_or_zero (v : json) : res Q :=
  if truthy v then Extractor.float str_to_float v else Ok 0%Q.

(** Body of [for attr in attributes], on the pair
    [(commission_percent, marketplace_commission)]: both are assigned, and
    [float] stands outside any [try]. *)
Definition scan_commission (c : Q * Q) (attr : attribute) : res (Q * Q) :=
  let attr_name := str_lower (attr_name attr) in
  if contains "комисс" attr_name then
    if contains "%" attr_name then
      bind (float_or_zero (attr_value attr)) (fun v => Ok (v, snd c))
    else if contains "сумма" attr_name then
      bind (float_or_zero (attr_value attr)) (fun v => Ok (fst c, v))
    else Ok c
  else Ok c.

(** Body of [for pos in order_positions['rows']], on the pair
    [(total_cost, total_quantity)]. *)
Definition add_position (t : Q * Q) (pos : position_ref)
  : Final.M (Q * Q) :=
  let assortment_href := get (ref_href pos) "" in
  let item_type := get (ref_type pos) "product" in
  Final.bindM (Final.get_item_by_href api (Some assortment_href))
    (fun item =>
  Final.bindM
    match item with
    | Some item =>
        Final.bindM (Final.get_buy_price_for_item api item item_type)
          (fun buy_price_info =>
             let cost_per_unit := cost_per_unit_of buy_price_info in
             Final.ret
               (fst t + cost_per_unit * get (ref_quantity pos) 0)%Q)
    | None => Final.ret (fst t)
    end
    (fun total_cost =>
       Final.ret (total_cost, (snd t + get (ref_quantity pos) 0)%Q))).

(** [order_positions] is the decoded body of the positions request: [None]
    when the request failed or the body has no ["rows"], else the rows. *)
Definition calculate_order_summary (o : order)
    (order_positions : option (list position_ref)) : Final.M summary :=
  match order_positions with
  | None | Some [] => Final.ret (summary_without_rows o)
  | Some rows =>
      Final.bindM (for_eachM add_position (0%Q, 0%Q) rows) (fun t =>
      Final.bindM
        (lift (for_each scan_commission (0%Q, 0%Q) (order_attributes o)))
        (fun c => Final.ret (summarize o (fst t) (snd t) (fst c) (snd c))))
  end.

End Builtins.

End FinalReport.

(** ** The stock totals of final.py
    ([MoySkladAPI.get_stock_by_store] and [OrderProcessor.get_total_stock]) *)

Module FinalStock.

(** An entry of [row['stockByStore']]. *)
Record store : Type := {
  store_stock : option Q;
  store_reserve : option Q
}.

(** A row of the /report/stock/bystore listing. *)
Record stock_row : Type := {
  stockByStore : option (list store)
}.

(** A decoded body of the report: without a ["rows"] key (or empty), or
    with its rows. *)
Inductive stock_body : Type :=
  | NoRows
  | Rows (rows : list stock_row).

(** The request of [get_stock_by_store]: the filter names the type and the
    id, and ["moment"] is sent when it is not empty. *)
Record stock_request : Type := {
  req_item_type : string;
  req_item_id : string;
  req_moment : option string
}.

Definition service : Type := nat -> stock_request -> res stock_body.

(** The dictionary [get_total_stock] returns. *)
Record stock_info : Type := {
  stock : Q;
  reserve : Q;
  available : Q
}.

(** [self.stock_cache], and the log of the requests sent so far. *)
Record state : Type := {
  stock_cache : gmap string stock_info;
  calls : list stock_request
}.

Definition M (A : Type) : Type := state -> res A * state.

Definition ret {A : Type} (a : A) : M A := fun st => (Ok a, st).

Definition bindM {A B : Type} (c : M A) (k : A -> M B) : M B :=
  fun st =>
    match c st with
    | (Ok a, st') => k a st'
    | (Raise e, st') => (Raise e, st')
    end.

Definition get_state : M state := fun st => (Ok st, st).

Definition log_call (st : state) (req : stock_request) : state :=
  {| stock_cache := stock_cache st; calls := (calls st ++ [req])%list |}.

(** [self.stock_cache[cache_key] = result] *)
Definition set_stock_cache (cache_key : string) (result : stock_info)
  : M unit :=
  fun st =>
    (Ok tt,
     {| stock_cache := <[cache_key := result]> (stock_cache st);
        calls := calls st |}).

(** [f"{item_type}_{item_id}_{moment}"]; [None] is formatted as "None". *)
Definition cache_key (item_id item_type : string) (moment : option string)
  : string :=
  item_type ++ "_" ++ item_id ++ "_" ++ get moment "None".

Definition no_stock : stock_info :=
  {| stock := 0; reserve := 0; available := 0 |}.

(** The two nested loops over the rows and their stores, on the pair
    [(total_stock, total_reserve)]. *)
Definition add_store (t : Q * Q) (s : store) : Q * Q :=
  ((fst t + get (store_stock s) 0)%Q, (snd t + get (store_reserve s) 0)%Q).

Definition add_row (t : Q * Q) (row : stock_row) : Q * Q :=
  fold_left add_store (get (stockByStore row) []) t.

Section Service.

Variable api : service.

(** [MoySkladAPI._make_request] of final.py: [Timeout] and
    [RequestException] give [None], other exceptions pass. *)
Definition _make_request (req : stock_request) : M (option stock_body) :=
  fun st =>
    match api (length (calls st)) req with
    | Ok data => (Ok (Some data), log_call st req)
    | Raise e =>
        if is_Timeout e then (Ok None, log_call st req)
        else if is_RequestException e then (Ok None, log_call st req)
        else (Raise e, log_call st req)
    end.

Definition get_stock_by_store (item_id item_type : string)
    (moment : option string) : M (option stock_body) :=
  if String.eqb item_type "bundle" then ret None
  else
    _make_request {| req_item_type := item_type;
                     req_item_id := item_id;
                     req_moment := truthy_str moment |}.

Definition get_total_stock (item_id item_type : string)
    (moment : option string) : M stock_info :=
  let cache_key := cache_key item_id item_type moment in
  bindM get_state (fun st =>
  match stock_cache st !! cache_key with
  | Some cached => ret cached
  | None =>
      if String.eqb item_type "bundle" then
        bindM (set_stock_cache cache_key no_stock) (fun _ => ret no_stock)
      else
        bindM (get_stock_by_store item_id item_type moment)
          (fun stock_data =>
             match stock_data with
             | None | Some NoRows | Some (Rows []) => ret no_stock
             | Some (Rows rows) =>
                 let t := fold_left add_row rows (0%Q, 0%Q) in
                 let result :=
                   {| stock := fst t;
                      reserve := snd t;
                      available := (fst t - snd t)%Q |} in
                 bindM (set_stock_cache cache_key result)
                   (fun _ => ret result)
             end)
  end).

End Service.

Definition empty_state : state := {| stock_cache := ∅; calls := [] |}.

End FinalStock.

(** ** The API client and [main] of optimized_script.py
    ([MoySkladAPI._make_request], [MoySkladAPI.get_all_orders], and the
    article collection, product loading and statistics blocks of [main];
    app.py [run_sync] and sync_script.py [main] have the same blocks) *)

Module OptimizedMain.

(** A decoded body of the order listing: [data] without a ["rows"] key (or
    an empty dictionary), or the rows of one page. *)
Inductive page : Type :=
  | NoRows
  | Page (rows : list order).

(** The order listing: what the [n]-th request of the run answers for a
    given [offset] (the limit and the date filter do not change during a
    run). *)
Definition order_service : Type := nat -> nat -> res page.

Definition limit : nat := 100.

(** [MoySkladAPI._make_request] of optimized_script.py: every [Exception]
    is caught and gives [None]. *)
Definition _make_request {A : Type} (answer : res A) : option A :=
  match answer with
  | Ok data => Some data
  | Raise _ => None
  end.

(** The [while True] loop of [get_all_orders]; [calls] logs the offsets
    requested.  One unit of fuel is one pass; [None] is a loop that has not
    ended within the fuel. *)
Fixpoint get_all_orders_loop (fuel : nat) (api : order_service)
    (offset : nat) (all_orders : list order) (calls : list nat)
  : option (list order * list nat) :=
  match fuel with
  | O => None
  | S fuel' =>
      let data := _make_request (api (length calls) offset) in
      let calls := (calls ++ [offset])%list in
      match data with
      | None | Some NoRows => Some (all_orders, calls)
      | Some (Page orders) =>
          let all_orders := (all_orders ++ orders)%list in
          if (length orders <? limit)%nat then Some (all_orders, calls)
          else get_all_orders_loop fuel' api (offset + limit) all_orders calls
      end
  end.

Definition get_all_orders (fuel : nat) (api : order_service)
  : option (list order * list nat) :=
  get_all_orders_loop fuel api 0 [] [].

(** The articles [main] collects: those of the bundle lines, in batch
    order ([unique_articles] is the set of them). *)
Definition bundle_articles (orders : list order) : list string :=
  flat_map
    (fun o =>
       flat_map
         (fun pos =>
            let assortment := pos_assortment pos in
            let item_type := get (meta_type assortment) "product" in
            match truthy_str (item_article assortment) with
            | Some article =>
                if String.eqb item_type "bundle" then [article] else []
            | None => []
            end)
         (order_positions o))
    orders.

(** [for article in unique_articles]: one product search per article, the
    first row stored under the article.  [articles] is the iteration order
    of the set; [calls] logs the requests. *)
Fixpoint load_products (api : Final.service) (articles : list string)
    (products_cache : gmap string catalog_entry) (calls : list Final.request)
  : gmap string catalog_entry * list Final.request :=
  match articles with
  | [] => (products_cache, calls)
  | article :: rest =>
      let req := Final.GetProductByArticle article in
      let data := _make_request (api (length calls) req) in
      let calls := (calls ++ [req])%list in
      let products_cache :=
        match data with
        | Some (Final.Rows (product :: _)) =>
            <[article := product]> products_cache
        | _ => products_cache
        end in
      load_products api rest products_cache calls
  end.

(** The rows of the statistics table ([total_stats]); [None] is the empty
    [DataFrame] of an empty summary table. *)
Record stats : Type := {
  st_revenue : Q;               (* "Общая выручка" *)
  st_product_cost : Q;          (* "Себестоимость товаров" *)
  st_delivery : Q;              (* "Доставка" *)
  st_commission : Q;            (* "Комиссии МП" *)
  st_full_cost : Q;             (* "ПОЛНАЯ себестоимость" *)
  st_vat : Q;                   (* "НДС" *)
  st_net_profit : Q;            (* "Чистая прибыль" *)
  st_margin : Q;                (* "Средняя рентабельность %" *)
  st_orders : nat;              (* "Количество заказов" *)
  st_mean_revenue : Q           (* "Средний чек" *)
}.

(** [Series.mean()] of a non-empty column. *)
Definition mean (xs : list Q) : Q :=
  (sum xs / inject_Z (Z.of_nat (length xs)))%Q.

Definition total_stats (summaries : list Optimized.summary) : option stats :=
  match summaries with
  | [] => None
  | _ =>
      Some
        {| st_revenue := round2 (sum (map Optimized.sm_revenue summaries));
           st_product_cost :=
             round2 (sum (map Optimized.sm_product_cost summaries));
           st_delivery := round2 (sum (map Optimized.sm_delivery summaries));
           st_commission :=
             round2 (sum (map Optimized.sm_commission summaries));
           st_full_cost := round2 (sum (map Optimized.sm_full_cost summaries));
           st_vat := round2 (sum (map Optimized.sm_vat summaries));
           st_net_profit :=
             round2 (sum (map Optimized.sm_net_profit summaries));
           st_margin := round2 (mean (map Optimized.sm_margin summaries));
           st_orders := length summaries;
           st_mean_revenue :=
             round2 (mean (map Optimized.sm_revenue summaries)) |}
  end.

End OptimizedMain.

(** ** Notions used in the statements *)

(** [order.get("sum", 0) / 100], the order revenue of the header. *)
Definition order_revenue (o : order) : Q :=
  (get (order_sum_field o) 0 / 100)%Q.

(** The revenue of a line: its price (given in hundredths) times its
    quantity. *)
Definition line_revenue (pos : position) : Q :=
  (get (pos_price pos) 0 / 100 * get (pos_quantity pos) 0)%Q.

(** The per-line locals of one order, in line order. *)
Definition calc_positions (products_cache : gmap string catalog_entry)
    (costs : Extractor.costs) (o : order) : list Optimized.position_calc :=
  map (Optimized.calc_position products_cache costs (order_revenue o)
         (length (order_positions o)))
      (order_positions o).

(** The rows one order adds to [positions_data]. *)
Definition order_rows (products_cache : gmap string catalog_entry)
    (costs : Extractor.costs) (o : order) : list Optimized.position_data :=
  map (fun pos =>
         Optimized.emit_position o pos
           (Optimized.calc_position products_cache costs (order_revenue o)
              (length (order_positions o)) pos))
      (order_positions o).

(** The result for a price object found under the rule [label]. *)
Definition priced (buy_price_obj : option buy_price_obj) (label : string)
  : buy_price_info :=
  if has_positive_value buy_price_obj
  then {| value := get_value buy_price_obj; source := label |}
  else not_found.

(** A bundle and a variant of the sample catalog. *)
Definition bundle_entry (id article : string) : catalog_entry :=
  {| item_id := Some id; item_name := None; item_article := Some article;
     item_code := None; meta_type := Some "bundle"; buyPrice := None;
     product_href := None |}.

Definition variant_entry (id : string) (own : option Q) (href : string)
  : catalog_entry :=
  {| item_id := Some id; item_name := None; item_article := None;
     item_code := None; meta_type := Some "variant";
     buyPrice := option_map (fun v => {| bp_value := Some v |}) own;
     product_href := Some href |}.

Definition base_entry (id : string) (buy_price : Q) : catalog_entry :=
  {| item_id := Some id; item_name := None; item_article := None;
     item_code := None; meta_type := Some "product";
     buyPrice := Some {| bp_value := Some buy_price |};
     product_href := None |}.

(** The unit cost is not negative, and it is positive exactly when the
    source is not the not-found label. *)
Definition cost_info_ok (r : buy_price_info) : Prop :=
  (0 <= cost_per_unit_of r)%Q
  /\ ((0 < cost_per_unit_of r)%Q <-> source r <> "не найдена")
  /\ (source r = "не найдена" -> (cost_per_unit_of r == 0)%Q).

(** A result is the not-found record or a positive price under a label
    that is not the not-found label. *)
Definition well_sourced (r : buy_price_info) : Prop :=
  r = not_found
  \/ exists obj label, r = priced obj label /\ label <> "не найдена".

(** The same order with other attributes. *)
Definition with_attributes (o : order) (attrs : list attribute) : order :=
  {| order_name := order_name o; order_moment := order_moment o;
     order_sum_field := order_sum_field o; order_vatSum := order_vatSum o;
     order_attributes := attrs; order_positions := order_positions o |}.

(** The condition under which the commission chain of
    [extract_commission_and_delivery] changes a total. *)
Definition commission_rule (attr_name attr_name_lower : string) : bool :=
  contains "комисс" attr_name_lower
  && (contains "товар" attr_name_lower
      || contains "доставк" attr_name_lower
      || contains "%" attr_name
      || contains "сумма" attr_name_lower).

(** The condition under which its delivery [if] adds to [delivery_cost]. *)
Definition delivery_rule (attr_name_lower : string) : bool :=
  (contains "доставк" attr_name_lower || contains "delivery" attr_name_lower)
  && negb (contains "комисс" attr_name_lower)
  && any_in ["стоимость"; "сумма"; "цена"; "cost"] attr_name_lower.

(** The delivery rule in the words of the specification (§4.1): the name
    contains "delivery" or "доставка", does not contain "commission", and
    contains one of "cost", "price", "amount", "стоимость", "сумма",
    "цена". *)
Definition spec_delivery_rule (attr_name_lower : string) : bool :=
  (contains "delivery" attr_name_lower || contains "доставка" attr_name_lower)
  && negb (contains "commission" attr_name_lower)
  && any_in ["cost"; "price"; "amount"; "стоимость"; "сумма"; "цена"]
       attr_name_lower.

(** An order that has only a header sum (in minor units) and attributes. *)
Definition order_with (sum_minor : Q) (attrs : list attribute) : order :=
  {| order_name := Some "00100"; order_moment := None;
     order_sum_field := Some sum_minor; order_vatSum := None;
     order_attributes := attrs; order_positions := [] |}.

(** ** Sample catalog entries and orders *)

Module Sample.

Definition product (id name : string) (buy_price : Q) : catalog_entry :=
  {| item_id := Some id; item_name := Some name; item_article := None;
     item_code := None; meta_type := Some "product";
     buyPrice := Some {| bp_value := Some buy_price |};
     product_href := None |}.

Definition line (quantity price : Q) (assortment : catalog_entry) : position :=
  {| pos_quantity := Some quantity; pos_price := Some price;
     pos_discount := Some 0%Q; pos_vat := Some 0%Q;
     pos_assortment := assortment |}.

Definition tea : catalog_entry := product "p-1" "Чай" 20000.
Definition cup : catalog_entry := product "p-2" "Кружка" 10000.

(** Revenue 1000.00, delivery 50, two lines of 600.00 and 400.00. *)
Definition two_line_order : order :=
  {| order_name := Some "00041"; order_moment := None;
     order_sum_field := Some 100000%Q; order_vatSum := Some 0%Q;
     order_attributes :=
       [{| attr_name := "Стоимость доставки"; attr_value := VNum 50 |}];
     order_positions := [line 1 60000 tea; line 2 20000 cup] |}.

(** One line of 1 x 1000.00 sold with a 10 % discount: the header sum is
    900.00, the delivery costs 90. *)
Definition discounted_order : order :=
  {| order_name := Some "00042"; order_moment := None;
     order_sum_field := Some 90000%Q; order_vatSum := Some 0%Q;
     order_attributes :=
       [{| attr_name := "Стоимость доставки"; attr_value := VNum 90 |}];
     order_positions :=
       [{| pos_quantity := Some 1%Q; pos_price := Some 100000%Q;
           pos_discount := Some 10%Q; pos_vat := Some 0%Q;
           pos_assortment := tea |}] |}.

(** A header with a delivery cost and no lines. *)
Definition empty_order : order :=
  {| order_name := Some "00044"; order_moment := None;
     order_sum_field := Some 100000%Q; order_vatSum := None;
     order_attributes :=
       [{| attr_name := "Стоимость доставки"; attr_value := VNum 90 |}];
     order_positions := [] |}.

(** Header sum 0, three lines. *)
Definition free_order : order :=
  {| order_name := Some "00043"; order_moment := None;
     order_sum_field := Some 0%Q; order_vatSum := None;
     order_attributes :=
       [{| attr_name := "Стоимость доставки"; attr_value := VNum 100 |}];
     order_positions := [line 1 0 tea; line 1 0 cup; line 2 0 cup] |}.

(** Two orders that carry the same number: 1 x tea, then 3 x cup. *)
Definition first_00001 : order :=
  {| order_name := Some "00001"; order_moment := Some "2023-12-30 10:00:00";
     order_sum_field := Some 50000%Q; order_vatSum := Some 0%Q;
     order_attributes := [];
     order_positions := [line 1 50000 tea] |}.

Definition second_00001 : order :=
  {| order_name := Some "00001"; order_moment := Some "2024-01-09 12:30:00";
     order_sum_field := Some 60000%Q; order_vatSum := Some 0%Q;
     order_attributes := [];
     order_positions := [line 3 20000 cup] |}.

End Sample.

(** The product a search answer gives: the first row of a listing. *)
Definition first_row (answer : res Final.body) : option catalog_entry :=
  match answer with
  | Ok (Final.Rows (product :: _)) => Some product
  | _ => None
  end.

(** ** Further notions for the attribute extractor *)

(** The number the loop of [extract_commission_and_delivery] sees in an
    attribute: none when the value is blank or [float()] raises. *)
Definition parsed (str_to_float : string -> option Q) (attr : attribute)
  : option Q :=
  if Extractor.is_blank (attr_value attr) then None
  else match Extractor.float str_to_float (attr_value attr) with
       | Ok v => Some v
       | Raise _ => None
       end.

(** The condition of the branch that assigns [commission_percent]. *)
Definition percent_rule (attr_name attr_name_lower : string) : bool :=
  contains "комисс" attr_name_lower
  && negb (contains "товар" attr_name_lower)
  && negb (contains "доставк" attr_name_lower)
  && contains "%" attr_name.

(** The condition of the three branches that add to [commission_sum]. *)
Definition commission_sum_rule (attr_name attr_name_lower : string) : bool :=
  contains "комисс" attr_name_lower
  && (contains "товар" attr_name_lower
      || contains "доставк" attr_name_lower
      || (negb (contains "%" attr_name) && contains "сумма" attr_name_lower)).

(** The parsed values of the attributes a rule selects, in list order. *)
Definition values_where (str_lower : string -> string)
    (str_to_float : string -> option Q)
    (rule : string -> string -> bool) (attrs : list attribute) : list Q :=
  flat_map (fun attr =>
              match parsed str_to_float attr with
              | Some v =>
                  if rule (attr_name attr) (str_lower (attr_name attr))
                  then [v] else []
              | None => []
              end)
           attrs.

(** ** Notions for the order summary of final.py *)

(** An attribute whose value [calculate_order_summary] passes to [float]:
    the lower-cased name has "комисс" and "%" or "сумма". *)
Definition commission_field (str_lower : string -> string)
    (attr : attribute) : bool :=
  let attr_name := str_lower (attr_name attr) in
  contains "комисс" attr_name
  && (contains "%" attr_name || contains "сумма" attr_name).

(** [pos.get("quantity", 0)] *)
Definition quantity_of (pos : FinalReport.position_ref) : Q :=
  get (FinalReport.ref_quantity pos) 0%Q.

(** The item requests of the positions loop: one per row whose assortment
    has a non-empty href, in row order. *)
Definition item_requests (rows : list FinalReport.position_ref)
  : list Final.request :=
  flat_map
    (fun pos =>
       match truthy_str (FinalReport.ref_href pos) with
       | Some href => [Final.GetHref href]
       | None => []
       end)
    rows.

(** A position row with all three keys present. *)
Definition position_row (quantity : Q) (href type : string)
  : FinalReport.position_ref :=
  {| FinalReport.ref_quantity := Some quantity;
     FinalReport.ref_href := Some href;
     FinalReport.ref_type := Some type |}.

(** ** Notions for the stock totals of final.py *)

(** All stores of all rows of a report, in order. *)
Definition stores_of (rows : list FinalStock.stock_row)
  : list FinalStock.store :=
  flat_map (fun row => get (FinalStock.stockByStore row) []) rows.

(** The request [get_total_stock] causes for an item that is no bundle. *)
Definition stock_request_of (item_id item_type : string)
    (moment : option string) : FinalStock.stock_request :=
  {| FinalStock.req_item_type := item_type;
     FinalStock.req_item_id := item_id;
     FinalStock.req_moment := truthy_str moment |}.

(** An answer from which [get_total_stock] reads no totals: a failed
    request, a body without rows, or an empty listing. *)
Definition without_stock_rows (answer : res FinalStock.stock_body) : Prop :=
  (exists e, answer = Raise e /\ is_RequestException e = true)
  \/ answer = Ok FinalStock.NoRows
  \/ answer = Ok (FinalStock.Rows []).

(** The figures of a stock record fit together. *)
Definition stock_info_ok (r : FinalStock.stock_info) : Prop :=
  (FinalStock.available r == FinalStock.stock r - FinalStock.reserve r)%Q.

(** * Proofs *)

Local Open Scope Q_scope.

Example lower_mixed :
  lower "Стоимость ДОСТАВКИ (Delivery)" = "стоимость доставки (delivery)".
Proof. reflexivity. Qed.

Example lower_yo : lower "ЁЖ" = "ёж".
Proof. reflexivity. Qed.

Example contains_mid : contains "доставк" "стоимость доставки" = true.
Proof. reflexivity. Qed.

Example float_of_str_ex :
  float_of_str "12.50" = Some (1250 # 100) /\ float_of_str "-3" = Some (-3 # 1)
  /\ float_of_str "abc" = None /\ float_of_str "." = None.
Proof. repeat split; reflexivity. Qed.

Example round2_ex :
  (round2 (1 # 3) == 33 # 100 /\ round2 (1 # 8) == 12 # 100
   /\ round2 (3 # 8) == 38 # 100 /\ round2 (- (1 # 3)) == - (33 # 100))%Q.
Proof. repeat split; reflexivity. Qed.

(** ** Rounding *)

Lemma round_half_even_near (x : Q) :
  - (1 # 2) <= inject_Z (round_half_even x) - x <= 1 # 2.
Proof.
  unfold round_half_even.
  pose proof (Qfloor_le x) as Hlo.
  pose proof (Qlt_floor x) as Hhi.
  rewrite inject_Z_plus in Hhi. change (inject_Z 1) with 1 in Hhi.
  destruct (Qlt_le_dec (x - inject_Z (Qfloor x)) (1 # 2)) as [Hlt | Hge].
  - split; lra.
  - destruct (Qlt_le_dec (1 # 2) (x - inject_Z (Qfloor x))) as [Hgt | Hle].
    + rewrite inject_Z_plus. change (inject_Z 1) with 1. split; lra.
    + destruct (Z.even (Qfloor x)).
      * split; lra.
      * rewrite inject_Z_plus. change (inject_Z 1) with 1. split; lra.
Qed.

Lemma round2_near (x : Q) : - (1 # 200) <= round2 x - x <= 1 # 200.
Proof.
  unfold round2.
  pose proof (round_half_even_near (x * 100)) as [Hlo Hhi].
  unfold Qdiv. change (/ 100) with (1 # 100).
  split; lra.
Qed.

Lemma round2_error (x : Q) : Qabs (round2 x - x) <= 1 # 200.
Proof.
  pose proof (round2_near x) as [Hlo Hhi].
  apply Qabs_Qle_condition. split; lra.
Qed.

Lemma sum_app (xs ys : list Q) : sum (xs ++ ys) == sum xs + sum ys.
Proof.
  induction xs as [| x xs IH]; simpl.
  - lra.
  - rewrite IH. lra.
Qed.

Lemma sum_map_const {A : Type} (f : A -> Q) (c : Q) (l : list A) :
  (forall a, In a l -> f a == c) ->
  sum (map f l) == inject_Z (Z.of_nat (length l)) * c.
Proof.
  induction l as [| a l IH]; intros Hall.
  - simpl. change (inject_Z (Z.of_nat 0)) with 0. lra.
  - change (sum (map f (a :: l))) with (f a + sum (map f l)).
    rewrite IH by (intros b Hb; apply Hall; right; exact Hb).
    rewrite (Hall a) by (left; reflexivity).
    change (length (a :: l)) with (S (length l)).
    rewrite Nat2Z.inj_succ. unfold Z.succ. rewrite inject_Z_plus.
    change (inject_Z 1) with 1. lra.
Qed.

Lemma sum_map_scale {A : Type} (f : A -> Q) (c : Q) (l : list A) :
  sum (map (fun a => c * f a) l) == c * sum (map f l).
Proof.
  induction l as [| a l IH]; simpl.
  - lra.
  - rewrite IH. lra.
Qed.

Lemma sum_map_ext {A : Type} (f g : A -> Q) (l : list A) :
  (forall a, In a l -> f a == g a) -> sum (map f l) == sum (map g l).
Proof.
  induction l as [| a l IH]; intros Hall; simpl.
  - reflexivity.
  - rewrite (Hall a) by (left; reflexivity).
    rewrite IH by (intros b Hb; apply Hall; right; exact Hb).
    reflexivity.
Qed.

(** Rounding every term moves a sum by at most half a cent per term. *)
Lemma sum_round2_error {A : Type} (f : A -> Q) (l : list A) :
  Qabs (sum (map (fun a => round2 (f a)) l) - sum (map f l))
  <= (1 # 200) * inject_Z (Z.of_nat (length l)).
Proof.
  apply Qabs_Qle_condition.
  induction l as [| a l [IHlo IHhi]].
  - simpl. change (inject_Z (Z.of_nat 0)) with 0. split; lra.
  - change (sum (map (fun a0 => round2 (f a0)) (a :: l)))
      with (round2 (f a) + sum (map (fun a0 => round2 (f a0)) l)).
    change (sum (map f (a :: l))) with (f a + sum (map f l)).
    change (length (a :: l)) with (S (length l)).
    rewrite Nat2Z.inj_succ. unfold Z.succ. rewrite inject_Z_plus.
    change (inject_Z 1) with 1.
    pose proof (round2_near (f a)) as [Hlo Hhi].
    split; lra.
Qed.

(** ** The share expression *)

Lemma share_cases (position_sum order_sum : Q) (n : nat) :
  (0 < order_sum -> Optimized.share position_sum order_sum n
                    == position_sum / order_sum)
  /\ (~ 0 < order_sum -> (0 < n)%nat ->
      Optimized.share position_sum order_sum n == 1 / inject_Z (Z.of_nat n))
  /\ (~ 0 < order_sum -> n = 0%nat ->
      Optimized.share position_sum order_sum n == 0).
Proof.
  unfold Optimized.share.
  destruct (Qlt_le_dec 0 order_sum) as [Hpos | Hnpos].
  - repeat split; intros; try reflexivity; contradiction.
  - repeat split; intros.
    + lra.
    + destruct (Nat.ltb_spec 0 n); [reflexivity | lia].
    + subst n. reflexivity.
Qed.

Lemma position_share_calc pc costs order_sum n pos :
  Optimized.position_share (Optimized.calc_position pc costs order_sum n pos)
  = Optimized.share
      (Optimized.position_sum (Optimized.calc_position pc costs order_sum n pos))
      order_sum n.
Proof. reflexivity. Qed.

Lemma in_calc_positions pc costs o k :
  In k (calc_positions pc costs o) ->
  exists pos, In pos (order_positions o)
    /\ k = Optimized.calc_position pc costs (order_revenue o)
             (length (order_positions o)) pos.
Proof.
  unfold calc_positions. intros Hin.
  apply in_map_iff in Hin. destruct Hin as [pos [Hk Hpos]].
  exists pos. split; [exact Hpos | symmetry; exact Hk].
Qed.

Lemma length_calc_positions pc costs o :
  length (calc_positions pc costs o) = length (order_positions o).
Proof. unfold calc_positions. apply length_map. Qed.

(** ** Reconciliation of the allocated shared costs (C1) *)

Lemma sum_map_div {A : Type} (f : A -> Q) (d : Q) (l : list A) :
  sum (map (fun a => f a / d) l) == sum (map f l) / d.
Proof.
  induction l as [| a l IH]; simpl.
  - unfold Qdiv. lra.
  - rewrite IH. unfold Qdiv. lra.
Qed.

Lemma shares_sum_to_one pc costs o :
  (0 < length (order_positions o))%nat ->
  (0 < order_revenue o ->
   sum (map Optimized.position_sum (calc_positions pc costs o))
   == order_revenue o) ->
  sum (map Optimized.position_share (calc_positions pc costs o)) == 1.
Proof.
  intros Hn Hrev.
  destruct (Qlt_le_dec 0 (order_revenue o)) as [Hpos | Hnpos].
  - rewrite (sum_map_ext _
               (fun k => Optimized.position_sum k / order_revenue o)).
    + rewrite sum_map_div, (Hrev Hpos). field. lra.
    + intros k Hk. apply in_calc_positions in Hk. destruct Hk as [pos [_ ->]].
      rewrite position_share_calc.
      apply (share_cases _ (order_revenue o) _). exact Hpos.
  - rewrite (sum_map_const _
               (1 / inject_Z (Z.of_nat (length (order_positions o))))).
    + rewrite length_calc_positions.
      assert (Hnz : ~ inject_Z (Z.of_nat (length (order_positions o))) == 0).
      { intros H.
        assert (H' : Z.of_nat (length (order_positions o)) = 0%Z)
          by (apply inject_Z_injective; exact H).
        lia. }
      field. exact Hnz.
    + intros k Hk. apply in_calc_positions in Hk. destruct Hk as [pos [_ ->]].
      rewrite position_share_calc.
      apply (share_cases _ (order_revenue o) _); [lra | exact Hn].
Qed.

Lemma delivery_per_position_calc pc costs order_sum n pos :
  Optimized.delivery_per_position
    (Optimized.calc_position pc costs order_sum n pos)
  = Extractor.delivery_cost costs
    * Optimized.position_share
        (Optimized.calc_position pc costs order_sum n pos).
Proof. reflexivity. Qed.

Lemma commission_per_position_calc pc costs order_sum n pos :
  Optimized.commission_per_position
    (Optimized.calc_position pc costs order_sum n pos)
  = Extractor.commission_sum costs
    * Optimized.position_share
        (Optimized.calc_position pc costs order_sum n pos).
Proof. reflexivity. Qed.

Lemma allocated_delivery_total pc costs o :
  sum (map Optimized.delivery_per_position (calc_positions pc costs o))
  == Extractor.delivery_cost costs
     * sum (map Optimized.position_share (calc_positions pc costs o)).
Proof.
  rewrite <- sum_map_scale. apply sum_map_ext.
  intros k Hk. apply in_calc_positions in Hk. destruct Hk as [pos [_ ->]].
  rewrite delivery_per_position_calc. reflexivity.
Qed.

Lemma allocated_commission_total pc costs o :
  sum (map Optimized.commission_per_position (calc_positions pc costs o))
  == Extractor.commission_sum costs
     * sum (map Optimized.position_share (calc_positions pc costs o)).
Proof.
  rewrite <- sum_map_scale. apply sum_map_ext.
  intros k Hk. apply in_calc_positions in Hk. destruct Hk as [pos [_ ->]].
  rewrite commission_per_position_calc. reflexivity.
Qed.

(** What the loop over the positions of one order leaves behind. *)
Lemma fold_process_position pc costs o order_sum n positions c0 rows0 :
  fst (fold_left (Optimized.process_position pc costs o order_sum n)
         positions (c0, rows0))
  == c0 + sum (map Optimized.full_cost
                 (map (Optimized.calc_position pc costs order_sum n)
                    positions))
  /\ snd (fold_left (Optimized.process_position pc costs o order_sum n)
            positions (c0, rows0))
     = (rows0
        ++ map (fun pos =>
                  Optimized.emit_position o pos
                    (Optimized.calc_position pc costs order_sum n pos))
             positions)%list.
Proof.
  revert c0 rows0.
  induction positions as [| pos positions IH]; intros c0 rows0.
  - simpl. split; [lra | symmetry; apply app_nil_r].
  - destruct (IH (c0 + Optimized.full_cost
                         (Optimized.calc_position pc costs order_sum n pos))
                 (rows0 ++ [Optimized.emit_position o pos
                              (Optimized.calc_position pc costs order_sum n pos)])%list)
      as [IHc IHr].
    split.
    + eapply Qeq_trans; [exact IHc |]. simpl. lra.
    + etransitivity; [exact IHr |]. rewrite <- app_assoc. reflexivity.
Qed.

Lemma process_order_result str_lower str_to_float pc out o costs :
  Extractor.extract_commission_and_delivery str_lower str_to_float o
  = Ok costs ->
  exists order_cost,
    order_cost == sum (map Optimized.full_cost (calc_positions pc costs o))
    /\ Optimized.process_order str_lower str_to_float pc out o
       = Ok ((fst out ++ order_rows pc costs o)%list,
             (snd out
              ++ [Optimized.make_summary o costs (order_revenue o) order_cost
                    (length (order_positions o))
                    (fst out ++ order_rows pc costs o)%list])%list).
Proof.
  intros Hcosts. unfold Optimized.process_order. rewrite Hcosts. simpl bind.
  pose proof (fold_process_position pc costs o (get (order_sum_field o) 0 / 100)
                (length (order_positions o)) (order_positions o) 0 (fst out))
    as [Hc Hr].
  destruct (fold_left _ (order_positions o) (0, fst out))
    as [order_cost positions_data].
  simpl in Hc, Hr. subst positions_data.
  exists order_cost. split.
  - rewrite Hc. unfold calc_positions, order_revenue. lra.
  - reflexivity.
Qed.

Lemma order_rows_delivery pc costs o :
  map Optimized.pd_delivery (order_rows pc costs o)
  = map (fun k => round2 (Optimized.delivery_per_position k))
      (calc_positions pc costs o).
Proof.
  unfold order_rows, calc_positions. rewrite !map_map. reflexivity.
Qed.

Lemma order_rows_commission pc costs o :
  map Optimized.pd_commission (order_rows pc costs o)
  = map (fun k => round2 (Optimized.commission_per_position k))
      (calc_positions pc costs o).
Proof.
  unfold order_rows, calc_positions. rewrite !map_map. reflexivity.
Qed.

Lemma within_line_tolerance (rounded exact target : Q) (n : nat) :
  Qabs (rounded - exact) <= (1 # 200) * inject_Z (Z.of_nat n) ->
  exact == target ->
  Qabs (rounded - target) <= (1 # 100) * inject_Z (Z.of_nat n).
Proof.
  intros Herr Heq.
  assert (Hn : 0 <= inject_Z (Z.of_nat n)).
  { change 0 with (inject_Z 0). rewrite <- Zle_Qle. lia. }
  apply Qabs_Qle_condition in Herr. destruct Herr as [Hlo Hhi].
  apply Qabs_Qle_condition. split; lra.
Qed.

(** C1, as the code has it: for an order with at least one line whose
    header sum is not positive, or is positive and equal to the sum of its
    lines' price x quantity, the allocated delivery of its lines sums to the
    extracted delivery cost and the allocated commission to the extracted
    commission sum, exactly before the rows are rounded and within 0.01 per
    line after. *)
Theorem allocation_reconciles (str_lower : string -> string)
    (str_to_float : string -> option Q) (pc : gmap string catalog_entry)
    (out : list Optimized.position_data * list Optimized.summary)
    (o : order) (costs : Extractor.costs) :
  Extractor.extract_commission_and_delivery str_lower str_to_float o
  = Ok costs ->
  (0 < length (order_positions o))%nat ->
  (0 < order_revenue o ->
   sum (map Optimized.position_sum (calc_positions pc costs o))
   == order_revenue o) ->
  let n := inject_Z (Z.of_nat (length (order_positions o))) in
  let ks := calc_positions pc costs o in
  let rows := order_rows pc costs o in
  (exists sm, Optimized.process_order str_lower str_to_float pc out o
              = Ok ((fst out ++ rows)%list, (snd out ++ [sm])%list))
  /\ sum (map Optimized.delivery_per_position ks)
     == Extractor.delivery_cost costs
  /\ sum (map Optimized.commission_per_position ks)
     == Extractor.commission_sum costs
  /\ Qabs (sum (map Optimized.pd_delivery rows)
           - Extractor.delivery_cost costs) <= (1 # 100) * n
  /\ Qabs (sum (map Optimized.pd_commission rows)
           - Extractor.commission_sum costs) <= (1 # 100) * n.
Proof.
  intros Hcosts Hn Hrev n ks rows.
  pose proof (shares_sum_to_one pc costs o Hn Hrev) as Hone.
  assert (Hd : sum (map Optimized.delivery_per_position ks)
               == Extractor.delivery_cost costs).
  { subst ks. rewrite allocated_delivery_total, Hone. lra. }
  assert (Hc : sum (map Optimized.commission_per_position ks)
               == Extractor.commission_sum costs).
  { subst ks. rewrite allocated_commission_total, Hone. lra. }
  split; [| split; [exact Hd | split; [exact Hc | split]]].
  - destruct (process_order_result str_lower str_to_float pc out o costs Hcosts)
      as [order_cost [_ Hrun]].
    eexists. exact Hrun.
  - subst rows n. rewrite order_rows_delivery.
    apply (within_line_tolerance _
             (sum (map Optimized.delivery_per_position ks))).
    + rewrite <- (length_calc_positions pc costs o).
      apply sum_round2_error.
    + exact Hd.
  - subst rows n. rewrite order_rows_commission.
    apply (within_line_tolerance _
             (sum (map Optimized.commission_per_position ks))).
    + rewrite <- (length_calc_positions pc costs o).
      apply sum_round2_error.
    + exact Hc.
Qed.

Lemma allocation_reconciles_witness :
  Qabs (sum (map Optimized.pd_delivery
               (order_rows ∅
                  {| Extractor.commission_percent := 0;
                     Extractor.commission_sum := 0;
                     Extractor.delivery_cost := 0 + 50 |}
                  Sample.two_line_order))
        - (0 + 50))
  <= (1 # 100) * inject_Z 2.
Proof.
  refine (proj1 (proj2 (proj2 (proj2
    (allocation_reconciles lower float_of_str ∅ ([], [])
       Sample.two_line_order
       {| Extractor.commission_percent := 0; Extractor.commission_sum := 0;
          Extractor.delivery_cost := 0 + 50 |} _ _ _))))).
  - reflexivity.
  - simpl. lia.
  - intros _. vm_compute. reflexivity.
Defined.

(** C1 as stated fails: with a discounted line the header sum (900.00) is
    below price x quantity (1000.00), the share is 10/9 and the allocated
    delivery is 100 for a delivery cost of 90; and an order without lines
    allocates nothing of its delivery cost. *)
Lemma allocation_gap_counterexample :
  (exists costs rows sums,
     Extractor.extract_commission_and_delivery lower float_of_str
       Sample.discounted_order = Ok costs
     /\ Optimized.process_orders lower float_of_str [Sample.discounted_order] ∅
        = Ok (rows, sums)
     /\ sum (map Optimized.pd_delivery rows) == 100
     /\ Extractor.delivery_cost costs == 90
     /\ ~ Qabs (sum (map Optimized.pd_delivery rows)
                - Extractor.delivery_cost costs)
          <= (1 # 100)
             * inject_Z (Z.of_nat (length (order_positions
                                             Sample.discounted_order))))
  /\ (exists costs rows sums,
        Extractor.extract_commission_and_delivery lower float_of_str
          Sample.empty_order = Ok costs
        /\ Optimized.process_orders lower float_of_str [Sample.empty_order] ∅
           = Ok (rows, sums)
        /\ ~ Qabs (sum (map Optimized.pd_delivery rows)
                   - Extractor.delivery_cost costs)
             <= (1 # 100)
                * inject_Z (Z.of_nat (length (order_positions
                                                Sample.empty_order)))).
Proof.
  split.
  - eexists. eexists. eexists.
    split; [vm_compute; reflexivity |].
    split; [vm_compute; reflexivity |].
    split; [vm_compute; reflexivity |].
    split; [vm_compute; reflexivity |].
    apply Qlt_not_le. vm_compute. reflexivity.
  - eexists. eexists. eexists.
    split; [vm_compute; reflexivity |].
    split; [vm_compute; reflexivity |].
    apply Qlt_not_le. vm_compute. reflexivity.
Qed.

(** ** The order summary (C4) *)

Lemma round_half_even_comp (x y : Q) :
  x == y -> round_half_even x = round_half_even y.
Proof.
  intros Hxy. unfold round_half_even.
  rewrite (Qfloor_comp x y Hxy).
  destruct (Qlt_le_dec (x - inject_Z (Qfloor y)) (1 # 2)),
           (Qlt_le_dec (y - inject_Z (Qfloor y)) (1 # 2)); try lra.
  - reflexivity.
  - destruct (Qlt_le_dec (1 # 2) (x - inject_Z (Qfloor y))),
             (Qlt_le_dec (1 # 2) (y - inject_Z (Qfloor y))); try lra;
      reflexivity.
Qed.

Lemma round2_comp (x y : Q) : x == y -> round2 x == round2 y.
Proof.
  intros Hxy. unfold round2.
  rewrite (round_half_even_comp (x * 100) (y * 100)) by (rewrite Hxy; reflexivity).
  reflexivity.
Qed.

(** ** The revenue share on the rows of [process_order] (C2) *)

(** C2: the rows [process_order] adds for an order are those of its lines,
    and every line's share is its revenue (price x quantity) divided by
    the order revenue when the order revenue is > 0, else 1 / lineCount
    (the line count of an order with a line is > 0); the delivery and the
    commission of the line's row are the extracted costs times that share.
    The share expression gives 0 when the order revenue is not > 0 and the
    line count is 0.  In particular, for an order with revenue 0 and
    N > 0 lines every line gets share 1/N and the shares sum to 1. *)
Theorem share_rule (str_lower : string -> string)
    (str_to_float : string -> option Q) (pc : gmap string catalog_entry)
    (out : list Optimized.position_data * list Optimized.summary)
    (o : order) (costs : Extractor.costs) :
  Extractor.extract_commission_and_delivery str_lower str_to_float o
  = Ok costs ->
  let n := length (order_positions o) in
  let calc := Optimized.calc_position pc costs (order_revenue o) n in
  (exists sums,
     Optimized.process_order str_lower str_to_float pc out o
     = Ok ((fst out
            ++ map (fun pos => Optimized.emit_position o pos (calc pos))
                 (order_positions o))%list,
           sums))
  /\ (forall pos, In pos (order_positions o) ->
        let row := Optimized.emit_position o pos (calc pos) in
        (0 < order_revenue o ->
         Optimized.position_share (calc pos)
         == line_revenue pos / order_revenue o
         /\ Optimized.pd_delivery row
            == round2 (Extractor.delivery_cost costs
                       * (line_revenue pos / order_revenue o))
         /\ Optimized.pd_commission row
            == round2 (Extractor.commission_sum costs
                       * (line_revenue pos / order_revenue o)))
        /\ (~ 0 < order_revenue o ->
            (0 < n)%nat
            /\ Optimized.position_share (calc pos)
               == 1 / inject_Z (Z.of_nat n)
            /\ Optimized.pd_delivery row
               == round2 (Extractor.delivery_cost costs
                          * (1 / inject_Z (Z.of_nat n)))
            /\ Optimized.pd_commission row
               == round2 (Extractor.commission_sum costs
                          * (1 / inject_Z (Z.of_nat n)))))
  /\ (forall position_sum order_sum,
        ~ 0 < order_sum -> Optimized.share position_sum order_sum 0 == 0)
  /\ (order_revenue o == 0 -> (0 < n)%nat ->
      (forall pos, In pos (order_positions o) ->
         Optimized.position_share (calc pos) == 1 / inject_Z (Z.of_nat n))
      /\ sum (map (fun pos => Optimized.position_share (calc pos))
                (order_positions o)) == 1).
Proof.
  intros Hcosts n calc.
  assert (Hline : forall pos,
            Optimized.position_share (calc pos)
            = Optimized.share (line_revenue pos) (order_revenue o) n)
    by reflexivity.
  assert (Hrow : forall pos,
            Optimized.pd_delivery (Optimized.emit_position o pos (calc pos))
            = round2 (Extractor.delivery_cost costs
                      * Optimized.position_share (calc pos))
            /\ Optimized.pd_commission
                 (Optimized.emit_position o pos (calc pos))
               = round2 (Extractor.commission_sum costs
                         * Optimized.position_share (calc pos)))
    by (intros pos; split; reflexivity).
  split; [| split; [| split]].
  - destruct (process_order_result str_lower str_to_float pc out o costs
                Hcosts) as [order_cost [_ Hrun]].
    eexists. exact Hrun.
  - intros pos Hin row. subst row.
    destruct (Hrow pos) as [-> ->]. rewrite Hline.
    destruct (share_cases (line_revenue pos) (order_revenue o) n)
      as [Hpos [Heq _]].
    split.
    + intros HR. specialize (Hpos HR).
      split; [exact Hpos |].
      split; apply round2_comp; rewrite Hpos; reflexivity.
    + intros HR.
      assert (Hn : (0 < n)%nat).
      { subst n. destruct (order_positions o); [contradiction |].
        cbn [length]. lia. }
      specialize (Heq HR Hn).
      split; [exact Hn |]. split; [exact Heq |].
      split; apply round2_comp; rewrite Heq; reflexivity.
  - intros position_sum order_sum HR.
    destruct (share_cases position_sum order_sum 0) as [_ [_ Hzero]].
    apply Hzero; [exact HR | reflexivity].
  - intros Hzero Hn.
    assert (Hnpos : ~ 0 < order_revenue o) by lra.
    assert (Heach : forall pos, In pos (order_positions o) ->
              Optimized.position_share (calc pos)
              == 1 / inject_Z (Z.of_nat n)).
    { intros pos _. rewrite Hline.
      destruct (share_cases (line_revenue pos) (order_revenue o) n)
        as [_ [Heq _]].
      apply Heq; assumption. }
    split; [exact Heach |].
    rewrite (sum_map_const _ _ _ Heach). fold n.
    assert (Hnz : ~ inject_Z (Z.of_nat n) == 0).
    { intros H.
      assert (H' : Z.of_nat n = 0%Z) by (apply inject_Z_injective; exact H).
      lia. }
    field. exact Hnz.
Qed.

Lemma share_rule_witness :
  (let calc :=
     Optimized.calc_position ∅
       {| Extractor.commission_percent := 0; Extractor.commission_sum := 0;
          Extractor.delivery_cost := 0 + 50 |}
       (order_revenue Sample.two_line_order) 2 in
   Optimized.position_share (calc (Sample.line 1 60000 Sample.tea))
   == line_revenue (Sample.line 1 60000 Sample.tea)
      / order_revenue Sample.two_line_order
   /\ Optimized.pd_delivery
        (Optimized.emit_position Sample.two_line_order
           (Sample.line 1 60000 Sample.tea)
           (calc (Sample.line 1 60000 Sample.tea)))
      == 30)
  /\ sum (map (fun pos =>
                 Optimized.position_share
                   (Optimized.calc_position ∅
                      {| Extractor.commission_percent := 0;
                         Extractor.commission_sum := 0;
                         Extractor.delivery_cost := 0 + 100 |}
                      (order_revenue Sample.free_order) 3 pos))
            (order_positions Sample.free_order))
     == 1.
Proof.
  split.
  - destruct (proj1 (proj2 (share_rule lower float_of_str ∅ ([], [])
                              Sample.two_line_order
                              {| Extractor.commission_percent := 0;
                                 Extractor.commission_sum := 0;
                                 Extractor.delivery_cost := 0 + 50 |}
                              eq_refl))
                (Sample.line 1 60000 Sample.tea) (or_introl eq_refl))
      as [Hpos _].
    assert (HR : 0 < order_revenue Sample.two_line_order)
      by (vm_compute; reflexivity).
    destruct (Hpos HR) as [Hshare [Hdelivery _]].
    split; [exact Hshare |].
    eapply Qeq_trans; [exact Hdelivery |]. vm_compute. reflexivity.
  - refine (proj2 (proj2 (proj2 (proj2
             (share_rule lower float_of_str ∅ ([], []) Sample.free_order
                {| Extractor.commission_percent := 0;
                   Extractor.commission_sum := 0;
                   Extractor.delivery_cost := 0 + 100 |}
                eq_refl))) _ _)).
    + reflexivity.
    + simpl. lia.
Defined.

Lemma filter_emitted_rows (o : order)
    (calc : position -> Optimized.position_calc) (l : list position) :
  List.filter (fun p => String.eqb (Optimized.pd_order p) (get (order_name o) ""))
    (map (fun pos => Optimized.emit_position o pos (calc pos)) l)
  = map (fun pos => Optimized.emit_position o pos (calc pos)) l.
Proof.
  induction l as [| pos l IH].
  - reflexivity.
  - cbn [map List.filter].
    change (Optimized.pd_order (Optimized.emit_position o pos (calc pos)))
      with (get (order_name o) "").
    rewrite String.eqb_refl, IH. reflexivity.
Qed.

Lemma filter_order_rows pc costs o :
  List.filter (fun p => String.eqb (Optimized.pd_order p) (get (order_name o) ""))
    (order_rows pc costs o)
  = order_rows pc costs o.
Proof. unfold order_rows. apply filter_emitted_rows. Qed.

Lemma filter_other_orders (name : string) (rows : list Optimized.position_data) :
  (forall p, In p rows -> Optimized.pd_order p <> name) ->
  List.filter (fun p => String.eqb (Optimized.pd_order p) name) rows = [].
Proof.
  induction rows as [| p rows IH]; intros Hall; simpl.
  - reflexivity.
  - destruct (String.eqb_spec (Optimized.pd_order p) name) as [Heq | Hne].
    + exfalso. apply (Hall p); [left; reflexivity | exact Heq].
    + apply IH. intros q Hq. apply Hall. right. exact Hq.
Qed.

Lemma order_rows_product_cost pc costs o :
  map Optimized.pd_product_cost (order_rows pc costs o)
  = map (fun k => round2 (Optimized.product_cost k))
      (calc_positions pc costs o).
Proof.
  unfold order_rows, calc_positions. rewrite !map_map. reflexivity.
Qed.

(** The summary of an order whose number no earlier row of the batch
    carries: the product cost is the sum of the emitted (rounded) product
    costs of its lines, the full cost is the accumulated sum of the lines'
    full costs, and profit, margin and the availability flag follow from
    it. *)
Lemma summary_of_fresh_order (str_lower : string -> string)
    (str_to_float : string -> option Q) (pc : gmap string catalog_entry)
    (out : list Optimized.position_data * list Optimized.summary)
    (o : order) (costs : Extractor.costs) :
  Extractor.extract_commission_and_delivery str_lower str_to_float o
  = Ok costs ->
  (forall p, In p (fst out) ->
     Optimized.pd_order p <> get (order_name o) "") ->
  let ks := calc_positions pc costs o in
  let rows := order_rows pc costs o in
  let order_cost := sum (map Optimized.full_cost ks) in
  let vat_sum := get (order_vatSum o) 0 / 100 in
  let net_profit := order_revenue o - order_cost - vat_sum in
  exists sm,
    Optimized.process_order str_lower str_to_float pc out o
    = Ok ((fst out ++ rows)%list, (snd out ++ [sm])%list)
    /\ Optimized.sm_product_cost sm
       = round2 (sum (map Optimized.pd_product_cost rows))
    /\ Optimized.sm_full_cost sm == round2 order_cost
    /\ Optimized.sm_net_profit sm == round2 net_profit
    /\ (0 < order_revenue o ->
        Optimized.sm_margin sm
        == round2 (net_profit / order_revenue o * 100))
    /\ (~ 0 < order_revenue o -> Optimized.sm_margin sm == round2 0)
    /\ (Optimized.sm_cost_available sm = "Да" <-> 0 < order_cost)
    /\ (Optimized.sm_cost_available sm = "Нет" <-> ~ 0 < order_cost).
Proof.
  intros Hcosts Hfresh ks rows order_cost vat_sum net_profit.
  destruct (process_order_result str_lower str_to_float pc out o costs Hcosts)
    as [oc [Hoc Hrun]].
  eexists. split; [exact Hrun |].
  unfold Optimized.make_summary; simpl.
  fold (order_revenue o).
  assert (Hnet : order_revenue o - oc - get (order_vatSum o) 0 / 100
                 == net_profit).
  { subst net_profit order_cost vat_sum ks. rewrite Hoc. reflexivity. }
  repeat split.
  - unfold Optimized.product_cost_of_order.
    rewrite List.filter_app, (filter_other_orders _ _ Hfresh), filter_order_rows.
    reflexivity.
  - apply round2_comp. exact Hoc.
  - apply round2_comp. exact Hnet.
  - intros Hpos. destruct (Qlt_le_dec 0 (order_revenue o)); [| lra].
    apply round2_comp. rewrite Hnet. reflexivity.
  - intros Hnpos. destruct (Qlt_le_dec 0 (order_revenue o)); [lra |].
    reflexivity.
  - destruct (Qlt_le_dec 0 oc); [intros _ | discriminate].
    subst order_cost ks. rewrite <- Hoc. assumption.
  - destruct (Qlt_le_dec 0 oc); [reflexivity |].
    subst order_cost ks. intros Hpos. rewrite <- Hoc in Hpos. lra.
  - destruct (Qlt_le_dec 0 oc); [discriminate |].
    subst order_cost ks. rewrite <- Hoc. intros _. lra.
  - destruct (Qlt_le_dec 0 oc); [| reflexivity].
    subst order_cost ks. intros Hn. exfalso. apply Hn. rewrite <- Hoc. assumption.
Qed.

(** C4 on a batch with a repeated order number: the second order has one
    line with product cost 3 x 100.00 = 300.00, and its summary reports
    500.00, the 200.00 of the first order's line included. *)
Theorem summary_product_cost_repeated_number :
  exists rows s1 s2,
    Optimized.process_orders lower float_of_str
      [Sample.first_00001; Sample.second_00001] ∅
    = Ok (rows, [s1; s2])
    /\ sum (map Optimized.product_cost
              (calc_positions ∅ Extractor.no_costs Sample.second_00001))
       == 300
    /\ sum (map Optimized.pd_product_cost
              (order_rows ∅ Extractor.no_costs Sample.second_00001))
       == 300
    /\ Optimized.sm_product_cost s2 == 500
    /\ Optimized.sm_full_cost s2 == 300.
Proof.
  eexists. eexists. eexists.
  split; [vm_compute; reflexivity |].
  repeat split; vm_compute; reflexivity.
Qed.

(** ** The attribute extractor (C3, C6, C9) *)

Section ExtractorFacts.

Variable str_lower : string -> string.
Variable str_to_float : string -> option Q.

Let scan := Extractor.scan_attribute str_lower str_to_float.
Let extract := Extractor.extract_commission_and_delivery str_lower str_to_float.

Lemma for_each_app {A S : Type} (body : S -> A -> res S) (s : S)
    (xs ys : list A) :
  for_each body s (xs ++ ys)
  = bind (for_each body s xs) (fun s' => for_each body s' ys).
Proof.
  revert s. induction xs as [| x xs IH]; intros s; simpl.
  - reflexivity.
  - destruct (body s x) as [s' | e]; simpl; [apply IH | reflexivity].
Qed.

Lemma classify_commission_unmatched c attr_name attr_name_lower v :
  commission_rule attr_name attr_name_lower = false ->
  Extractor.classify_commission c attr_name attr_name_lower v = c.
Proof.
  unfold commission_rule, Extractor.classify_commission.
  destruct (contains "комисс" attr_name_lower); simpl; [| reflexivity].
  destruct (contains "товар" attr_name_lower); simpl; [discriminate |].
  destruct (contains "доставк" attr_name_lower); simpl; [discriminate |].
  destruct (contains "%" attr_name); simpl; [discriminate |].
  destruct (contains "сумма" attr_name_lower); simpl; [discriminate |].
  reflexivity.
Qed.

Lemma classify_commission_delivery c attr_name attr_name_lower v :
  Extractor.delivery_cost
    (Extractor.classify_commission c attr_name attr_name_lower v)
  = Extractor.delivery_cost c.
Proof.
  unfold Extractor.classify_commission.
  repeat match goal with
         | |- context [if ?b then _ else _] => destruct b
         end; reflexivity.
Qed.

Lemma classify_delivery_matched c attr_name_lower v :
  delivery_rule attr_name_lower = true ->
  Extractor.classify_delivery c attr_name_lower v
  = {| Extractor.commission_percent := Extractor.commission_percent c;
       Extractor.commission_sum := Extractor.commission_sum c;
       Extractor.delivery_cost := Extractor.delivery_cost c + v |}.
Proof.
  unfold delivery_rule, Extractor.classify_delivery.
  destruct (contains "доставк" attr_name_lower || contains "delivery" attr_name_lower);
    simpl; [| discriminate].
  destruct (contains "комисс" attr_name_lower); simpl; [discriminate |].
  intros ->. reflexivity.
Qed.

Lemma classify_delivery_unmatched c attr_name_lower v :
  delivery_rule attr_name_lower = false ->
  Extractor.classify_delivery c attr_name_lower v = c.
Proof.
  unfold delivery_rule, Extractor.classify_delivery.
  destruct (contains "доставк" attr_name_lower || contains "delivery" attr_name_lower);
    simpl; [| reflexivity].
  destruct (contains "комисс" attr_name_lower); simpl; [reflexivity |].
  intros ->. reflexivity.
Qed.

Lemma scan_parsed c attr v :
  Extractor.is_blank (attr_value attr) = false ->
  Extractor.float str_to_float (attr_value attr) = Ok v ->
  scan c attr
  = Ok (Extractor.classify_delivery
          (Extractor.classify_commission c (attr_name attr)
             (str_lower (attr_name attr)) v)
          (str_lower (attr_name attr)) v).
Proof.
  intros Hblank Hfloat. unfold scan, Extractor.scan_attribute.
  rewrite Hblank, Hfloat. reflexivity.
Qed.

Lemma scan_skipped c attr :
  Extractor.is_blank (attr_value attr) = true
  \/ (exists e, Extractor.float str_to_float (attr_value attr) = Raise e) ->
  scan c attr = Ok c.
Proof.
  unfold scan, Extractor.scan_attribute. intros [Hblank | [e Hraise]].
  - rewrite Hblank. reflexivity.
  - rewrite Hraise. destruct (Extractor.is_blank (attr_value attr)); reflexivity.
Qed.

Lemma scan_unmatched c attr :
  commission_rule (attr_name attr) (str_lower (attr_name attr)) = false ->
  delivery_rule (str_lower (attr_name attr)) = false ->
  scan c attr = Ok c.
Proof.
  intros Hc Hd. unfold scan, Extractor.scan_attribute.
  destruct (Extractor.is_blank (attr_value attr)); [reflexivity |].
  destruct (Extractor.float str_to_float (attr_value attr)) as [v | e];
    [| reflexivity].
  rewrite (classify_commission_unmatched _ _ _ _ Hc).
  rewrite (classify_delivery_unmatched _ _ _ Hd). reflexivity.
Qed.

Lemma scan_returns c attr : exists c', scan c attr = Ok c'.
Proof.
  unfold scan, Extractor.scan_attribute.
  destruct (Extractor.is_blank (attr_value attr)); [eexists; reflexivity |].
  destruct (Extractor.float str_to_float (attr_value attr));
    eexists; reflexivity.
Qed.

Lemma for_each_scan_returns attrs :
  forall c, exists c', for_each scan c attrs = Ok c'.
Proof.
  induction attrs as [| attr attrs IH]; intros c; simpl.
  - eexists; reflexivity.
  - destruct (scan_returns c attr) as [c1 ->]. simpl. apply IH.
Qed.

Lemma for_each_scan_unmatched attrs :
  (forall attr, In attr attrs ->
     commission_rule (attr_name attr) (str_lower (attr_name attr)) = false
     /\ delivery_rule (str_lower (attr_name attr)) = false) ->
  forall c, for_each scan c attrs = Ok c.
Proof.
  induction attrs as [| attr attrs IH]; intros Hall c; simpl.
  - reflexivity.
  - destruct (Hall attr (or_introl eq_refl)) as [Hc Hd].
    rewrite (scan_unmatched c attr Hc Hd). simpl.
    apply IH. intros a Ha. apply Hall. right. exact Ha.
Qed.

(** C9: the extractor returns for every attribute list; an attribute whose
    value is blank or is not a number changes nothing; and when no
    attribute matches a rule, all three figures are 0. *)
Theorem extractor_total (o : order) :
  (exists c, extract o = Ok c)
  /\ (forall before attr after,
        Extractor.is_blank (attr_value attr) = true
        \/ (exists e, Extractor.float str_to_float (attr_value attr) = Raise e) ->
        extract (with_attributes o (before ++ attr :: after))
        = extract (with_attributes o (before ++ after)))
  /\ ((forall attr, In attr (order_attributes o) ->
         commission_rule (attr_name attr) (str_lower (attr_name attr)) = false
         /\ delivery_rule (str_lower (attr_name attr)) = false) ->
      extract o = Ok Extractor.no_costs).
Proof.
  unfold extract, Extractor.extract_commission_and_delivery.
  fold scan.
  split; [| split].
  - destruct (for_each_scan_returns (order_attributes o) Extractor.no_costs)
      as [c ->].
    eexists. reflexivity.
  - intros before attr after Hskip. simpl.
    rewrite !for_each_app.
    destruct (for_each scan Extractor.no_costs before) as [c |]; simpl;
      [| reflexivity].
    rewrite (scan_skipped c attr Hskip). reflexivity.
  - intros Hnone.
    rewrite (for_each_scan_unmatched _ Hnone). reflexivity.
Qed.

End ExtractorFacts.

Lemma extractor_total_witness :
  Extractor.extract_commission_and_delivery lower float_of_str
    (order_with 100000
       [{| attr_name := "Комментарий"; attr_value := VStr "срочно" |};
        {| attr_name := "Склад"; attr_value := VNum 3 |}])
  = Ok Extractor.no_costs.
Proof.
  refine (proj2 (proj2 (extractor_total lower float_of_str _)) _).
  intros attr [<- | [<- | []]]; split; vm_compute; reflexivity.
Defined.

(** Evaluate the keyword tests on a closed attribute name. *)
Ltac eval_keywords :=
  repeat match goal with
         | |- context [contains ?k ?s] =>
             let b := eval vm_compute in (contains k s) in
             change (contains k s) with b
         | |- context [any_in ?ks ?s] =>
             let b := eval vm_compute in (any_in ks s) in
             change (any_in ks s) with b
         end.

(** C6, as the code has it: a parsed attribute value is added to the
    delivery cost exactly when the lower-cased name contains "доставк" or
    "delivery", does not contain "комисс", and contains one of "стоимость",
    "сумма", "цена", "cost"; the commission chain has no part in that
    decision, and the delivery step leaves the commission totals as the
    commission chain set them. *)
Theorem delivery_rule_exact (str_lower : string -> string)
    (str_to_float : string -> option Q) (c : Extractor.costs)
    (attr : attribute) (v : Q) :
  Extractor.is_blank (attr_value attr) = false ->
  Extractor.float str_to_float (attr_value attr) = Ok v ->
  let name_lower := str_lower (attr_name attr) in
  exists c',
    Extractor.scan_attribute str_lower str_to_float c attr = Ok c'
    /\ (delivery_rule name_lower = true ->
        Extractor.delivery_cost c' = Extractor.delivery_cost c + v)
    /\ (delivery_rule name_lower = false ->
        Extractor.delivery_cost c' = Extractor.delivery_cost c)
    /\ (contains "комисс" name_lower = true ->
        Extractor.delivery_cost c' = Extractor.delivery_cost c)
    /\ Extractor.commission_sum c'
       = Extractor.commission_sum
           (Extractor.classify_commission c (attr_name attr) name_lower v)
    /\ Extractor.commission_percent c'
       = Extractor.commission_percent
           (Extractor.classify_commission c (attr_name attr) name_lower v).
Proof.
  intros Hblank Hfloat name_lower.
  eexists. split; [apply (scan_parsed _ _ _ _ _ Hblank Hfloat) |].
  fold name_lower.
  destruct (delivery_rule name_lower) eqn:Hrule.
  - rewrite (classify_delivery_matched _ _ _ Hrule). simpl.
    rewrite classify_commission_delivery.
    repeat split; try reflexivity; try discriminate.
    intros Hk. unfold delivery_rule in Hrule. rewrite Hk in Hrule.
    rewrite andb_false_r in Hrule. discriminate.
  - rewrite (classify_delivery_unmatched _ _ _ Hrule).
    rewrite classify_commission_delivery.
    repeat split; try reflexivity; try discriminate.
Qed.

Lemma delivery_rule_exact_witness :
  exists c',
    Extractor.scan_attribute lower float_of_str Extractor.no_costs
      {| attr_name := "Стоимость доставки"; attr_value := VStr "300" |}
    = Ok c'
    /\ Extractor.delivery_cost c' = 0 + 300.
Proof.
  destruct (delivery_rule_exact lower float_of_str Extractor.no_costs
              {| attr_name := "Стоимость доставки"; attr_value := VStr "300" |}
              300 eq_refl eq_refl) as [c' [Hrun [Hadd _]]].
  exists c'. split; [exact Hrun | apply Hadd; reflexivity].
Defined.

(** C6 as stated fails in both directions: "Стоимость доставки" holds
    neither "delivery" nor "доставка" and is added by the code;
    "Delivery price" satisfies the stated rule and is not added. *)
Lemma spec_delivery_rule_counterexample :
  spec_delivery_rule (lower "Стоимость доставки") = false
  /\ (exists c,
        Extractor.extract_commission_and_delivery lower float_of_str
          (order_with 0
             [{| attr_name := "Стоимость доставки"; attr_value := VNum 300 |}])
        = Ok c
        /\ Extractor.delivery_cost c == 300)
  /\ spec_delivery_rule (lower "Delivery price") = true
  /\ (exists c,
        Extractor.extract_commission_and_delivery lower float_of_str
          (order_with 0
             [{| attr_name := "Delivery price"; attr_value := VNum 300 |}])
        = Ok c
        /\ Extractor.delivery_cost c == 0).
Proof.
  split; [vm_compute; reflexivity |].
  split; [eexists; split; [vm_compute; reflexivity | vm_compute; reflexivity] |].
  split; [vm_compute; reflexivity |].
  eexists; split; [vm_compute; reflexivity | vm_compute; reflexivity].
Qed.

Lemma apply_percent_sum (order_sum : Q) (c : Extractor.costs) :
  (0 < Extractor.commission_percent c -> Extractor.commission_sum c == 0 ->
   Extractor.commission_sum (Extractor.apply_percent order_sum c)
   == order_sum * Extractor.commission_percent c / 100)
  /\ (~ Extractor.commission_sum c == 0 ->
      Extractor.apply_percent order_sum c = c)
  /\ (~ 0 < Extractor.commission_percent c ->
      Extractor.apply_percent order_sum c = c).
Proof.
  unfold Extractor.apply_percent.
  destruct (Qlt_le_dec 0 (Extractor.commission_percent c)) as [Hpos | Hnpos];
    destruct (Qeq_dec (Extractor.commission_sum c) 0) as [Hz | Hnz];
    repeat split; intros; try reflexivity; try contradiction; try lra.
  simpl. field.
Qed.

(** C3, as the code has it: the commission is derived from the percentage
    (revenue x percent / 100) exactly when the percentage is positive and
    the accumulated commission sum is 0; a non-zero accumulated sum is
    returned as it is.  With revenue 1000.00, "Комиссия %" = 10 gives 100,
    and adding "Комиссия сумма" = 50 gives 50. *)
Theorem commission_precedence :
  (forall (str_lower : string -> string) (str_to_float : string -> option Q)
          (o : order) (c : Extractor.costs),
     for_each (Extractor.scan_attribute str_lower str_to_float)
       Extractor.no_costs (order_attributes o) = Ok c ->
     exists r,
       Extractor.extract_commission_and_delivery str_lower str_to_float o
       = Ok r
       /\ (0 < Extractor.commission_percent c ->
           Extractor.commission_sum c == 0 ->
           Extractor.commission_sum r
           == order_revenue o * Extractor.commission_percent c / 100)
       /\ (~ Extractor.commission_sum c == 0 -> r = c)
       /\ (~ 0 < Extractor.commission_percent c -> r = c))
  /\ (forall sum_minor percent : Q,
        0 < percent ->
        exists r,
          Extractor.extract_commission_and_delivery lower float_of_str
            (order_with sum_minor
               [{| attr_name := "Комиссия %"; attr_value := VNum percent |}])
          = Ok r
          /\ Extractor.commission_sum r == sum_minor / 100 * percent / 100)
  /\ (forall sum_minor percent explicit : Q,
        0 < percent -> ~ explicit == 0 ->
        exists r,
          Extractor.extract_commission_and_delivery lower float_of_str
            (order_with sum_minor
               [{| attr_name := "Комиссия %"; attr_value := VNum percent |};
                {| attr_name := "Комиссия сумма";
                   attr_value := VNum explicit |}])
          = Ok r
          /\ Extractor.commission_sum r == explicit).
Proof.
  split; [| split].
  - intros str_lower str_to_float o c Hscan.
    unfold Extractor.extract_commission_and_delivery. rewrite Hscan. simpl.
    eexists. split; [reflexivity |].
    fold (order_revenue o). apply apply_percent_sum.
  - intros sum_minor percent Hpos.
    unfold Extractor.extract_commission_and_delivery, order_with. simpl.
    unfold Extractor.classify_commission, Extractor.classify_delivery.
    eval_keywords. simpl.
    eexists. split; [reflexivity |].
    unfold Extractor.apply_percent. simpl.
    destruct (Qlt_le_dec 0 percent); [| lra].
    destruct (Qeq_dec 0 0) as [_ | Hne]; [| exfalso; apply Hne; reflexivity].
    simpl. field.
  - intros sum_minor percent explicit Hpos Hexplicit.
    unfold Extractor.extract_commission_and_delivery, order_with. simpl.
    unfold Extractor.classify_commission, Extractor.classify_delivery.
    eval_keywords. simpl.
    eexists. split; [reflexivity |].
    unfold Extractor.apply_percent. simpl.
    destruct (Qlt_le_dec 0 percent); [| lra].
    destruct (Qeq_dec (0 + explicit) 0) as [Hz | _]; [exfalso; lra |].
    simpl. lra.
Qed.

Lemma commission_precedence_witness :
  (exists r,
     Extractor.extract_commission_and_delivery lower float_of_str
       (order_with 100000
          [{| attr_name := "Комиссия %"; attr_value := VNum 10 |}])
     = Ok r
     /\ Extractor.commission_sum r == 100)
  /\ (exists r,
        Extractor.extract_commission_and_delivery lower float_of_str
          (order_with 100000
             [{| attr_name := "Комиссия %"; attr_value := VNum 10 |};
              {| attr_name := "Комиссия сумма"; attr_value := VNum 50 |}])
        = Ok r
        /\ Extractor.commission_sum r == 50).
Proof.
  split.
  - destruct (proj1 (proj2 commission_precedence) 100000 10) as [r [Hrun Hsum]];
      [reflexivity |].
    exists r. split; [exact Hrun |]. rewrite Hsum. reflexivity.
  - destruct (proj2 (proj2 commission_precedence) 100000 10 50)
      as [r [Hrun Hsum]]; [reflexivity | discriminate |].
    exists r. split; [exact Hrun | exact Hsum].
Defined.

(** C3 as stated fails on its own example: the code looks for "комисс", so
    an attribute named "Commission %" is not a commission attribute and the
    commission stays 0.  And an explicit sum that is found but is 0 does not
    keep the percentage from being applied. *)
Lemma commission_english_counterexample :
  (exists r,
     Extractor.extract_commission_and_delivery lower float_of_str
       (order_with 100000
          [{| attr_name := "Commission %"; attr_value := VNum 10 |}])
     = Ok r
     /\ Extractor.commission_percent r == 0
     /\ Extractor.commission_sum r == 0
     /\ ~ Extractor.commission_sum r == 100)
  /\ (exists r,
        Extractor.extract_commission_and_delivery lower float_of_str
          (order_with 100000
             [{| attr_name := "Комиссия %"; attr_value := VNum 10 |};
              {| attr_name := "Комиссия сумма"; attr_value := VNum 0 |}])
        = Ok r
        /\ Extractor.commission_sum r == 100).
Proof.
  split.
  - eexists. split; [vm_compute; reflexivity |].
    repeat split; try (vm_compute; reflexivity).
    intros H. vm_compute in H. discriminate.
  - eexists. split; [vm_compute; reflexivity |].
    vm_compute. reflexivity.
Qed.

(** ** The cost resolver of final.py (C5, C7, C8, C10) *)

(** Evaluate the comparisons of a literal item type. *)
Ltac eval_item_type :=
  repeat match goal with
         | |- context [String.eqb ?a ?b] =>
             let v := eval vm_compute in (String.eqb a b) in
             change (String.eqb a b) with v
         end;
  cbv iota.

Section ResolverFacts.

Variable api : Final.service.

Lemma make_request_run (req : Final.request) (st : Final.state) :
  Final._make_request api req st
  = match api (length (Final.calls st)) req with
    | Ok data => (Ok (Some data), Final.log_call st req)
    | Raise e =>
        if is_RequestException e then (Ok None, Final.log_call st req)
        else (Raise e, Final.log_call st req)
    end.
Proof.
  unfold Final._make_request, Final.try_except, Final.bindM,
    Final.requests_get, Final.ret.
  destruct (api (length (Final.calls st)) req) as [data | e].
  - reflexivity.
  - destruct e; reflexivity.
Qed.

Lemma get_product_by_article_run (article : string) (st : Final.state) :
  Final.get_product_by_article api article st
  = match api (length (Final.calls st)) (Final.GetProductByArticle article) with
    | Ok (Final.Rows (product :: _)) =>
        (Ok (Some product),
         Final.log_call st (Final.GetProductByArticle article))
    | Ok _ => (Ok None, Final.log_call st (Final.GetProductByArticle article))
    | Raise e =>
        if is_RequestException e
        then (Ok None, Final.log_call st (Final.GetProductByArticle article))
        else (Raise e, Final.log_call st (Final.GetProductByArticle article))
    end.
Proof.
  unfold Final.get_product_by_article, Final.bindM.
  rewrite make_request_run.
  destruct (api (length (Final.calls st)) (Final.GetProductByArticle article))
    as [[[| product rows] | e] | e]; try reflexivity.
  destruct (is_RequestException e); reflexivity.
Qed.

Lemma get_item_by_href_run (href : string) (st : Final.state) :
  href <> "" ->
  Final.get_item_by_href api (Some href) st
  = (Ok match api (length (Final.calls st)) (Final.GetHref href) with
        | Ok (Final.Entity e) => Some e
        | Ok (Final.Rows _) => Some no_fields
        | Raise _ => None
        end,
     Final.log_call st (Final.GetHref href)).
Proof.
  intros Hne. unfold Final.get_item_by_href.
  destruct href as [| c href]; [contradiction |].
  change (truthy_str (Some (String c href))) with (Some (String c href)).
  cbv beta iota.
  unfold Final.try_except, Final.bindM, Final.requests_get, Final.ret.
  destruct (api (length (Final.calls st)) (Final.GetHref (String c href)))
    as [[rows | e] | e]; try reflexivity.
  destruct e; reflexivity.
Qed.

Lemma get_item_by_href_blank (st : Final.state) :
  Final.get_item_by_href api (Some "") st = (Ok None, st).
Proof. reflexivity. Qed.

Lemma resolve_product (item : catalog_entry) (st : Final.state) :
  Final.resolve api item "product" st
  = (Ok (priced (buyPrice item) "товар"), st).
Proof.
  unfold Final.resolve, priced. simpl.
  destruct (has_positive_value (buyPrice item)); reflexivity.
Qed.

(** The bundle branch, request by request. *)
Lemma resolve_bundle (item : catalog_entry) (st : Final.state) :
  Final.resolve api item "bundle" st
  = match truthy_str (item_article item) with
    | None => (Ok not_found, st)
    | Some article =>
        let label := "основной товар (арт. " ++ article ++ ")" in
        let req := Final.GetProductByArticle article in
        match Final.product_cache st !! article with
        | Some base_product => (Ok (priced (buyPrice base_product) label), st)
        | None =>
            match api (length (Final.calls st)) req with
            | Ok (Final.Rows (product :: _)) =>
                (Ok (priced (buyPrice product) label),
                 {| Final.product_cache :=
                      <[article := product]> (Final.product_cache st);
                    Final.buy_price_cache := Final.buy_price_cache st;
                    Final.calls := (Final.calls st ++ [req])%list |})
            | Ok _ => (Ok not_found, Final.log_call st req)
            | Raise e =>
                if is_RequestException e
                then (Ok not_found, Final.log_call st req)
                else (Raise e, Final.log_call st req)
            end
        end
    end.
Proof.
  unfold Final.resolve. eval_item_type.
  destruct (truthy_str (item_article item)) as [article |]; [| reflexivity].
  unfold Final.bindM at 1. unfold Final.get_state at 1.
  destruct (Final.product_cache st !! article) as [base_product |] eqn:Hcache.
  - unfold Final.bindM, Final.ret, priced.
    destruct (has_positive_value (buyPrice base_product)); reflexivity.
  - unfold Final.bindM at 1. unfold Final.bindM at 1.
    rewrite get_product_by_article_run.
    destruct (api (length (Final.calls st)) (Final.GetProductByArticle article))
      as [[[| product rows] | e] | e]; try reflexivity.
    + unfold Final.bindM, Final.set_product_cache, Final.ret, priced. simpl.
      destruct (has_positive_value (buyPrice product)); reflexivity.
    + destruct (is_RequestException e); reflexivity.
Qed.

(** The variant branch. *)
Lemma resolve_variant (item : catalog_entry) (st : Final.state) :
  Final.resolve api item "variant" st
  = if has_positive_value (buyPrice item)
    then (Ok {| value := get_value (buyPrice item); source := "модификация" |},
          st)
    else
      match truthy_str (product_href item) with
      | None => (Ok not_found, st)
      | Some href =>
          (Ok match api (length (Final.calls st)) (Final.GetHref href) with
              | Ok (Final.Entity base_product) =>
                  priced (buyPrice base_product) "базовый товар модификации"
              | Ok (Final.Rows _) => not_found
              | Raise _ => not_found
              end,
           Final.log_call st (Final.GetHref href))
      end.
Proof.
  unfold Final.resolve. eval_item_type.
  destruct (has_positive_value (buyPrice item)); [reflexivity |].
  destruct (product_href item) as [[| c href] |]; try reflexivity.
  change (truthy_str (Some (String c href))) with (Some (String c href)).
  cbv beta iota.
  unfold Final.bindM at 1.
  rewrite get_item_by_href_run by discriminate.
  destruct (api (length (Final.calls st)) (Final.GetHref (String c href)))
    as [[rows | e] | e]; try reflexivity.
  unfold priced, Final.ret.
  destruct (has_positive_value (buyPrice e)); reflexivity.
Qed.

Lemma resolve_dispatch (item : catalog_entry) (item_type : string)
    (st : Final.state) :
  Final.resolve api item item_type st
  = if String.eqb item_type "product" then Final.resolve api item "product" st
    else if String.eqb item_type "bundle" then Final.resolve api item "bundle" st
    else if String.eqb item_type "variant"
         then Final.resolve api item "variant" st
         else (Ok not_found, st).
Proof.
  destruct (String.eqb_spec item_type "product") as [-> | Hp]; [reflexivity |].
  destruct (String.eqb_spec item_type "bundle") as [-> | Hb]; [reflexivity |].
  destruct (String.eqb_spec item_type "variant") as [-> | Hv]; [reflexivity |].
  unfold Final.resolve.
  destruct (String.eqb_spec item_type "product"); [contradiction |].
  destruct (String.eqb_spec item_type "bundle"); [contradiction |].
  destruct (String.eqb_spec item_type "variant"); [contradiction |].
  reflexivity.
Qed.

(** A miss of the result cache runs [resolve] and stores what it returns. *)
Lemma get_buy_price_miss (item : catalog_entry) (item_type : string)
    (st : Final.state) :
  Final.buy_price_cache st !! item_id item = None ->
  Final.get_buy_price_for_item api item item_type st
  = match Final.resolve api item item_type st with
    | (Ok result, st') =>
        (Ok result,
         {| Final.product_cache := Final.product_cache st';
            Final.buy_price_cache :=
              <[item_id item := result]> (Final.buy_price_cache st');
            Final.calls := Final.calls st' |})
    | (Raise e, st') => (Raise e, st')
    end.
Proof.
  intros Hmiss. unfold Final.get_buy_price_for_item.
  unfold Final.bindM at 1. unfold Final.get_state at 1. rewrite Hmiss.
  unfold Final.bindM.
  destruct (Final.resolve api item item_type st) as [[result | e] st'];
    reflexivity.
Qed.

Lemma get_buy_price_hit (item : catalog_entry) (item_type : string)
    (st : Final.state) (cached : buy_price_info) :
  Final.buy_price_cache st !! item_id item = Some cached ->
  Final.get_buy_price_for_item api item item_type st = (Ok cached, st).
Proof.
  intros Hhit. unfold Final.get_buy_price_for_item.
  unfold Final.bindM at 1. unfold Final.get_state at 1. rewrite Hhit.
  reflexivity.
Qed.

End ResolverFacts.

(** ** Sign of the unit cost (C10) *)

Lemma not_found_ok : cost_info_ok not_found.
Proof.
  unfold cost_info_ok, cost_per_unit_of, not_found. simpl.
  destruct (Qlt_le_dec 0 0) as [Hlt | _]; [exfalso; lra |].
  repeat split; try lra; try reflexivity.
  intros Hne. exfalso. apply Hne. reflexivity.
Qed.

Lemma has_positive_value_spec (obj : option buy_price_obj) :
  has_positive_value obj = true -> 0 < get_value obj.
Proof.
  unfold has_positive_value, get_value.
  destruct obj as [o |]; [| discriminate].
  destruct (Qlt_le_dec 0 (get (bp_value o) 0)); [intros _; assumption | discriminate].
Qed.

Lemma priced_ok (obj : option buy_price_obj) (label : string) :
  label <> "не найдена" -> cost_info_ok (priced obj label).
Proof.
  intros Hlabel. unfold priced.
  destruct (has_positive_value obj) eqn:Hpos; [| apply not_found_ok].
  apply has_positive_value_spec in Hpos.
  unfold cost_info_ok, cost_per_unit_of. simpl.
  destruct (Qlt_le_dec 0 (get_value obj)) as [_ | Hle]; [| exfalso; lra].
  assert (Hunit : 0 < get_value obj / 100).
  { unfold Qdiv. change (/ 100) with (1 # 100). lra. }
  repeat split; try lra; try assumption.
  - intros _. exact Hlabel.
  - intros Heq. contradiction.
Qed.

Lemma priced_positive (obj : option buy_price_obj) (label : string) :
  has_positive_value obj = true ->
  priced obj label = {| value := get_value obj; source := label |}.
Proof. intros H. unfold priced. rewrite H. reflexivity. Qed.

Lemma label_product : "товар" <> "не найдена".
Proof. discriminate. Qed.

Lemma label_variant : "модификация" <> "не найдена".
Proof. discriminate. Qed.

Lemma label_base_of_variant : "базовый товар модификации" <> "не найдена".
Proof. discriminate. Qed.

Lemma label_base_by_article (article : string) :
  "основной товар (арт. " ++ article ++ ")" <> "не найдена".
Proof. discriminate. Qed.

Lemma well_sourced_ok (r : buy_price_info) : well_sourced r -> cost_info_ok r.
Proof.
  intros [-> | [obj [label [-> Hlabel]]]].
  - apply not_found_ok.
  - apply priced_ok. exact Hlabel.
Qed.

Lemma well_sourced_priced (obj : option buy_price_obj) (label : string) :
  label <> "не найдена" -> well_sourced (priced obj label).
Proof. intros H. right. exists obj, label. split; [reflexivity | exact H]. Qed.

Lemma well_sourced_not_found : well_sourced not_found.
Proof. left. reflexivity. Qed.

Lemma optimized_well_sourced (item : catalog_entry) (item_type : string)
    (products_cache : gmap string catalog_entry) :
  well_sourced (Optimized.get_buy_price_for_item item item_type products_cache).
Proof.
  unfold Optimized.get_buy_price_for_item.
  destruct (String.eqb item_type "product").
  { apply (well_sourced_priced (buyPrice item) "товар" label_product). }
  destruct (String.eqb item_type "bundle").
  { destruct (truthy_str (item_article item)) as [article |];
      [| apply well_sourced_not_found].
    destruct (products_cache !! article) as [base_product |];
      [| apply well_sourced_not_found].
    apply (well_sourced_priced (buyPrice base_product) _
             (label_base_by_article article)). }
  destruct (String.eqb item_type "variant").
  { apply (well_sourced_priced (buyPrice item) "модификация" label_variant). }
  apply well_sourced_not_found.
Qed.

(** What [resolve] returns and what it leaves of the result cache. *)
Lemma resolve_shape (api : Final.service) (item : catalog_entry)
    (item_type : string) (st : Final.state) :
  Final.buy_price_cache (snd (Final.resolve api item item_type st))
  = Final.buy_price_cache st
  /\ forall r, fst (Final.resolve api item item_type st) = Ok r ->
               well_sourced r.
Proof.
  rewrite resolve_dispatch.
  destruct (String.eqb item_type "product").
  { rewrite resolve_product. simpl. split; [reflexivity |].
    intros r [= <-]. apply well_sourced_priced, label_product. }
  destruct (String.eqb item_type "bundle").
  { rewrite resolve_bundle.
    destruct (truthy_str (item_article item)) as [article |].
    2: { simpl. split; [reflexivity |].
         intros r [= <-]. apply well_sourced_not_found. }
    cbv zeta.
    destruct (Final.product_cache st !! article) as [base_product |].
    { simpl. split; [reflexivity |].
      intros r [= <-]. apply well_sourced_priced, label_base_by_article. }
    destruct (api (length (Final.calls st)) (Final.GetProductByArticle article))
      as [[[| product rows] | e] | e]; simpl.
    - split; [reflexivity |]. intros r [= <-]. apply well_sourced_not_found.
    - split; [reflexivity |].
      intros r [= <-]. apply well_sourced_priced, label_base_by_article.
    - split; [reflexivity |]. intros r [= <-]. apply well_sourced_not_found.
    - destruct (is_RequestException e); simpl.
      + split; [reflexivity |]. intros r [= <-]. apply well_sourced_not_found.
      + split; [reflexivity |]. intros r [=]. }
  destruct (String.eqb item_type "variant").
  { rewrite resolve_variant.
    destruct (has_positive_value (buyPrice item)) eqn:Hown.
    { simpl. split; [reflexivity |].
      intros r [= <-]. rewrite <- (priced_positive _ _ Hown).
      apply well_sourced_priced, label_variant. }
    destruct (truthy_str (product_href item)) as [href |].
    2: { simpl. split; [reflexivity |].
         intros r [= <-]. apply well_sourced_not_found. }
    simpl. split; [reflexivity |].
    intros r [= <-].
    destruct (api (length (Final.calls st)) (Final.GetHref href))
      as [[rows | e] | e]; try apply well_sourced_not_found.
    apply well_sourced_priced, label_base_of_variant. }
  simpl. split; [reflexivity |].
  intros r [= <-]. apply well_sourced_not_found.
Qed.

(** C10: the unit cost a resolver returns is never negative, and it is
    positive exactly when the source is not the not-found label.  For the
    resolver of optimized_script.py this holds for every entry, type and
    article cache; for the one of final.py for every entry, type, article
    cache and service, the result cache holding entries with that property
    (as the empty cache does), and it keeps holding after the call. *)
Theorem cost_info_sign :
  (forall (item : catalog_entry) (item_type : string)
          (products_cache : gmap string catalog_entry),
     cost_info_ok
       (Optimized.get_buy_price_for_item item item_type products_cache))
  /\ (forall (api : Final.service) (st st' : Final.state)
             (item : catalog_entry) (item_type : string) (r : buy_price_info),
        (forall id c, Final.buy_price_cache st !! id = Some c ->
                      cost_info_ok c) ->
        Final.get_buy_price_for_item api item item_type st = (Ok r, st') ->
        cost_info_ok r
        /\ forall id c, Final.buy_price_cache st' !! id = Some c ->
                        cost_info_ok c).
Proof.
  split.
  - intros item item_type products_cache.
    apply well_sourced_ok, optimized_well_sourced.
  - intros api st st' item item_type r Hinv Hrun.
    destruct (Final.buy_price_cache st !! item_id item) as [cached |] eqn:Hc.
    + rewrite (get_buy_price_hit api item item_type st cached Hc) in Hrun.
      injection Hrun as <- <-.
      split; [apply (Hinv _ _ Hc) | exact Hinv].
    + rewrite (get_buy_price_miss api item item_type st Hc) in Hrun.
      destruct (resolve_shape api item item_type st) as [Hcache Hres].
      destruct (Final.resolve api item item_type st) as [[result | e] st1];
        [| discriminate].
      injection Hrun as <- <-.
      simpl in Hcache, Hres.
      assert (Hok : cost_info_ok result)
        by (apply well_sourced_ok, Hres; reflexivity).
      split; [exact Hok |].
      intros id c. simpl. rewrite Hcache.
      destruct (decide (item_id item = id)) as [<- | Hne].
      * rewrite lookup_insert_eq. intros [= <-]. exact Hok.
      * rewrite lookup_insert_ne by exact Hne. apply Hinv.
Qed.

Lemma cost_info_sign_witness :
  cost_info_ok
    {| value := 50000; source := "базовый товар модификации" |}.
Proof.
  refine (proj1 (proj2 cost_info_sign
    (fun _ _ => Ok (Final.Entity (base_entry "p-9" 50000)))
    Final.empty_state _
    (variant_entry "v-1" None "https://api.moysklad.ru/api/remap/1.2/entity/product/p-9")
    "variant" _ _ _)).
  - intros id c H.
    change (Final.buy_price_cache Final.empty_state)
      with (∅ : gmap (option string) buy_price_info) in H.
    rewrite lookup_empty in H. discriminate.
  - vm_compute. reflexivity.
Defined.

(** ** Failures of the external lookup (C8) *)

Lemma no_call_added {A : Type} (l : list A) (x : A) : l <> (l ++ [x])%list.
Proof.
  intros H. apply (f_equal (@length A)) in H.
  rewrite length_app in H. simpl in H. lia.
Qed.

Lemma same_call_added {A : Type} (l : list A) (x y : A) :
  (l ++ [x])%list = (l ++ [y])%list -> x = y.
Proof. intros H. apply app_inv_head in H. congruence. Qed.

(** [resolve] raises only an exception of the service that is not a
    [RequestException], and a request that failed with a
    [RequestException] gives the not-found record. *)
Lemma resolve_outcome (api : Final.service) (item : catalog_entry)
    (item_type : string) (st : Final.state) :
  (forall e, fst (Final.resolve api item item_type st) = Raise e ->
     exists req, api (length (Final.calls st)) req = Raise e
                 /\ is_RequestException e = false)
  /\ (forall req e,
        Final.calls (snd (Final.resolve api item item_type st))
        = (Final.calls st ++ [req])%list ->
        api (length (Final.calls st)) req = Raise e ->
        is_RequestException e = true ->
        fst (Final.resolve api item item_type st) = Ok not_found).
Proof.
  rewrite resolve_dispatch.
  destruct (String.eqb item_type "product").
  { rewrite resolve_product. simpl. split; [intros e [=] |].
    intros req e Hcalls. exfalso. exact (no_call_added _ _ Hcalls). }
  destruct (String.eqb item_type "bundle").
  { rewrite resolve_bundle.
    destruct (truthy_str (item_article item)) as [article |].
    2: { simpl. split; [intros e [=] |].
         intros req e Hcalls. exfalso. exact (no_call_added _ _ Hcalls). }
    cbv zeta.
    destruct (Final.product_cache st !! article) as [base_product |].
    { simpl. split; [intros e [=] |].
      intros req e Hcalls. exfalso. exact (no_call_added _ _ Hcalls). }
    destruct (api (length (Final.calls st)) (Final.GetProductByArticle article))
      as [[[| product rows] | e0] | e0] eqn:Hanswer; simpl.
    - split; [intros e [=] | reflexivity].
    - split; [intros e [=] |].
      intros req e Hcalls Hfail. apply same_call_added in Hcalls. subst req.
      rewrite Hanswer in Hfail. discriminate.
    - split; [intros e [=] | reflexivity].
    - destruct (is_RequestException e0) eqn:Hclass; simpl.
      + split; [intros e [=] | reflexivity].
      + split.
        * intros e [= <-]. eexists. split; [exact Hanswer | exact Hclass].
        * intros req e Hcalls Hfail Hreq. apply same_call_added in Hcalls.
          subst req. rewrite Hanswer in Hfail. injection Hfail as <-.
          rewrite Hclass in Hreq. discriminate. }
  destruct (String.eqb item_type "variant").
  { rewrite resolve_variant.
    destruct (has_positive_value (buyPrice item)).
    { simpl. split; [intros e [=] |].
      intros req e Hcalls. exfalso. exact (no_call_added _ _ Hcalls). }
    destruct (truthy_str (product_href item)) as [href |].
    2: { simpl. split; [intros e [=] |].
         intros req e Hcalls. exfalso. exact (no_call_added _ _ Hcalls). }
    simpl. split; [intros e [=] |].
    intros req e Hcalls Hfail _. apply same_call_added in Hcalls. subst req.
    rewrite Hfail. reflexivity. }
  simpl. split; [intros e [=] |].
  intros req e Hcalls. exfalso. exact (no_call_added _ _ Hcalls).
Qed.

(** C8: when the service fails only with network errors, timeouts and
    HTTP error statuses, the resolver of final.py returns for every entry,
    and on a miss of the result cache a failed request gives the not-found
    record with unit cost 0. *)
Theorem lookup_failure_degrades (api : Final.service) (st : Final.state)
    (item : catalog_entry) (item_type : string) :
  (forall n req e, api n req = Raise e -> is_RequestException e = true) ->
  exists r st',
    Final.get_buy_price_for_item api item item_type st = (Ok r, st')
    /\ (Final.buy_price_cache st !! item_id item = None ->
        forall req e,
          Final.calls st' = (Final.calls st ++ [req])%list ->
          api (length (Final.calls st)) req = Raise e ->
          r = not_found /\ cost_per_unit_of r == 0).
Proof.
  intros Hnet.
  destruct (Final.buy_price_cache st !! item_id item) as [cached |] eqn:Hc.
  - exists cached, st. split; [apply get_buy_price_hit; exact Hc |].
    intros [=].
  - rewrite (get_buy_price_miss api item item_type st Hc).
    destruct (resolve_outcome api item item_type st) as [Hraise Hfail].
    destruct (Final.resolve api item item_type st) as [[result | e] st1].
    + eexists. eexists. split; [reflexivity |].
      intros _ req e Hcalls Hanswer. simpl in Hcalls, Hfail.
      specialize (Hfail req e Hcalls Hanswer (Hnet _ _ _ Hanswer)).
      injection Hfail as ->.
      split; [reflexivity | vm_compute; reflexivity].
    + exfalso. destruct (Hraise e eq_refl) as [req [Hanswer Hclass]].
      rewrite (Hnet _ _ _ Hanswer) in Hclass. discriminate.
Qed.

Lemma lookup_failure_degrades_witness :
  exists r st',
    Final.get_buy_price_for_item (fun _ _ => Raise Timeout)
      (bundle_entry "b-1" "X1") "bundle" Final.empty_state
    = (Ok r, st')
    /\ r = not_found.
Proof.
  destruct (lookup_failure_degrades (fun _ _ => Raise Timeout)
              Final.empty_state (bundle_entry "b-1" "X1") "bundle")
    as [r [st' [Hrun Hfail]]].
  - intros n req e [= <-]. reflexivity.
  - exists r, st'. split; [exact Hrun |].
    assert (Hst : st' = snd (Final.get_buy_price_for_item
                               (fun _ _ => Raise Timeout)
                               (bundle_entry "b-1" "X1") "bundle"
                               Final.empty_state))
      by (rewrite Hrun; reflexivity).
    apply (Hfail eq_refl (Final.GetProductByArticle "X1") Timeout).
    + rewrite Hst. vm_compute. reflexivity.
    + reflexivity.
Defined.

(** ** The article cache of final.py (C7) *)

(** C7, as the code has it: resolving a bundle whose result is not cached
    and whose article is not in the article cache sends exactly one lookup;
    the article cache receives the product under the article string when
    the lookup returns one and is left as it was when it returns none or
    fails; an article that is in the cache causes no lookup. *)
Theorem bundle_lookup_memo (api : Final.service) (st : Final.state)
    (item : catalog_entry) (article : string) :
  Final.buy_price_cache st !! item_id item = None ->
  truthy_str (item_article item) = Some article ->
  let req := Final.GetProductByArticle article in
  let st' := snd (Final.get_buy_price_for_item api item "bundle" st) in
  (Final.product_cache st !! article = None ->
   Final.calls st' = (Final.calls st ++ [req])%list
   /\ (forall product rows,
         api (length (Final.calls st)) req
         = Ok (Final.Rows (product :: rows)) ->
         Final.product_cache st'
         = <[article := product]> (Final.product_cache st))
   /\ ((forall product rows,
          api (length (Final.calls st)) req
          <> Ok (Final.Rows (product :: rows))) ->
       Final.product_cache st' = Final.product_cache st))
  /\ (forall base_product,
        Final.product_cache st !! article = Some base_product ->
        Final.calls st' = Final.calls st
        /\ Final.product_cache st' = Final.product_cache st).
Proof.
  intros Hmiss Harticle req st'. subst st'.
  rewrite (get_buy_price_miss api item "bundle" st Hmiss).
  rewrite resolve_bundle, Harticle. cbv zeta. fold req.
  split.
  - intros Hcache. rewrite Hcache.
    destruct (api (length (Final.calls st)) req)
      as [[[| product rows] | e] | e] eqn:Hanswer; simpl.
    + repeat split; try reflexivity. intros product rows [=].
    + repeat split; try reflexivity.
      * intros product' rows' [= <- _]. reflexivity.
      * intros Hnone. exfalso. apply (Hnone product rows). reflexivity.
    + repeat split; try reflexivity. intros product rows [=].
    + destruct (is_RequestException e); simpl;
        (repeat split; try reflexivity; intros product rows [=]).
  - intros base_product Hcache. rewrite Hcache. simpl.
    split; reflexivity.
Qed.

Lemma bundle_lookup_memo_witness :
  Final.product_cache
    (snd (Final.get_buy_price_for_item
            (fun _ _ => Ok (Final.Rows [base_entry "p-7" 50000]))
            (bundle_entry "b-1" "X1") "bundle" Final.empty_state))
  = <[ "X1" := base_entry "p-7" 50000 ]> ∅.
Proof.
  refine (proj1 (proj2 (proj1
    (bundle_lookup_memo (fun _ _ => Ok (Final.Rows [base_entry "p-7" 50000]))
       Final.empty_state (bundle_entry "b-1" "X1") "X1" _ _) _))
    (base_entry "p-7" 50000) [] _).
  - reflexivity.
  - reflexivity.
  - reflexivity.
  - reflexivity.
Defined.

(** C7 as stated fails: when the lookup returns no product nothing is
    stored under the article, and a second bundle with the same article
    sends the lookup again.  (A bundle whose id is in the result cache is
    answered from there, with no lookup at all.) *)
Lemma memoize_on_miss_counterexample :
  let api : Final.service := fun _ _ => Ok (Final.Rows []) in
  let st1 :=
    snd (Final.get_buy_price_for_item api (bundle_entry "b-1" "X1") "bundle"
           Final.empty_state) in
  let st2 :=
    snd (Final.get_buy_price_for_item api (bundle_entry "b-2" "X1") "bundle"
           st1) in
  let st3 :=
    snd (Final.get_buy_price_for_item api (bundle_entry "b-2" "X1") "bundle"
           st2) in
  Final.product_cache st1 !! "X1" = None
  /\ Final.calls st1 = [Final.GetProductByArticle "X1"]
  /\ Final.calls st2
     = [Final.GetProductByArticle "X1"; Final.GetProductByArticle "X1"]
  /\ Final.product_cache st2 !! "X1" = None
  /\ Final.calls st3 = Final.calls st2.
Proof. vm_compute. repeat split; reflexivity. Qed.

(** ** Variants (C5) *)

(** C5, as the code has it.  In final.py, on a miss of the result cache, a
    variant gets its own buy price when that is positive; otherwise the
    positive buy price of the entity its base reference leads to; otherwise
    the not-found record with unit cost 0; the source names the rule.  In
    optimized_script.py a variant gets its own positive buy price or the
    not-found record: there is no step to the base item. *)
Theorem variant_resolution :
  (forall (api : Final.service) (st : Final.state) (item : catalog_entry),
     Final.buy_price_cache st !! item_id item = None ->
     let out := fst (Final.get_buy_price_for_item api item "variant" st) in
     (has_positive_value (buyPrice item) = true ->
      out = Ok {| value := get_value (buyPrice item);
                  source := "модификация" |})
     /\ (has_positive_value (buyPrice item) = false ->
         forall href base_product,
           truthy_str (product_href item) = Some href ->
           api (length (Final.calls st)) (Final.GetHref href)
           = Ok (Final.Entity base_product) ->
           has_positive_value (buyPrice base_product) = true ->
           out = Ok {| value := get_value (buyPrice base_product);
                       source := "базовый товар модификации" |})
     /\ (has_positive_value (buyPrice item) = false ->
         (forall href base_product,
            truthy_str (product_href item) = Some href ->
            api (length (Final.calls st)) (Final.GetHref href)
            = Ok (Final.Entity base_product) ->
            has_positive_value (buyPrice base_product) = false) ->
         out = Ok not_found /\ cost_per_unit_of not_found == 0))
  /\ (forall (item : catalog_entry) (products_cache : gmap string catalog_entry),
        (has_positive_value (buyPrice item) = true ->
         Optimized.get_buy_price_for_item item "variant" products_cache
         = {| value := get_value (buyPrice item); source := "модификация" |})
        /\ (has_positive_value (buyPrice item) = false ->
            Optimized.get_buy_price_for_item item "variant" products_cache
            = not_found)).
Proof.
  split.
  - intros api st item Hmiss out. subst out.
    rewrite (get_buy_price_miss api item "variant" st Hmiss).
    rewrite resolve_variant.
    split; [| split].
    + intros ->. reflexivity.
    + intros -> href base_product -> -> Hbase. simpl.
      rewrite (priced_positive _ _ Hbase). reflexivity.
    + intros -> Hnone.
      split; [| vm_compute; reflexivity].
      destruct (truthy_str (product_href item)) as [href |]; [| reflexivity].
      destruct (api (length (Final.calls st)) (Final.GetHref href))
        as [[rows | base_product] | e] eqn:Hanswer; try reflexivity.
      simpl. unfold priced.
      rewrite (Hnone href base_product eq_refl Hanswer). reflexivity.
  - intros item products_cache.
    unfold Optimized.get_buy_price_for_item. eval_item_type.
    split; intros ->; reflexivity.
Qed.

Lemma variant_resolution_witness :
  fst (Final.get_buy_price_for_item
         (fun _ _ => Ok (Final.Entity (base_entry "p-9" 50000)))
         (variant_entry "v-1" None "https://api.example/entity/product/p-9")
         "variant" Final.empty_state)
  = Ok {| value := 50000; source := "базовый товар модификации" |}.
Proof.
  refine (proj1 (proj2 (proj1 variant_resolution
    (fun _ _ => Ok (Final.Entity (base_entry "p-9" 50000)))
    Final.empty_state
    (variant_entry "v-1" None "https://api.example/entity/product/p-9") _))
    _ "https://api.example/entity/product/p-9" (base_entry "p-9" 50000)
    _ _ _);
    reflexivity.
Defined.

(** C5 as stated fails on the resolver of optimized_script.py: a variant
    without a buy price of its own, whose base product costs 500.00, is not
    found there (and resolved through the base item by final.py).  And in
    final.py a variant whose first resolution failed stays not found, from
    the result cache, when the base item can be fetched later. *)
Lemma variant_base_counterexample :
  let href := "https://api.example/entity/product/p-9" in
  let variant := variant_entry "v-1" None href in
  let base_product := base_entry "p-9" 50000 in
  let flaky : Final.service :=
    fun n _ => if (n =? 0)%nat then Raise Timeout
               else Ok (Final.Entity base_product) in
  let st1 :=
    snd (Final.get_buy_price_for_item flaky variant "variant"
           Final.empty_state) in
  Optimized.get_buy_price_for_item variant "variant"
    {[ "p-9" := base_product ]}
  = not_found
  /\ fst (Final.get_buy_price_for_item
            (fun _ _ => Ok (Final.Entity base_product)) variant "variant"
            Final.empty_state)
     = Ok {| value := 50000; source := "базовый товар модификации" |}
  /\ flaky (length (Final.calls st1)) (Final.GetHref href)
     = Ok (Final.Entity base_product)
  /\ fst (Final.get_buy_price_for_item flaky variant "variant" st1)
     = Ok not_found.
Proof. vm_compute. repeat split; reflexivity. Qed.

(** * Further properties of the scripts *)

(** ** The attribute extractor, attribute by attribute *)

Section ExtractorTotals.

Variable str_lower : string -> string.
Variable str_to_float : string -> option Q.

Let scan := Extractor.scan_attribute str_lower str_to_float.

Lemma scan_as_parsed (c : Extractor.costs) (attr : attribute) :
  scan c attr
  = Ok match parsed str_to_float attr with
       | Some v =>
           Extractor.classify_delivery
             (Extractor.classify_commission c (attr_name attr)
                (str_lower (attr_name attr)) v)
             (str_lower (attr_name attr)) v
       | None => c
       end.
Proof.
  unfold scan, Extractor.scan_attribute, parsed.
  destruct (Extractor.is_blank (attr_value attr)); [reflexivity |].
  destruct (Extractor.float str_to_float (attr_value attr)); reflexivity.
Qed.

Lemma classify_delivery_commission c attr_name_lower v :
  Extractor.commission_sum (Extractor.classify_delivery c attr_name_lower v)
  = Extractor.commission_sum c
  /\ Extractor.commission_percent
       (Extractor.classify_delivery c attr_name_lower v)
     = Extractor.commission_percent c.
Proof.
  unfold Extractor.classify_delivery.
  repeat match goal with
         | |- context [if ?b then _ else _] => destruct b
         end; split; reflexivity.
Qed.

Lemma classify_commission_sum c attr_name attr_name_lower v :
  Extractor.commission_sum
    (Extractor.classify_commission c attr_name attr_name_lower v)
  = if commission_sum_rule attr_name attr_name_lower
    then Extractor.commission_sum c + v
    else Extractor.commission_sum c.
Proof.
  unfold Extractor.classify_commission, commission_sum_rule.
  destruct (contains "комисс" attr_name_lower),
           (contains "товар" attr_name_lower),
           (contains "доставк" attr_name_lower),
           (contains "%" attr_name),
           (contains "сумма" attr_name_lower); reflexivity.
Qed.

Lemma classify_commission_percent c attr_name attr_name_lower v :
  Extractor.commission_percent
    (Extractor.classify_commission c attr_name attr_name_lower v)
  = if percent_rule attr_name attr_name_lower
    then v
    else Extractor.commission_percent c.
Proof.
  unfold Extractor.classify_commission, percent_rule.
  destruct (contains "комисс" attr_name_lower),
           (contains "товар" attr_name_lower),
           (contains "доставк" attr_name_lower),
           (contains "%" attr_name),
           (contains "сумма" attr_name_lower); reflexivity.
Qed.

Lemma classify_delivery_cost c attr_name_lower v :
  Extractor.delivery_cost (Extractor.classify_delivery c attr_name_lower v)
  = if delivery_rule attr_name_lower
    then Extractor.delivery_cost c + v
    else Extractor.delivery_cost c.
Proof.
  destruct (delivery_rule attr_name_lower) eqn:Hrule.
  - rewrite (classify_delivery_matched _ _ _ Hrule). reflexivity.
  - rewrite (classify_delivery_unmatched _ _ _ Hrule). reflexivity.
Qed.

(** The totals after the loop, from any starting totals. *)
Lemma for_each_scan_totals (attrs : list attribute) :
  forall c, exists c',
    for_each scan c attrs = Ok c'
    /\ Extractor.delivery_cost c'
       == Extractor.delivery_cost c
          + sum (values_where str_lower str_to_float
                   (fun _ l => delivery_rule l) attrs)
    /\ Extractor.commission_sum c'
       == Extractor.commission_sum c
          + sum (values_where str_lower str_to_float commission_sum_rule
                   attrs).
Proof.
  induction attrs as [| attr attrs IH]; intros c.
  - exists c. simpl. repeat split; lra.
  - cbn [for_each]. rewrite scan_as_parsed. cbn [bind].
    match goal with
    | |- context [for_each scan ?c1 attrs] =>
        destruct (IH c1) as [c' [Hrun [Hd Hs]]]
    end.
    exists c'. split; [exact Hrun |].
    unfold values_where in *. cbn [flat_map]. rewrite !sum_app.
    destruct (parsed str_to_float attr) as [v |].
    + rewrite classify_delivery_cost, classify_commission_delivery in Hd.
      rewrite (proj1 (classify_delivery_commission _ _ _)),
        classify_commission_sum in Hs.
      split.
      * rewrite Hd.
        destruct (delivery_rule (str_lower (attr_name attr))); simpl; lra.
      * rewrite Hs.
        destruct (commission_sum_rule (attr_name attr)
                    (str_lower (attr_name attr))); simpl; lra.
    + split; [rewrite Hd | rewrite Hs]; simpl; lra.
Qed.

Lemma apply_percent_keeps (order_sum : Q) (c : Extractor.costs) :
  Extractor.delivery_cost (Extractor.apply_percent order_sum c)
  = Extractor.delivery_cost c
  /\ Extractor.commission_percent (Extractor.apply_percent order_sum c)
     = Extractor.commission_percent c.
Proof.
  unfold Extractor.apply_percent.
  destruct (Qlt_le_dec 0 (Extractor.commission_percent c));
    [destruct (Qeq_dec (Extractor.commission_sum c) 0) |];
    split; reflexivity.
Qed.

(** X1: the delivery cost is the sum of the parsed values of all
    attributes under the delivery rule, and the commission sum, when the
    values under the commission-sum rules do not cancel to 0, is their
    sum. *)
Theorem extractor_sums (o : order) :
  exists r,
    Extractor.extract_commission_and_delivery str_lower str_to_float o = Ok r
    /\ Extractor.delivery_cost r
       == sum (values_where str_lower str_to_float
                 (fun _ l => delivery_rule l) (order_attributes o))
    /\ (~ sum (values_where str_lower str_to_float commission_sum_rule
                 (order_attributes o)) == 0 ->
        Extractor.commission_sum r
        == sum (values_where str_lower str_to_float commission_sum_rule
                  (order_attributes o))).
Proof.
  unfold Extractor.extract_commission_and_delivery. fold scan.
  destruct (for_each_scan_totals (order_attributes o) Extractor.no_costs)
    as [c [-> [Hd Hs]]].
  cbn [bind]. eexists. split; [reflexivity |].
  simpl in Hd, Hs.
  split.
  - rewrite (proj1 (apply_percent_keeps _ c)), Hd. lra.
  - intros Hnz.
    rewrite (proj1 (proj2 (apply_percent_sum _ c))); [rewrite Hs; lra |].
    rewrite Hs. intros H. apply Hnz. rewrite <- H. lra.
Qed.

End ExtractorTotals.

Lemma extractor_sums_witness :
  exists r,
    Extractor.extract_commission_and_delivery lower float_of_str
      (order_with 100000
         [{| attr_name := "Комиссия за товар"; attr_value := VNum 30 |};
          {| attr_name := "Комиссия за доставку"; attr_value := VStr "12.5" |};
          {| attr_name := "Цена доставки"; attr_value := VNum 40 |};
          {| attr_name := "Delivery cost"; attr_value := VNum 60 |}])
    = Ok r
    /\ Extractor.delivery_cost r == 100
    /\ Extractor.commission_sum r == 85 # 2.
Proof.
  destruct (extractor_sums lower float_of_str
              (order_with 100000
                 [{| attr_name := "Комиссия за товар"; attr_value := VNum 30 |};
                  {| attr_name := "Комиссия за доставку";
                     attr_value := VStr "12.5" |};
                  {| attr_name := "Цена доставки"; attr_value := VNum 40 |};
                  {| attr_name := "Delivery cost"; attr_value := VNum 60 |}]))
    as [r [Hrun [Hd Hs]]].
  exists r. split; [exact Hrun |]. split.
  - rewrite Hd. vm_compute. reflexivity.
  - rewrite Hs; [vm_compute; reflexivity |].
    intros H. vm_compute in H. discriminate.
Defined.

Section ExtractorPercent.

Variable str_lower : string -> string.
Variable str_to_float : string -> option Q.

Let scan := Extractor.scan_attribute str_lower str_to_float.

Lemma scan_percent (c : Extractor.costs) (attr : attribute) :
  exists c',
    scan c attr = Ok c'
    /\ Extractor.commission_percent c'
       = match parsed str_to_float attr with
         | Some v =>
             if percent_rule (attr_name attr) (str_lower (attr_name attr))
             then v else Extractor.commission_percent c
         | None => Extractor.commission_percent c
         end.
Proof.
  eexists. split; [apply scan_as_parsed |].
  destruct (parsed str_to_float attr) as [v |]; [| reflexivity].
  rewrite (proj2 (classify_delivery_commission _ _ _)).
  apply classify_commission_percent.
Qed.

Lemma for_each_scan_percent_kept (attrs : list attribute) :
  (forall a w, In a attrs -> parsed str_to_float a = Some w ->
               percent_rule (attr_name a) (str_lower (attr_name a)) = false) ->
  forall c, exists c',
    for_each scan c attrs = Ok c'
    /\ Extractor.commission_percent c' = Extractor.commission_percent c.
Proof.
  induction attrs as [| attr attrs IH]; intros Hnone c.
  - exists c. split; reflexivity.
  - cbn [for_each].
    destruct (scan_percent c attr) as [c1 [-> Hp]]. cbn [bind].
    destruct (IH (fun a w Ha => Hnone a w (or_intror Ha)) c1)
      as [c' [Hrun Hkeep]].
    exists c'. split; [exact Hrun |].
    rewrite Hkeep, Hp.
    destruct (parsed str_to_float attr) as [v |] eqn:Hv; [| reflexivity].
    rewrite (Hnone attr v (or_introl eq_refl) Hv). reflexivity.
Qed.

(** X2: the commission percentage is not added up: the last parsed
    attribute under the percent rule gives it, whatever stood before, and
    without such an attribute it is 0. *)
Theorem percent_last_wins (o : order) :
  (forall before attr after v,
     order_attributes o = (before ++ attr :: after)%list ->
     parsed str_to_float attr = Some v ->
     percent_rule (attr_name attr) (str_lower (attr_name attr)) = true ->
     (forall a w, In a after -> parsed str_to_float a = Some w ->
        percent_rule (attr_name a) (str_lower (attr_name a)) = false) ->
     exists r,
       Extractor.extract_commission_and_delivery str_lower str_to_float o
       = Ok r
       /\ Extractor.commission_percent r = v)
  /\ ((forall a w, In a (order_attributes o) ->
         parsed str_to_float a = Some w ->
         percent_rule (attr_name a) (str_lower (attr_name a)) = false) ->
      exists r,
        Extractor.extract_commission_and_delivery str_lower str_to_float o
        = Ok r
        /\ Extractor.commission_percent r = 0).
Proof.
  unfold Extractor.extract_commission_and_delivery. fold scan.
  split.
  - intros before attr after v Hattrs Hv Hrule Hafter.
    rewrite Hattrs, for_each_app.
    destruct (for_each_scan_returns str_lower str_to_float before
                Extractor.no_costs) as [c0 Hc0].
    fold scan in Hc0. rewrite Hc0. cbn [bind for_each].
    destruct (scan_percent c0 attr) as [c1 [-> Hp]]. cbn [bind].
    rewrite Hv, Hrule in Hp.
    destruct (for_each_scan_percent_kept after Hafter c1) as [c' [-> Hkeep]].
    cbn [bind]. eexists. split; [reflexivity |].
    rewrite (proj2 (apply_percent_keeps _ c')), Hkeep. exact Hp.
  - intros Hnone.
    destruct (for_each_scan_percent_kept _ Hnone Extractor.no_costs)
      as [c' [-> Hkeep]].
    cbn [bind]. eexists. split; [reflexivity |].
    rewrite (proj2 (apply_percent_keeps _ c')), Hkeep. reflexivity.
Qed.

(** X3: no attribute is counted twice: one attribute changes the delivery
    cost or the commission figures, never both. *)
Theorem scan_feeds_one_total (c c' : Extractor.costs) (attr : attribute) :
  scan c attr = Ok c' ->
  Extractor.delivery_cost c' = Extractor.delivery_cost c
  \/ (Extractor.commission_sum c' = Extractor.commission_sum c
      /\ Extractor.commission_percent c' = Extractor.commission_percent c).
Proof.
  unfold scan. rewrite scan_as_parsed. intros [= <-].
  destruct (parsed str_to_float attr) as [v |];
    [| left; reflexivity].
  destruct (delivery_rule (str_lower (attr_name attr))) eqn:Hd.
  - right.
    assert (Hk : contains "комисс" (str_lower (attr_name attr)) = false).
    { unfold delivery_rule in Hd.
      destruct (contains "комисс" (str_lower (attr_name attr)));
        [| reflexivity].
      rewrite andb_false_r in Hd. discriminate. }
    rewrite (proj1 (classify_delivery_commission _ _ _)),
      (proj2 (classify_delivery_commission _ _ _)).
    rewrite classify_commission_unmatched; [split; reflexivity |].
    unfold commission_rule. rewrite Hk. reflexivity.
  - left. rewrite (classify_delivery_unmatched _ _ _ Hd).
    apply classify_commission_delivery.
Qed.

End ExtractorPercent.

Lemma percent_last_wins_witness :
  exists r,
    Extractor.extract_commission_and_delivery lower float_of_str
      (order_with 100000
         [{| attr_name := "Комиссия %"; attr_value := VNum 10 |};
          {| attr_name := "Комиссия МП, %"; attr_value := VNum 15 |};
          {| attr_name := "Комментарий"; attr_value := VStr "7" |}])
    = Ok r
    /\ Extractor.commission_percent r = 15.
Proof.
  refine (proj1 (percent_last_wins lower float_of_str
                   (order_with 100000
                      [{| attr_name := "Комиссия %"; attr_value := VNum 10 |};
                       {| attr_name := "Комиссия МП, %";
                          attr_value := VNum 15 |};
                       {| attr_name := "Комментарий";
                          attr_value := VStr "7" |}]))
            [{| attr_name := "Комиссия %"; attr_value := VNum 10 |}]
            {| attr_name := "Комиссия МП, %"; attr_value := VNum 15 |}
            [{| attr_name := "Комментарий"; attr_value := VStr "7" |}]
            15 _ _ _ _).
  - reflexivity.
  - reflexivity.
  - vm_compute. reflexivity.
  - intros a w [<- | []] _. vm_compute. reflexivity.
Defined.

Lemma scan_feeds_one_total_witness :
  Extractor.delivery_cost
    {| Extractor.commission_percent := 0; Extractor.commission_sum := 0 + 25;
       Extractor.delivery_cost := 0 |}
  = Extractor.delivery_cost Extractor.no_costs
  \/ (Extractor.commission_sum
        {| Extractor.commission_percent := 0;
           Extractor.commission_sum := 0 + 25;
           Extractor.delivery_cost := 0 |}
      = Extractor.commission_sum Extractor.no_costs
      /\ Extractor.commission_percent
           {| Extractor.commission_percent := 0;
              Extractor.commission_sum := 0 + 25;
              Extractor.delivery_cost := 0 |}
         = Extractor.commission_percent Extractor.no_costs).
Proof.
  apply (scan_feeds_one_total lower float_of_str Extractor.no_costs _
           {| attr_name := "Комиссия за доставку (сумма)";
              attr_value := VNum 25 |}).
  vm_compute. reflexivity.
Defined.

(** ** The batch loop of [process_orders] *)

Section BatchFacts.

Variable str_lower : string -> string.
Variable str_to_float : string -> option Q.
Variable pc : gmap string catalog_entry.

Let extract := Extractor.extract_commission_and_delivery str_lower str_to_float.
Let step := Optimized.process_order str_lower str_to_float pc.

Lemma extract_returns (o : order) : exists costs, extract o = Ok costs.
Proof.
  unfold extract, Extractor.extract_commission_and_delivery.
  destruct (for_each_scan_returns str_lower str_to_float (order_attributes o)
              Extractor.no_costs) as [c ->].
  eexists. reflexivity.
Qed.

Lemma length_order_rows costs o :
  length (order_rows pc costs o) = length (order_positions o).
Proof. unfold order_rows. apply length_map. Qed.

Lemma emitted_rows_number (o : order)
    (calc : position -> Optimized.position_calc) (l : list position) :
  map Optimized.pd_order
    (map (fun pos => Optimized.emit_position o pos (calc pos)) l)
  = repeat (get (order_name o) "") (length l).
Proof.
  induction l as [| pos l IH].
  - reflexivity.
  - cbn [map length repeat]. rewrite IH. reflexivity.
Qed.

Lemma order_rows_number costs o :
  map Optimized.pd_order (order_rows pc costs o)
  = repeat (get (order_name o) "") (length (order_positions o)).
Proof. unfold order_rows. apply emitted_rows_number. Qed.

(** One pass of the loop: the rows of the order are appended, one summary
    is appended. *)
Lemma step_appends out o :
  exists costs sm,
    extract o = Ok costs
    /\ step out o
       = Ok ((fst out ++ order_rows pc costs o)%list, (snd out ++ [sm])%list)
    /\ Optimized.sm_order sm = get (order_name o) ""
    /\ Optimized.sm_positions sm = length (order_positions o).
Proof.
  destruct (extract_returns o) as [costs Hcosts].
  destruct (process_order_result str_lower str_to_float pc out o costs Hcosts)
    as [order_cost [_ Hrun]].
  exists costs. eexists. split; [exact Hcosts |].
  split; [exact Hrun |]. split; reflexivity.
Qed.

Lemma for_each_step (orders : list order) :
  forall out, exists rows sums,
    for_each step out orders
    = Ok ((fst out ++ rows)%list, (snd out ++ sums)%list)
    /\ map Optimized.sm_order sums
       = map (fun o => get (order_name o) "") orders
    /\ map Optimized.sm_positions sums
       = map (fun o => length (order_positions o)) orders
    /\ map Optimized.pd_order rows
       = flat_map (fun o => repeat (get (order_name o) "")
                              (length (order_positions o))) orders.
Proof.
  induction orders as [| o orders IH]; intros out.
  - exists [], []. simpl. rewrite !app_nil_r.
    destruct out; repeat split; reflexivity.
  - cbn [for_each].
    destruct (step_appends out o) as [costs [sm [_ [-> [Hname Hcount]]]]].
    cbn [bind].
    destruct (IH ((fst out ++ order_rows pc costs o)%list,
                  (snd out ++ [sm])%list))
      as [rows [sums [Hrun [Hnames [Hcounts Hrows]]]]].
    exists (order_rows pc costs o ++ rows)%list, (sm :: sums).
    split.
    + rewrite Hrun. cbn [fst snd]. rewrite <- !app_assoc. reflexivity.
    + cbn [map flat_map]. rewrite Hname, Hcount, Hnames, Hcounts.
      rewrite map_app, order_rows_number, Hrows.
      repeat split; reflexivity.
Qed.

(** X4: [process_orders] returns for every batch, with one summary per
    order, in the order of the batch and under the order's number and line
    count, and with one row per line, each under the number of its order. *)
Theorem process_orders_shape (orders : list order) :
  exists rows sums,
    Optimized.process_orders str_lower str_to_float orders pc
    = Ok (rows, sums)
    /\ map Optimized.sm_order sums
       = map (fun o => get (order_name o) "") orders
    /\ map Optimized.sm_positions sums
       = map (fun o => length (order_positions o)) orders
    /\ map Optimized.pd_order rows
       = flat_map (fun o => repeat (get (order_name o) "")
                              (length (order_positions o))) orders.
Proof.
  unfold Optimized.process_orders. fold step.
  destruct (for_each_step orders ([], [])) as [rows [sums [Hrun H]]].
  exists rows, sums. split; [exact Hrun | exact H].
Qed.

(** X5: what a batch produces is kept when the batch is extended: the
    rows and summaries of [orders ++ more] begin with those of [orders]. *)
Theorem process_orders_extends (orders more : list order) :
  exists rows sums rows' sums',
    Optimized.process_orders str_lower str_to_float orders pc
    = Ok (rows, sums)
    /\ Optimized.process_orders str_lower str_to_float (orders ++ more) pc
       = Ok ((rows ++ rows')%list, (sums ++ sums')%list)
    /\ length sums' = length more.
Proof.
  unfold Optimized.process_orders. fold step.
  rewrite for_each_app.
  destruct (for_each_step orders ([], [])) as [rows [sums [-> _]]].
  cbn [bind fst snd app].
  destruct (for_each_step more (rows, sums))
    as [rows' [sums' [-> [Hnames _]]]].
  exists rows, sums, rows', sums'.
  repeat split.
  apply (f_equal (@length string)) in Hnames.
  rewrite !length_map in Hnames. exact Hnames.
Qed.

End BatchFacts.

(** ** One order: lines against the summary *)

Section OrderFacts.

Variable str_lower : string -> string.
Variable str_to_float : string -> option Q.
Variable pc : gmap string catalog_entry.

Lemma round2_zero : round2 0 == 0.
Proof. reflexivity. Qed.

Lemma in_order_rows costs o row :
  In row (order_rows pc costs o) ->
  exists pos, In pos (order_positions o)
    /\ row = Optimized.emit_position o pos
               (Optimized.calc_position pc costs (order_revenue o)
                  (length (order_positions o)) pos).
Proof.
  unfold order_rows. intros Hin. apply in_map_iff in Hin.
  destruct Hin as [pos [Hrow Hpos]]. exists pos. split; [exact Hpos |].
  symmetry. exact Hrow.
Qed.

Lemma profit_calc costs order_sum n pos :
  Optimized.profit (Optimized.calc_position pc costs order_sum n pos)
  = Optimized.position_sum (Optimized.calc_position pc costs order_sum n pos)
    - Optimized.full_cost (Optimized.calc_position pc costs order_sum n pos).
Proof. reflexivity. Qed.

Lemma profit_total costs order_sum n (l : list position) :
  sum (map Optimized.profit
         (map (Optimized.calc_position pc costs order_sum n) l))
  == sum (map Optimized.position_sum
            (map (Optimized.calc_position pc costs order_sum n) l))
     - sum (map Optimized.full_cost
              (map (Optimized.calc_position pc costs order_sum n) l)).
Proof.
  induction l as [| pos l IH].
  - simpl. lra.
  - change (map ?f (map ?g (pos :: l))) with (f (g pos) :: map f (map g l)).
    change (sum (?x :: ?xs)) with (x + sum xs).
    rewrite IH, profit_calc. lra.
Qed.

(** X6: an order without lines adds no row; its summary has line count 0,
    full cost 0 and the flag "Нет", its net profit is revenue - VAT, and
    the extracted delivery and commission are still reported. *)
Theorem summary_of_empty_order
    (out : list Optimized.position_data * list Optimized.summary)
    (o : order) (costs : Extractor.costs) :
  Extractor.extract_commission_and_delivery str_lower str_to_float o
  = Ok costs ->
  order_positions o = [] ->
  exists sm,
    Optimized.process_order str_lower str_to_float pc out o
    = Ok (fst out, (snd out ++ [sm])%list)
    /\ Optimized.sm_positions sm = 0%nat
    /\ Optimized.sm_full_cost sm == 0
    /\ Optimized.sm_cost_available sm = "Нет"
    /\ Optimized.sm_net_profit sm
       == round2 (order_revenue o - get (order_vatSum o) 0 / 100)
    /\ Optimized.sm_delivery sm = round2 (Extractor.delivery_cost costs)
    /\ Optimized.sm_commission sm = round2 (Extractor.commission_sum costs).
Proof.
  intros Hcosts Hempty.
  unfold Optimized.process_order. rewrite Hcosts, Hempty.
  cbn [bind fold_left length].
  eexists. split; [reflexivity |].
  unfold Optimized.make_summary; simpl. fold (order_revenue o).
  repeat split; try reflexivity.
  apply round2_comp. lra.
Qed.

(** X7: for an order whose header sum equals the sum of its lines, the
    net profit of the summary is the sum of the lines' profits less the
    VAT (in the one rounding of the summary). *)
Theorem net_profit_from_lines
    (out : list Optimized.position_data * list Optimized.summary)
    (o : order) (costs : Extractor.costs) :
  Extractor.extract_commission_and_delivery str_lower str_to_float o
  = Ok costs ->
  sum (map Optimized.position_sum (calc_positions pc costs o))
  == order_revenue o ->
  exists rows sm,
    Optimized.process_order str_lower str_to_float pc out o
    = Ok (rows, (snd out ++ [sm])%list)
    /\ Optimized.sm_net_profit sm
       == round2 (sum (map Optimized.profit (calc_positions pc costs o))
                  - get (order_vatSum o) 0 / 100).
Proof.
  intros Hcosts Hrev.
  destruct (process_order_result str_lower str_to_float pc out o costs Hcosts)
    as [order_cost [Hcost Hrun]].
  eexists. eexists. split; [exact Hrun |].
  unfold Optimized.make_summary; simpl.
  apply round2_comp.
  pose proof (profit_total costs (order_revenue o)
                (length (order_positions o)) (order_positions o)) as Hprofit.
  fold (calc_positions pc costs o) in Hprofit.
  rewrite Hprofit, Hrev, Hcost. reflexivity.
Qed.

(** X8: when no attribute of the order matches a rule, nothing is
    allocated: every row of the order has delivery 0, commission 0 and a
    full cost equal to its product cost, and the summary reports delivery 0
    and commission 0. *)
Theorem rows_without_shared_costs
    (out : list Optimized.position_data * list Optimized.summary)
    (o : order) :
  (forall attr, In attr (order_attributes o) ->
     commission_rule (attr_name attr) (str_lower (attr_name attr)) = false
     /\ delivery_rule (str_lower (attr_name attr)) = false) ->
  exists rows sm,
    Optimized.process_order str_lower str_to_float pc out o
    = Ok ((fst out ++ rows)%list, (snd out ++ [sm])%list)
    /\ length rows = length (order_positions o)
    /\ (forall row, In row rows ->
          Optimized.pd_delivery row == 0
          /\ Optimized.pd_commission row == 0
          /\ Optimized.pd_full_cost row == Optimized.pd_product_cost row)
    /\ Optimized.sm_delivery sm == 0
    /\ Optimized.sm_commission sm == 0.
Proof.
  intros Hnone.
  assert (Hcosts :
    Extractor.extract_commission_and_delivery str_lower str_to_float o
    = Ok Extractor.no_costs).
  { unfold Extractor.extract_commission_and_delivery.
    rewrite (for_each_scan_unmatched str_lower str_to_float _ Hnone).
    reflexivity. }
  destruct (process_order_result str_lower str_to_float pc out o _ Hcosts)
    as [order_cost [_ Hrun]].
  eexists. eexists. split; [exact Hrun |].
  split; [unfold order_rows; apply length_map |].
  split; [| split; reflexivity].
  intros row Hrow. apply in_order_rows in Hrow. destruct Hrow as [pos [_ ->]].
  cbn [Optimized.emit_position Optimized.pd_delivery Optimized.pd_commission
       Optimized.pd_full_cost Optimized.pd_product_cost].
  unfold Optimized.calc_position.
  cbn [Optimized.delivery_per_position Optimized.commission_per_position
       Optimized.full_cost Optimized.product_cost
       Extractor.delivery_cost Extractor.commission_sum Extractor.no_costs].
  split; [| split].
  - apply Qeq_trans with (round2 0); [apply round2_comp; lra | apply round2_zero].
  - apply Qeq_trans with (round2 0); [apply round2_comp; lra | apply round2_zero].
  - apply round2_comp. lra.
Qed.

(** X9: the figures of an emitted row agree with each other up to their
    separate roundings: profit with sum - full cost within 1.5 cents, full
    cost with product cost + delivery + commission within 2 cents. *)
Theorem row_figures_consistent (costs : Extractor.costs) (o : order)
    (row : Optimized.position_data) :
  In row (order_rows pc costs o) ->
  Qabs (Optimized.pd_profit row
        - (Optimized.pd_sum row - Optimized.pd_full_cost row)) <= 3 # 200
  /\ Qabs (Optimized.pd_full_cost row
           - (Optimized.pd_product_cost row + Optimized.pd_delivery row
              + Optimized.pd_commission row)) <= 4 # 200.
Proof.
  intros Hrow. apply in_order_rows in Hrow. destruct Hrow as [pos [_ ->]].
  set (k := Optimized.calc_position pc costs (order_revenue o)
              (length (order_positions o)) pos).
  cbn [Optimized.emit_position Optimized.pd_profit Optimized.pd_sum
       Optimized.pd_full_cost Optimized.pd_product_cost
       Optimized.pd_delivery Optimized.pd_commission].
  assert (Hp : Optimized.profit k
               = Optimized.position_sum k - Optimized.full_cost k)
    by apply profit_calc.
  assert (Hf : Optimized.full_cost k
               = Optimized.product_cost k + Optimized.delivery_per_position k
                 + Optimized.commission_per_position k) by reflexivity.
  pose proof (round2_near (Optimized.profit k)) as [? ?].
  pose proof (round2_near (Optimized.position_sum k)) as [? ?].
  pose proof (round2_near (Optimized.full_cost k)) as [? ?].
  pose proof (round2_near (Optimized.product_cost k)) as [? ?].
  pose proof (round2_near (Optimized.delivery_per_position k)) as [? ?].
  pose proof (round2_near (Optimized.commission_per_position k)) as [? ?].
  rewrite Hp in *.
  split; apply Qabs_Qle_condition; split; try lra.
  - rewrite Hf in *. lra.
  - rewrite Hf in *. lra.
Qed.

End OrderFacts.

Lemma summary_of_empty_order_witness :
  exists sm,
    Optimized.process_order lower float_of_str ∅ ([], []) Sample.empty_order
    = Ok ([], [sm])
    /\ Optimized.sm_full_cost sm == 0
    /\ Optimized.sm_cost_available sm = "Нет".
Proof.
  assert (Hcosts :
    Extractor.extract_commission_and_delivery lower float_of_str
      Sample.empty_order
    = Ok {| Extractor.commission_percent := 0; Extractor.commission_sum := 0;
            Extractor.delivery_cost := 0 + 90 |})
    by (vm_compute; reflexivity).
  destruct (summary_of_empty_order lower float_of_str ∅ ([], [])
              Sample.empty_order _ Hcosts eq_refl)
    as [sm [Hrun [_ [Hfull [Hflag _]]]]].
  exists sm. split; [exact Hrun | split; [exact Hfull | exact Hflag]].
Defined.

Lemma net_profit_from_lines_witness :
  exists rows sm,
    Optimized.process_order lower float_of_str ∅ ([], [])
      Sample.two_line_order
    = Ok (rows, [sm])
    /\ Optimized.sm_net_profit sm == 550.
Proof.
  assert (Hcosts :
    Extractor.extract_commission_and_delivery lower float_of_str
      Sample.two_line_order
    = Ok {| Extractor.commission_percent := 0; Extractor.commission_sum := 0;
            Extractor.delivery_cost := 0 + 50 |})
    by (vm_compute; reflexivity).
  destruct (net_profit_from_lines lower float_of_str ∅ ([], [])
              Sample.two_line_order _ Hcosts)
    as [rows [sm [Hrun Hnet]]].
  - vm_compute. reflexivity.
  - exists rows, sm. split; [exact Hrun |].
    rewrite Hnet. vm_compute. reflexivity.
Defined.

Lemma rows_without_shared_costs_witness :
  exists rows sm,
    Optimized.process_order lower float_of_str ∅ ([], []) Sample.first_00001
    = Ok (rows, [sm])
    /\ length rows = 1%nat.
Proof.
  destruct (rows_without_shared_costs lower float_of_str ∅ ([], [])
              Sample.first_00001) as [rows [sm [Hrun [Hlen _]]]].
  - intros attr [].
  - exists rows, sm. split; [exact Hrun | exact Hlen].
Defined.

Lemma row_figures_consistent_witness :
  let costs := {| Extractor.commission_percent := 0;
                  Extractor.commission_sum := 0;
                  Extractor.delivery_cost := 50 |} in
  let pos := Sample.line 1 60000 Sample.tea in
  let row :=
    Optimized.emit_position Sample.two_line_order pos
      (Optimized.calc_position ∅ costs (order_revenue Sample.two_line_order)
         (length (order_positions Sample.two_line_order)) pos) in
  Qabs (Optimized.pd_profit row
        - (Optimized.pd_sum row - Optimized.pd_full_cost row)) <= 3 # 200.
Proof.
  intros costs pos row.
  refine (proj1 (row_figures_consistent ∅ costs Sample.two_line_order row _)).
  left. reflexivity.
Defined.

(** ** Paging through the order listing *)

Section Paging.

Variable api : OptimizedMain.order_service.

(** The answers to the first requests: [full k q] says that requests
    [s], ..., [s + k - 1], each at offset 100 x its index, return the pages
    [q s], ... with at least 100 rows each. *)
Let full (s k : nat) (q : nat -> list order) : Prop :=
  forall i, (s <= i < s + k)%nat ->
    api i (OptimizedMain.limit * i)%nat = Ok (OptimizedMain.Page (q i))
    /\ (OptimizedMain.limit <= length (q i))%nat.

Lemma loop_over_full_pages (k : nat) (q : nat -> list order) :
  forall (fuel : nat) (all_orders : list order) (calls : list nat),
    full (length calls) k q ->
    OptimizedMain.get_all_orders_loop (k + fuel) api
      (OptimizedMain.limit * length calls) all_orders calls
    = OptimizedMain.get_all_orders_loop fuel api
        (OptimizedMain.limit * (length calls + k))
        (all_orders ++ concat (map q (seq (length calls) k)))
        (calls ++ map (Nat.mul OptimizedMain.limit) (seq (length calls) k)).
Proof.
  induction k as [| k IH]; intros fuel all_orders calls Hfull.
  - cbn [Nat.add seq map concat]. rewrite Nat.add_0_r, !app_nil_r.
    reflexivity.
  - destruct (Hfull (length calls)) as [Hpage Hlen]; [lia |].
    change (S k + fuel)%nat with (S (k + fuel)).
    cbn [OptimizedMain.get_all_orders_loop].
    rewrite Hpage. cbn [OptimizedMain._make_request].
    destruct (Nat.ltb_spec (length (q (length calls))) OptimizedMain.limit)
      as [Hshort | _]; [lia |].
    assert (Hnext : length (calls ++ [(OptimizedMain.limit * length calls)%nat])
                    = S (length calls))
      by (rewrite length_app; cbn [length]; lia).
    replace (OptimizedMain.limit * length calls + OptimizedMain.limit)%nat
      with (OptimizedMain.limit
            * length (calls ++ [(OptimizedMain.limit * length calls)%nat]))%nat
      by (rewrite Hnext; apply Nat.mul_succ_r).
    rewrite IH.
    + rewrite Hnext. cbn [seq map concat].
      rewrite <- !app_assoc. cbn [app].
      replace (S (length calls) + k)%nat with (length calls + S k)%nat by lia.
      reflexivity.
    + rewrite Hnext. intros i Hi. apply Hfull. lia.
Qed.

Lemma loop_from_start (k : nat) (q : nat -> list order) (fuel : nat) :
  (forall i, (i < k)%nat ->
     api i (OptimizedMain.limit * i)%nat = Ok (OptimizedMain.Page (q i))
     /\ (OptimizedMain.limit <= length (q i))%nat) ->
  OptimizedMain.get_all_orders (k + fuel) api
  = OptimizedMain.get_all_orders_loop fuel api (OptimizedMain.limit * k)
      (concat (map q (seq 0 k)))
      (map (Nat.mul OptimizedMain.limit) (seq 0 k)).
Proof.
  intros Hfull.
  assert (H : full (length (@nil nat)) k q).
  { intros i Hi. apply Hfull. cbn [length Nat.add] in Hi. lia. }
  exact (loop_over_full_pages k q fuel [] [] H).
Qed.

(** X10: when the first [k] pages are full and the next one is short,
    [get_all_orders] ends (with any fuel above [k]) with all rows of these
    [k + 1] pages in order, after exactly [k + 1] requests at offsets
    0, 100, ..., 100 k. *)
Theorem get_all_orders_pages (k : nat) (q : nat -> list order)
    (last : list order) (fuel : nat) :
  (forall i, (i < k)%nat ->
     api i (OptimizedMain.limit * i)%nat = Ok (OptimizedMain.Page (q i))
     /\ (OptimizedMain.limit <= length (q i))%nat) ->
  api k (OptimizedMain.limit * k)%nat = Ok (OptimizedMain.Page last) ->
  (length last < OptimizedMain.limit)%nat ->
  OptimizedMain.get_all_orders (S k + fuel) api
  = Some ((concat (map q (seq 0 k)) ++ last)%list,
          map (Nat.mul OptimizedMain.limit) (seq 0 (S k))).
Proof.
  intros Hfull Hlast Hshort.
  replace (S k + fuel)%nat with (k + S fuel)%nat by lia.
  rewrite (loop_from_start k q (S fuel) Hfull).
  cbn [OptimizedMain.get_all_orders_loop].
  rewrite length_map, length_seq, Hlast.
  cbn [OptimizedMain._make_request].
  destruct (Nat.ltb_spec (length last) OptimizedMain.limit) as [_ | Hge];
    [| lia].
  rewrite seq_S, map_app. reflexivity.
Qed.

(** X11: a page request that fails, or whose body has no rows key, ends
    the download without an error: the result is what the full pages
    before it held, and nothing tells that it is incomplete. *)
Theorem get_all_orders_truncates (k : nat) (q : nat -> list order)
    (fuel : nat) :
  (forall i, (i < k)%nat ->
     api i (OptimizedMain.limit * i)%nat = Ok (OptimizedMain.Page (q i))
     /\ (OptimizedMain.limit <= length (q i))%nat) ->
  (exists e, api k (OptimizedMain.limit * k)%nat = Raise e)
  \/ api k (OptimizedMain.limit * k)%nat = Ok OptimizedMain.NoRows ->
  OptimizedMain.get_all_orders (S k + fuel) api
  = Some (concat (map q (seq 0 k)),
          map (Nat.mul OptimizedMain.limit) (seq 0 (S k))).
Proof.
  intros Hfull Hfail.
  replace (S k + fuel)%nat with (k + S fuel)%nat by lia.
  rewrite (loop_from_start k q (S fuel) Hfull).
  cbn [OptimizedMain.get_all_orders_loop].
  rewrite length_map, length_seq.
  rewrite seq_S, map_app.
  destruct Hfail as [[e ->] | ->]; reflexivity.
Qed.

(** X12: the loop has no bound of its own: against a listing that keeps
    answering with full pages it does not end, whatever the fuel. *)
Theorem get_all_orders_unbounded (q : nat -> list order) (fuel : nat) :
  (forall i,
     api i (OptimizedMain.limit * i)%nat = Ok (OptimizedMain.Page (q i))
     /\ (OptimizedMain.limit <= length (q i))%nat) ->
  OptimizedMain.get_all_orders fuel api = None.
Proof.
  intros Hfull.
  replace fuel with (fuel + 0)%nat by lia.
  rewrite (loop_from_start fuel q 0 (fun i _ => Hfull i)).
  reflexivity.
Qed.

End Paging.

Lemma get_all_orders_pages_witness :
  OptimizedMain.get_all_orders 2
    (fun n _ => if (n =? 0)%nat
                then Ok (OptimizedMain.Page (repeat Sample.first_00001 100))
                else Ok (OptimizedMain.Page [Sample.two_line_order]))
  = Some ((concat (map (fun _ => repeat Sample.first_00001 100) (seq 0 1))
           ++ [Sample.two_line_order])%list,
          map (Nat.mul OptimizedMain.limit) (seq 0 2)).
Proof.
  apply (get_all_orders_pages
           (fun n _ => if (n =? 0)%nat
                       then Ok (OptimizedMain.Page
                                  (repeat Sample.first_00001 100))
                       else Ok (OptimizedMain.Page [Sample.two_line_order]))
           1 (fun _ => repeat Sample.first_00001 100)
           [Sample.two_line_order] 0).
  - intros i Hi. assert (i = 0%nat) as -> by lia.
    split; [reflexivity |]. rewrite repeat_length. unfold OptimizedMain.limit.
    lia.
  - reflexivity.
  - unfold OptimizedMain.limit. cbn [length]. lia.
Defined.

Lemma get_all_orders_truncates_witness :
  OptimizedMain.get_all_orders 2
    (fun n _ => if (n =? 0)%nat
                then Ok (OptimizedMain.Page (repeat Sample.first_00001 100))
                else Raise Timeout)
  = Some (concat (map (fun _ => repeat Sample.first_00001 100) (seq 0 1)),
          map (Nat.mul OptimizedMain.limit) (seq 0 2)).
Proof.
  apply (get_all_orders_truncates
           (fun n _ => if (n =? 0)%nat
                       then Ok (OptimizedMain.Page
                                  (repeat Sample.first_00001 100))
                       else Raise Timeout)
           1 (fun _ => repeat Sample.first_00001 100) 0).
  - intros i Hi. assert (i = 0%nat) as -> by lia.
    split; [reflexivity |]. rewrite repeat_length. unfold OptimizedMain.limit.
    lia.
  - left. exists Timeout. reflexivity.
Defined.

Lemma get_all_orders_unbounded_witness :
  OptimizedMain.get_all_orders 7
    (fun _ _ => Ok (OptimizedMain.Page (repeat Sample.first_00001 100)))
  = None.
Proof.
  apply (get_all_orders_unbounded
           (fun _ _ => Ok (OptimizedMain.Page (repeat Sample.first_00001 100)))
           (fun _ => repeat Sample.first_00001 100) 7).
  intros i. split; [reflexivity |].
  rewrite repeat_length. unfold OptimizedMain.limit. lia.
Defined.

(** ** Loading the base products of the bundles *)

Lemma load_products_step (api : Final.service) (article : string)
    (rest : list string) (products_cache : gmap string catalog_entry)
    (calls : list Final.request) :
  OptimizedMain.load_products api (article :: rest) products_cache calls
  = OptimizedMain.load_products api rest
      match first_row (api (length calls) (Final.GetProductByArticle article))
      with
      | Some product => <[article := product]> products_cache
      | None => products_cache
      end
      (calls ++ [Final.GetProductByArticle article]).
Proof.
  cbn [OptimizedMain.load_products]. unfold first_row.
  destruct (api (length calls) (Final.GetProductByArticle article))
    as [[[| product rows] | e] | e]; reflexivity.
Qed.

Lemma load_products_calls (api : Final.service) (articles : list string) :
  forall products_cache calls,
    snd (OptimizedMain.load_products api articles products_cache calls)
    = (calls ++ map Final.GetProductByArticle articles)%list.
Proof.
  induction articles as [| article rest IH]; intros products_cache calls.
  - cbn [OptimizedMain.load_products snd map]. rewrite app_nil_r. reflexivity.
  - rewrite load_products_step, IH. cbn [map].
    rewrite <- app_assoc. reflexivity.
Qed.

Lemma NoDup_requests (articles : list string) :
  List.NoDup articles -> List.NoDup (map Final.GetProductByArticle articles).
Proof.
  induction 1 as [| a l Hnotin Hnodup IH]; cbn [map]; constructor.
  - intros Hin. apply in_map_iff in Hin.
    destruct Hin as [b [[= ->] Hb]]. contradiction.
  - exact IH.
Qed.

(** X13: the loader sends exactly one product search per distinct article
    of the bundle lines of the batch, however many lines share an article
    and whatever the answers are. *)
Theorem load_products_one_request_per_article (api : Final.service)
    (orders : list order) (articles : list string) :
  List.NoDup articles ->
  (forall a, In a articles <-> In a (OptimizedMain.bundle_articles orders)) ->
  let calls := snd (OptimizedMain.load_products api articles ∅ []) in
  calls = map Final.GetProductByArticle articles
  /\ List.NoDup calls
  /\ forall a, In (Final.GetProductByArticle a) calls
               <-> In a (OptimizedMain.bundle_articles orders).
Proof.
  intros Hnodup Hset calls. subst calls.
  rewrite load_products_calls. cbn [app].
  split; [reflexivity |]. split.
  - apply NoDup_requests. exact Hnodup.
  - intros a. rewrite <- Hset. split.
    + intros Hin. apply in_map_iff in Hin.
      destruct Hin as [b [[= ->] Hb]]. exact Hb.
    + intros Hin. apply in_map. exact Hin.
Qed.

Section PureService.

(** A service whose answer depends on the request only. *)
Variable answer : Final.request -> res Final.body.

Lemma load_products_lookup (articles : list string) :
  forall (products_cache : gmap string catalog_entry)
         (calls : list Final.request) (a : string),
    fst (OptimizedMain.load_products (fun _ => answer) articles
           products_cache calls) !! a
    = match first_row (answer (Final.GetProductByArticle a)) with
      | Some product =>
          if in_dec string_dec a articles then Some product
          else products_cache !! a
      | None => products_cache !! a
      end.
Proof.
  induction articles as [| b rest IH]; intros products_cache calls a.
  - cbn [OptimizedMain.load_products fst].
    destruct (first_row (answer (Final.GetProductByArticle a)));
      [destruct (in_dec string_dec a []) as [[] | _] |]; reflexivity.
  - rewrite load_products_step, IH.
    destruct (decide (a = b)) as [-> | Hne].
    + destruct (first_row (answer (Final.GetProductByArticle b)))
        as [product |] eqn:Hb; [| reflexivity].
      rewrite lookup_insert_eq.
      destruct (in_dec string_dec b rest),
        (in_dec string_dec b (b :: rest)) as [_ | Hn];
        try reflexivity; exfalso; apply Hn; left; reflexivity.
    + assert (Hkeep :
        match first_row (answer (Final.GetProductByArticle b)) with
        | Some product => <[b := product]> products_cache
        | None => products_cache
        end !! a = products_cache !! a).
      { destruct (first_row (answer (Final.GetProductByArticle b)));
          [apply lookup_insert_ne; congruence | reflexivity]. }
      rewrite Hkeep.
      destruct (first_row (answer (Final.GetProductByArticle a)));
        [| reflexivity].
      destruct (in_dec string_dec a rest) as [Hin | Hnin],
               (in_dec string_dec a (b :: rest)) as [Hin' | Hnin'];
        try reflexivity.
      * exfalso. apply Hnin'. right. exact Hin.
      * exfalso. destruct Hin' as [Heq | Hin']; [congruence | contradiction].
Qed.

(** X14: with the loaded cache a bundle line gets the positive buy price
    of the first product the search for its article returned, under the
    label naming the article, and is not found when that search failed or
    returned nothing. *)
Theorem bundle_price_after_loading (articles : list string)
    (item : catalog_entry) (article : string) :
  truthy_str (item_article item) = Some article ->
  In article articles ->
  Optimized.get_buy_price_for_item item "bundle"
    (fst (OptimizedMain.load_products (fun _ => answer) articles ∅ []))
  = match first_row (answer (Final.GetProductByArticle article)) with
    | Some product =>
        priced (buyPrice product) ("основной товар (арт. " ++ article ++ ")")
    | None => not_found
    end.
Proof.
  intros Harticle Hin.
  unfold Optimized.get_buy_price_for_item. eval_item_type.
  rewrite Harticle, load_products_lookup.
  destruct (first_row (answer (Final.GetProductByArticle article)))
    as [product |].
  - destruct (in_dec string_dec article articles);
      [reflexivity | contradiction].
  - rewrite lookup_empty. reflexivity.
Qed.

End PureService.

Lemma load_products_one_request_per_article_witness :
  snd (OptimizedMain.load_products (fun _ _ => Ok (Final.Rows [])) ["X1"] ∅ [])
  = map Final.GetProductByArticle ["X1"].
Proof.
  refine (proj1 (load_products_one_request_per_article
                   (fun _ _ => Ok (Final.Rows []))
                   [order_with 0 []; 
                    {| order_name := None; order_moment := None;
                       order_sum_field := None; order_vatSum := None;
                       order_attributes := [];
                       order_positions :=
                         [Sample.line 1 100 (bundle_entry "b-1" "X1");
                          Sample.line 2 100 (bundle_entry "b-2" "X1");
                          Sample.line 1 100 Sample.tea] |}]
                   ["X1"] _ _)).
  - repeat constructor. intros [].
  - intros a. vm_compute. tauto.
Defined.

Lemma bundle_price_after_loading_witness :
  Optimized.get_buy_price_for_item (bundle_entry "b-1" "X1") "bundle"
    (fst (OptimizedMain.load_products
            (fun _ _ => Ok (Final.Rows [base_entry "p-7" 50000]))
            ["X1"] ∅ []))
  = priced (buyPrice (base_entry "p-7" 50000))
      ("основной товар (арт. " ++ "X1" ++ ")").
Proof.
  apply (bundle_price_after_loading
           (fun _ => Ok (Final.Rows [base_entry "p-7" 50000]))
           ["X1"] (bundle_entry "b-1" "X1") "X1").
  - reflexivity.
  - left. reflexivity.
Defined.

(** ** The statistics table *)

Lemma make_summary_balance (o : order) (costs : Extractor.costs)
    (order_sum order_cost : Q) (n : nat)
    (rows : list Optimized.position_data) :
  let sm := Optimized.make_summary o costs order_sum order_cost n rows in
  - (1 # 50)
  <= Optimized.sm_net_profit sm
     - (Optimized.sm_revenue sm - Optimized.sm_full_cost sm
        - Optimized.sm_vat sm)
  <= 1 # 50.
Proof.
  unfold Optimized.make_summary; cbn [Optimized.sm_net_profit
    Optimized.sm_revenue Optimized.sm_full_cost Optimized.sm_vat].
  pose proof (round2_near order_sum) as [? ?].
  pose proof (round2_near order_cost) as [? ?].
  pose proof (round2_near (get (order_vatSum o) 0 / 100)) as [? ?].
  pose proof (round2_near
                (order_sum - order_cost - get (order_vatSum o) 0 / 100))
    as [? ?].
  split; lra.
Qed.

(** Every summary of a batch is built by [make_summary]. *)
Lemma for_each_step_forall (str_lower : string -> string)
    (str_to_float : string -> option Q) (pc : gmap string catalog_entry)
    (P : Optimized.summary -> Prop) :
  (forall o costs order_sum order_cost n rows,
     P (Optimized.make_summary o costs order_sum order_cost n rows)) ->
  forall (orders : list order) out, exists rows sums,
    for_each (Optimized.process_order str_lower str_to_float pc) out orders
    = Ok ((fst out ++ rows)%list, (snd out ++ sums)%list)
    /\ Forall P sums
    /\ length sums = length orders.
Proof.
  intros HP. induction orders as [| o orders IH]; intros out.
  - exists [], []. cbn [for_each]. rewrite !app_nil_r.
    destruct out; repeat split; constructor.
  - cbn [for_each].
    destruct (extract_returns str_lower str_to_float o) as [costs Hcosts].
    destruct (process_order_result str_lower str_to_float pc out o costs
                Hcosts) as [order_cost [_ ->]].
    cbn [bind].
    match goal with
    | |- context [for_each _ ?out1 orders] =>
        destruct (IH out1) as [rows [sums [Hrun [Hall Hlen]]]]
    end.
    eexists. eexists. split.
    + rewrite Hrun. cbn [fst snd]. rewrite <- !app_assoc. reflexivity.
    + split; [constructor; [apply HP | exact Hall] |].
      cbn [app length]. rewrite Hlen. reflexivity.
Qed.

Lemma sum_balance (sums : list Optimized.summary) :
  Forall (fun sm =>
            - (1 # 50)
            <= Optimized.sm_net_profit sm
               - (Optimized.sm_revenue sm - Optimized.sm_full_cost sm
                  - Optimized.sm_vat sm)
            <= 1 # 50) sums ->
  - ((1 # 50) * inject_Z (Z.of_nat (length sums)))
  <= sum (map Optimized.sm_net_profit sums)
     - (sum (map Optimized.sm_revenue sums)
        - sum (map Optimized.sm_full_cost sums)
        - sum (map Optimized.sm_vat sums))
  <= (1 # 50) * inject_Z (Z.of_nat (length sums)).
Proof.
  induction 1 as [| sm sums [Hlo Hhi] _ [IHlo IHhi]].
  - cbn [map sum fold_right length].
    change (inject_Z (Z.of_nat 0)) with 0. split; lra.
  - change (length (sm :: sums)) with (S (length sums)).
    rewrite Nat2Z.inj_succ. unfold Z.succ. rewrite inject_Z_plus.
    change (inject_Z 1) with 1.
    change (map ?f (sm :: sums)) with (f sm :: map f sums).
    change (sum (?x :: ?xs)) with (x + sum xs).
    split; lra.
Qed.

Lemma total_stats_some (sums : list Optimized.summary)
    (st : OptimizedMain.stats) :
  OptimizedMain.total_stats sums = Some st ->
  sums <> []
  /\ OptimizedMain.st_orders st = length sums
  /\ OptimizedMain.st_revenue st
     = round2 (sum (map Optimized.sm_revenue sums))
  /\ OptimizedMain.st_full_cost st
     = round2 (sum (map Optimized.sm_full_cost sums))
  /\ OptimizedMain.st_vat st = round2 (sum (map Optimized.sm_vat sums))
  /\ OptimizedMain.st_net_profit st
     = round2 (sum (map Optimized.sm_net_profit sums))
  /\ OptimizedMain.st_mean_revenue st
     = round2 (OptimizedMain.mean (map Optimized.sm_revenue sums)).
Proof.
  destruct sums as [| sm sums]; [discriminate |].
  intros [= <-]. split; [discriminate |]. repeat split.
Qed.

(** X15: the statistics of a batch balance: the total net profit differs
    from total revenue - total full cost - total VAT by at most 0.02 per
    order plus 0.02, the figures being rounded one by one. *)
Theorem stats_balance (str_lower : string -> string)
    (str_to_float : string -> option Q) (pc : gmap string catalog_entry)
    (orders : list order) (rows : list Optimized.position_data)
    (sums : list Optimized.summary) (st : OptimizedMain.stats) :
  Optimized.process_orders str_lower str_to_float orders pc = Ok (rows, sums) ->
  OptimizedMain.total_stats sums = Some st ->
  Qabs (OptimizedMain.st_net_profit st
        - (OptimizedMain.st_revenue st - OptimizedMain.st_full_cost st
           - OptimizedMain.st_vat st))
  <= (1 # 50) * (inject_Z (Z.of_nat (length orders)) + 1).
Proof.
  intros Hrun Hstats.
  destruct (for_each_step_forall str_lower str_to_float pc
              (fun sm =>
                 - (1 # 50)
                 <= Optimized.sm_net_profit sm
                    - (Optimized.sm_revenue sm - Optimized.sm_full_cost sm
                       - Optimized.sm_vat sm)
                 <= 1 # 50)
              make_summary_balance orders ([], []))
    as [rows' [sums' [Hrun' [Hall Hlen]]]].
  unfold Optimized.process_orders in Hrun. rewrite Hrun' in Hrun.
  injection Hrun as _ <-. cbn [snd app] in *.
  pose proof (sum_balance sums' Hall) as [Hlo Hhi]. rewrite Hlen in Hlo, Hhi.
  destruct (total_stats_some _ _ Hstats)
    as [_ [_ [-> [-> [-> [-> _]]]]]].
  pose proof (round2_near (sum (map Optimized.sm_net_profit sums'))) as [? ?].
  pose proof (round2_near (sum (map Optimized.sm_revenue sums'))) as [? ?].
  pose proof (round2_near (sum (map Optimized.sm_full_cost sums'))) as [? ?].
  pose proof (round2_near (sum (map Optimized.sm_vat sums'))) as [? ?].
  apply Qabs_Qle_condition. split; lra.
Qed.

(** X16: the statistics table is empty exactly for an empty batch;
    otherwise it counts the orders of the batch, and the average order
    value times that count is the total revenue up to 0.005 per order plus
    0.005. *)
Theorem stats_count_and_mean (str_lower : string -> string)
    (str_to_float : string -> option Q) (pc : gmap string catalog_entry)
    (orders : list order) (rows : list Optimized.position_data)
    (sums : list Optimized.summary) :
  Optimized.process_orders str_lower str_to_float orders pc = Ok (rows, sums) ->
  (OptimizedMain.total_stats sums = None <-> orders = [])
  /\ forall st, OptimizedMain.total_stats sums = Some st ->
       OptimizedMain.st_orders st = length orders
       /\ Qabs (OptimizedMain.st_mean_revenue st
                * inject_Z (Z.of_nat (length orders))
                - OptimizedMain.st_revenue st)
          <= (1 # 200) * (inject_Z (Z.of_nat (length orders)) + 1).
Proof.
  intros Hrun.
  destruct (for_each_step_forall str_lower str_to_float pc (fun _ => True)
              (fun _ _ _ _ _ _ => I) orders ([], []))
    as [rows' [sums' [Hrun' [_ Hlen]]]].
  unfold Optimized.process_orders in Hrun. rewrite Hrun' in Hrun.
  injection Hrun as _ <-. cbn [snd app] in *.
  split.
  - destruct sums' as [| sm sums'], orders as [| o orders];
      try discriminate; split; try reflexivity; discriminate.
  - intros st Hstats.
    destruct (total_stats_some _ _ Hstats)
      as [Hne [-> [-> [_ [_ [_ ->]]]]]].
    split; [exact Hlen |].
    unfold OptimizedMain.mean. rewrite length_map, Hlen.
    set (total := sum (map Optimized.sm_revenue sums')).
    set (n := inject_Z (Z.of_nat (length orders))).
    assert (Hn : 1 <= n).
    { subst n. change 1 with (inject_Z 1). rewrite <- Zle_Qle.
      rewrite <- Hlen. destruct sums'; [contradiction | cbn [length]; lia]. }
    pose proof (round2_near total) as [? ?].
    pose proof (round2_near (total / n)) as [Hlo Hhi].
    assert (Hmean : total / n * n == total) by (field; lra).
    apply Qabs_Qle_condition. split; nra.
Qed.

Lemma stats_balance_witness :
  exists rows sums st,
    Optimized.process_orders lower float_of_str [Sample.two_line_order] ∅
    = Ok (rows, sums)
    /\ OptimizedMain.total_stats sums = Some st
    /\ Qabs (OptimizedMain.st_net_profit st
             - (OptimizedMain.st_revenue st - OptimizedMain.st_full_cost st
                - OptimizedMain.st_vat st))
       <= (1 # 50)
          * (inject_Z (Z.of_nat (length [Sample.two_line_order])) + 1).
Proof.
  eexists. eexists. eexists.
  split; [vm_compute; reflexivity |].
  split; [vm_compute; reflexivity |].
  refine (stats_balance lower float_of_str ∅ [Sample.two_line_order]
            _ _ _ _ _).
  - vm_compute. reflexivity.
  - vm_compute. reflexivity.
Defined.

Lemma stats_count_and_mean_witness :
  exists rows sums st,
    Optimized.process_orders lower float_of_str
      [Sample.two_line_order; Sample.free_order] ∅
    = Ok (rows, sums)
    /\ OptimizedMain.total_stats sums = Some st
    /\ OptimizedMain.st_orders st
       = length [Sample.two_line_order; Sample.free_order].
Proof.
  eexists. eexists. eexists.
  split; [vm_compute; reflexivity |].
  split; [vm_compute; reflexivity |].
  refine (proj1 (proj2 (stats_count_and_mean lower float_of_str ∅
                          [Sample.two_line_order; Sample.free_order]
                          _ _ _) _ _)).
  - vm_compute. reflexivity.
  - vm_compute. reflexivity.
Defined.

(** ** The two resolvers side by side, and the result cache of final.py *)

(** X17: what [get_buy_price_for_item] of final.py has returned for an id
    it returns again for that id, from the result cache: without a
    request, without a change of state, whatever the service would answer
    now and whatever entry or type is passed with the id. *)
Theorem resolved_id_is_kept (api api' : Final.service) (st st' : Final.state)
    (item item' : catalog_entry) (item_type item_type' : string)
    (r : buy_price_info) :
  Final.get_buy_price_for_item api item item_type st = (Ok r, st') ->
  item_id item' = item_id item ->
  Final.get_buy_price_for_item api' item' item_type' st' = (Ok r, st').
Proof.
  intros Hrun Hid.
  apply get_buy_price_hit. rewrite Hid.
  destruct (Final.buy_price_cache st !! item_id item) as [cached |] eqn:Hc.
  - rewrite (get_buy_price_hit api item item_type st cached Hc) in Hrun.
    injection Hrun as <- <-. exact Hc.
  - rewrite (get_buy_price_miss api item item_type st Hc) in Hrun.
    destruct (Final.resolve api item item_type st) as [[result | e] st1];
      [| discriminate].
    injection Hrun as <- <-. cbn [Final.buy_price_cache].
    apply lookup_insert_eq.
Qed.

Lemma resolved_id_is_kept_witness :
  Final.get_buy_price_for_item
    (fun _ _ => Ok (Final.Rows [base_entry "p-7" 50000]))
    (bundle_entry "b-1" "X1") "product"
    (snd (Final.get_buy_price_for_item (fun _ _ => Raise Timeout)
            (bundle_entry "b-1" "X1") "bundle" Final.empty_state))
  = (Ok not_found,
     snd (Final.get_buy_price_for_item (fun _ _ => Raise Timeout)
            (bundle_entry "b-1" "X1") "bundle" Final.empty_state)).
Proof.
  apply (resolved_id_is_kept (fun _ _ => Raise Timeout) _ Final.empty_state _
           (bundle_entry "b-1" "X1") _ "bundle").
  - vm_compute. reflexivity.
  - reflexivity.
Defined.

(** X18: where final.py needs no lookup, its resolver (on a miss of the
    result cache) gives what the resolver of optimized_script.py gives on
    the same article cache, and sends nothing: for products and unknown
    types, for bundles without an article or with a cached article, and for
    variants with a positive buy price of their own or without a base
    reference. *)
Theorem resolvers_agree (api : Final.service) (st : Final.state)
    (item : catalog_entry) (item_type : string) :
  Final.buy_price_cache st !! item_id item = None ->
  (item_type = "bundle" ->
   forall article, truthy_str (item_article item) = Some article ->
     is_Some (Final.product_cache st !! article)) ->
  (item_type = "variant" ->
   has_positive_value (buyPrice item) = true
   \/ truthy_str (product_href item) = None) ->
  fst (Final.get_buy_price_for_item api item item_type st)
  = Ok (Optimized.get_buy_price_for_item item item_type
          (Final.product_cache st))
  /\ Final.calls (snd (Final.get_buy_price_for_item api item item_type st))
     = Final.calls st.
Proof.
  intros Hmiss Hbundle Hvariant.
  rewrite (get_buy_price_miss api item item_type st Hmiss).
  rewrite resolve_dispatch. unfold Optimized.get_buy_price_for_item.
  destruct (String.eqb_spec item_type "product") as [_ | _].
  { rewrite resolve_product. unfold priced.
    destruct (has_positive_value (buyPrice item)); split; reflexivity. }
  destruct (String.eqb_spec item_type "bundle") as [Hb | _].
  { rewrite resolve_bundle.
    destruct (truthy_str (item_article item)) as [article |] eqn:Harticle;
      [| split; reflexivity].
    destruct (Hbundle Hb article eq_refl) as [base_product Hcached].
    cbv zeta. rewrite Hcached. unfold priced.
    destruct (has_positive_value (buyPrice base_product)); split; reflexivity. }
  destruct (String.eqb_spec item_type "variant") as [Hv | _].
  { rewrite resolve_variant.
    destruct (has_positive_value (buyPrice item)) eqn:Hown;
      [split; reflexivity |].
    destruct (Hvariant Hv) as [Habs | Hnone]; [discriminate |].
    rewrite Hnone. split; reflexivity. }
  split; reflexivity.
Qed.

Lemma resolvers_agree_witness :
  fst (Final.get_buy_price_for_item (fun _ _ => Raise Timeout)
         (variant_entry "v-2" (Some 30000) "") "variant" Final.empty_state)
  = Ok (Optimized.get_buy_price_for_item
          (variant_entry "v-2" (Some 30000) "") "variant"
          (Final.product_cache Final.empty_state)).
Proof.
  refine (proj1 (resolvers_agree (fun _ _ => Raise Timeout) Final.empty_state
                   (variant_entry "v-2" (Some 30000) "") "variant" _ _ _)).
  - reflexivity.
  - intros [=].
  - intros _. left. reflexivity.
Defined.

(** ** The order summary of final.py *)

Section ReportFacts.

Variable str_lower : string -> string.
Variable str_to_float : string -> option Q.
Variable api : Final.service.

Let scan := FinalReport.scan_commission str_lower str_to_float.
Let add := FinalReport.add_position api.
Let summary_of := FinalReport.calculate_order_summary str_lower str_to_float api.

(** An attribute that is not a commission field leaves the pair as it is;
    a commission field has its value passed to [float]. *)
Lemma scan_commission_other (c : Q * Q) (attr : attribute) :
  commission_field str_lower attr = false -> scan c attr = Ok c.
Proof.
  unfold commission_field, scan, FinalReport.scan_commission. cbv zeta.
  destruct (contains "комисс" (str_lower (attr_name attr)));
    [| reflexivity].
  destruct (contains "%" (str_lower (attr_name attr))); [discriminate |].
  destruct (contains "сумма" (str_lower (attr_name attr)));
    [discriminate | reflexivity].
Qed.

Lemma scan_commission_field (c : Q * Q) (attr : attribute) :
  commission_field str_lower attr = true ->
  scan c attr
  = bind (FinalReport.float_or_zero str_to_float (attr_value attr))
      (fun v => Ok (if contains "%" (str_lower (attr_name attr))
                    then (v, snd c) else (fst c, v))).
Proof.
  unfold commission_field, scan, FinalReport.scan_commission. cbv zeta.
  destruct (contains "комисс" (str_lower (attr_name attr)));
    [| discriminate].
  destruct (contains "%" (str_lower (attr_name attr))); [reflexivity |].
  destruct (contains "сумма" (str_lower (attr_name attr)));
    [reflexivity | discriminate].
Qed.

Lemma scan_commission_aborts (attrs : list attribute) (attr : attribute) :
  In attr attrs ->
  commission_field str_lower attr = true ->
  FinalReport.truthy (attr_value attr) = true ->
  (exists e, Extractor.float str_to_float (attr_value attr) = Raise e) ->
  forall c, exists e, for_each scan c attrs = Raise e.
Proof.
  intros Hin Hfield Htruthy [e Hfloat].
  induction attrs as [| a attrs IH]; intros c; [contradiction |].
  cbn [for_each].
  destruct (scan c a) as [c' | e'] eqn:Hscan.
  - destruct Hin as [-> | Hin].
    + rewrite (scan_commission_field c attr Hfield) in Hscan.
      unfold FinalReport.float_or_zero in Hscan.
      rewrite Htruthy, Hfloat in Hscan. discriminate.
    + cbn [bind]. apply IH. exact Hin.
  - exists e'. reflexivity.
Qed.

Lemma scan_commission_returns (attrs : list attribute) :
  (forall attr, In attr attrs ->
     commission_field str_lower attr = true ->
     FinalReport.truthy (attr_value attr) = true ->
     exists v, Extractor.float str_to_float (attr_value attr) = Ok v) ->
  forall c, exists c', for_each scan c attrs = Ok c'.
Proof.
  induction attrs as [| a attrs IH]; intros Hnum c.
  - exists c. reflexivity.
  - cbn [for_each].
    assert (Ha : exists c', scan c a = Ok c').
    { destruct (commission_field str_lower a) eqn:Hfield.
      - rewrite (scan_commission_field c a Hfield).
        unfold FinalReport.float_or_zero.
        destruct (FinalReport.truthy (attr_value a)) eqn:Htruthy.
        + destruct (Hnum a (or_introl eq_refl) Hfield Htruthy) as [v ->].
          eexists. reflexivity.
        + eexists. reflexivity.
      - exists c. apply scan_commission_other. exact Hfield. }
    destruct Ha as [c' ->]. cbn [bind].
    apply IH. intros attr Hin. apply Hnum. right. exact Hin.
Qed.

(** The item lookup never raises. *)
Lemma item_lookup_returns (href : string) (st : Final.state) :
  exists item,
    Final.get_item_by_href api (Some href) st
    = (Ok item,
       match truthy_str (Some href) with
       | Some href => Final.log_call st (Final.GetHref href)
       | None => st
       end).
Proof.
  destruct href as [| ch href].
  - exists None. reflexivity.
  - eexists. apply (get_item_by_href_run api (String ch href) st).
    discriminate.
Qed.

(** One pass of the positions loop: the quantity is added whether or not
    the item was found. *)
Lemma add_position_quantity (t t' : Q * Q) (pos : FinalReport.position_ref)
    (st st' : Final.state) :
  add t pos st = (Ok t', st') -> snd t' = snd t + quantity_of pos.
Proof.
  unfold add, FinalReport.add_position. cbv zeta.
  unfold Final.bindM at 1.
  destruct (item_lookup_returns (get (FinalReport.ref_href pos) "") st)
    as [item ->].
  unfold Final.bindM at 1.
  destruct item as [item |].
  - unfold Final.bindM at 1.
    destruct (Final.get_buy_price_for_item api item
                (get (FinalReport.ref_type pos) "product") _)
      as [[r | e] st1]; [| discriminate].
    unfold Final.ret. intros [= <- _]. reflexivity.
  - unfold Final.ret. intros [= <- _]. reflexivity.
Qed.

Lemma positions_loop_quantity (rows : list FinalReport.position_ref) :
  forall (t t' : Q * Q) (st st' : Final.state),
    FinalReport.for_eachM add t rows st = (Ok t', st') ->
    snd t' == snd t + sum (map quantity_of rows).
Proof.
  induction rows as [| pos rows IH]; intros t t' st st'.
  - cbn. intros [= <- _]. lra.
  - cbn [FinalReport.for_eachM]. unfold Final.bindM at 1.
    destruct (add t pos st) as [[t1 | e] st1] eqn:Hadd; [| discriminate].
    intros Hrest. apply IH in Hrest.
    rewrite (add_position_quantity _ _ _ _ _ Hadd) in Hrest.
    change (sum (map quantity_of (pos :: rows)))
      with (quantity_of pos + sum (map quantity_of rows)).
    lra.
Qed.

(** With a service that fails only with request errors the resolver
    returns, hence so does one pass of the positions loop. *)
Lemma add_position_returns (t : Q * Q) (pos : FinalReport.position_ref)
    (st : Final.state) :
  (forall n req e, api n req = Raise e -> is_RequestException e = true) ->
  exists t' st', add t pos st = (Ok t', st').
Proof.
  intros Hnet.
  unfold add, FinalReport.add_position. cbv zeta.
  unfold Final.bindM at 1.
  destruct (item_lookup_returns (get (FinalReport.ref_href pos) "") st)
    as [item ->].
  set (st0 := match truthy_str (Some (get (FinalReport.ref_href pos) "")) with
              | Some href => Final.log_call st (Final.GetHref href)
              | None => st
              end).
  unfold Final.bindM at 1.
  destruct item as [item |]; [| eexists; eexists; reflexivity].
  unfold Final.bindM at 1.
  set (item_type := get (FinalReport.ref_type pos) "product").
  destruct (Final.buy_price_cache st0 !! item_id item) as [cached |] eqn:Hc.
  - rewrite (get_buy_price_hit api item item_type st0 cached Hc).
    eexists; eexists; reflexivity.
  - rewrite (get_buy_price_miss api item item_type st0 Hc).
    destruct (resolve_outcome api item item_type st0) as [Hraise _].
    destruct (Final.resolve api item item_type st0) as [[result | e] st1].
    + eexists; eexists; reflexivity.
    + exfalso. destruct (Hraise e eq_refl) as [req [Hanswer Hclass]].
      rewrite (Hnet _ _ _ Hanswer) in Hclass. discriminate.
Qed.

Lemma positions_loop_returns (rows : list FinalReport.position_ref) :
  (forall n req e, api n req = Raise e -> is_RequestException e = true) ->
  forall (t : Q * Q) (st : Final.state),
    exists t' st', FinalReport.for_eachM add t rows st = (Ok t', st').
Proof.
  intros Hnet.
  induction rows as [| pos rows IH]; intros t st.
  - exists t, st. reflexivity.
  - cbn [FinalReport.for_eachM]. unfold Final.bindM at 1.
    destruct (add_position_returns t pos st Hnet) as [t1 [st1 ->]].
    apply IH.
Qed.

(** The figures written after the loops agree up to their roundings. *)
Lemma summarize_balance (o : order) (total_cost total_quantity p m : Q) :
  let s := FinalReport.summarize o total_cost total_quantity p m in
  Qabs (FinalReport.fs_net_profit s
        - (FinalReport.fs_revenue s - FinalReport.fs_cost s
           - FinalReport.fs_commission s - FinalReport.fs_vat s))
  <= 1 # 40.
Proof.
  unfold FinalReport.summarize. cbv zeta.
  cbn [FinalReport.fs_net_profit FinalReport.fs_revenue FinalReport.fs_cost
       FinalReport.fs_commission FinalReport.fs_vat].
  set (revenue := get (order_sum_field o) 0 / 100).
  set (commission := if Qlt_le_dec 0 p then _ else _).
  set (vat := get (order_vatSum o) 0 / 100).
  pose proof (round2_near revenue) as [? ?].
  pose proof (round2_near total_cost) as [? ?].
  pose proof (round2_near commission) as [? ?].
  pose proof (round2_near vat) as [? ?].
  pose proof (round2_near (revenue - total_cost - commission - vat)) as [? ?].
  apply Qabs_Qle_condition. split; lra.
Qed.

(** The run of the summary on at least one row. *)
Lemma summary_run (o : order) (pos : FinalReport.position_ref)
    (rows : list FinalReport.position_ref) (st : Final.state) :
  summary_of o (Some (pos :: rows)) st
  = match FinalReport.for_eachM add (0, 0) (pos :: rows) st with
    | (Ok t, st') =>
        match for_each scan (0, 0) (order_attributes o) with
        | Ok c =>
            (Ok (FinalReport.summarize o (fst t) (snd t) (fst c) (snd c)),
             st')
        | Raise e => (Raise e, st')
        end
    | (Raise e, st') => (Raise e, st')
    end.
Proof.
  unfold summary_of, FinalReport.calculate_order_summary.
  unfold Final.bindM at 1. fold add. fold scan.
  destruct (FinalReport.for_eachM add (0, 0) (pos :: rows) st)
    as [[t | e] st']; [| reflexivity].
  unfold Final.bindM, FinalReport.lift.
  destruct (for_each scan (0, 0) (order_attributes o)); reflexivity.
Qed.

(** X19: the summary of final.py passes the value of every commission
    field to [float] outside any [try]: with at least one position row, a
    commission field whose value is not empty and not a number makes
    [calculate_order_summary] raise, while the attribute extractor of the
    later scripts returns on the same order; without rows the attributes
    are not read and the summary returns. *)
Theorem summary_aborts_on_commission_value (o : order) (attr : attribute)
    (rows : list FinalReport.position_ref) (st : Final.state) :
  rows <> [] ->
  In attr (order_attributes o) ->
  commission_field str_lower attr = true ->
  FinalReport.truthy (attr_value attr) = true ->
  (exists e, Extractor.float str_to_float (attr_value attr) = Raise e) ->
  (exists e st', summary_of o (Some rows) st = (Raise e, st'))
  /\ (exists costs,
        Extractor.extract_commission_and_delivery str_lower str_to_float o
        = Ok costs)
  /\ summary_of o None st = (Ok (FinalReport.summary_without_rows o), st)
  /\ summary_of o (Some []) st = (Ok (FinalReport.summary_without_rows o), st).
Proof.
  intros Hrows Hin Hfield Htruthy Hfloat.
  split; [| split; [| split; reflexivity]].
  - destruct rows as [| pos rows]; [contradiction |].
    rewrite summary_run.
    destruct (FinalReport.for_eachM add (0, 0) (pos :: rows) st)
      as [[t | e] st'].
    + destruct (scan_commission_aborts _ attr Hin Hfield Htruthy Hfloat (0, 0))
        as [e ->].
      exists e, st'. reflexivity.
    + exists e, st'. reflexivity.
  - unfold Extractor.extract_commission_and_delivery.
    destruct (for_each_scan_returns str_lower str_to_float (order_attributes o)
                Extractor.no_costs) as [c ->].
    eexists. reflexivity.
Qed.

(** X20: when the service fails only with request errors and every
    commission field holds a number or nothing, the summary returns; its
    quantity is the sum of the quantities of all rows, and with at least
    one row its net profit differs from revenue - cost - commission - VAT
    by at most 0.025, the five figures being rounded one by one. *)
Theorem summary_returns (o : order)
    (order_positions : option (list FinalReport.position_ref))
    (st : Final.state) :
  (forall n req e, api n req = Raise e -> is_RequestException e = true) ->
  (forall attr, In attr (order_attributes o) ->
     commission_field str_lower attr = true ->
     FinalReport.truthy (attr_value attr) = true ->
     exists v, Extractor.float str_to_float (attr_value attr) = Ok v) ->
  exists s st',
    summary_of o order_positions st = (Ok s, st')
    /\ FinalReport.fs_quantity s
       == sum (map quantity_of (get order_positions []))
    /\ (get order_positions [] <> [] ->
        Qabs (FinalReport.fs_net_profit s
              - (FinalReport.fs_revenue s - FinalReport.fs_cost s
                 - FinalReport.fs_commission s - FinalReport.fs_vat s))
        <= 1 # 40).
Proof.
  intros Hnet Hnum.
  destruct order_positions as [[| pos rows] |].
  - eexists. eexists. split; [reflexivity |].
    split; [reflexivity | intros H; contradiction].
  - rewrite summary_run.
    destruct (positions_loop_returns (pos :: rows) Hnet (0, 0) st)
      as [t [st' Hloop]].
    rewrite Hloop.
    destruct (scan_commission_returns (order_attributes o) Hnum (0, 0))
      as [c ->].
    eexists. eexists. split; [reflexivity |]. split.
    + cbn [FinalReport.summarize FinalReport.fs_quantity get].
      rewrite (positions_loop_quantity _ _ _ _ _ Hloop). cbn [snd]. lra.
    + intros _. apply summarize_balance.
  - eexists. eexists. split; [reflexivity |].
    split; [reflexivity | intros H; contradiction].
Qed.

(** While every item lookup fails, a pass of the positions loop adds no
    cost and touches no cache. *)
Lemma positions_loop_outage (rows : list FinalReport.position_ref) :
  (forall n href, exists e, api n (Final.GetHref href) = Raise e) ->
  forall (t : Q * Q) (st : Final.state),
    exists q st',
      FinalReport.for_eachM add t rows st = (Ok (fst t, q), st')
      /\ Final.product_cache st' = Final.product_cache st
      /\ Final.buy_price_cache st' = Final.buy_price_cache st
      /\ Final.calls st' = (Final.calls st ++ item_requests rows)%list.
Proof.
  intros Hout.
  induction rows as [| pos rows IH]; intros t st.
  - exists (snd t), st. destruct t as [cost q].
    split; [reflexivity |]. split; [reflexivity |]. split; [reflexivity |].
    symmetry. apply app_nil_r.
  - cbn [FinalReport.for_eachM]. unfold Final.bindM at 1.
    assert (Hadd : exists st1,
               add t pos st = (Ok (fst t, snd t + quantity_of pos), st1)
               /\ Final.product_cache st1 = Final.product_cache st
               /\ Final.buy_price_cache st1 = Final.buy_price_cache st
               /\ Final.calls st1
                  = (Final.calls st ++ item_requests [pos])%list).
    { unfold add, FinalReport.add_position, item_requests. cbv zeta.
      cbn [flat_map]. unfold Final.bindM at 1.
      destruct (FinalReport.ref_href pos) as [[| ch href] |]; cbn [get].
      - rewrite get_item_by_href_blank. eexists. split; [reflexivity |].
        split; [reflexivity |]. split; [reflexivity |].
        symmetry. apply app_nil_r.
      - rewrite (get_item_by_href_run api (String ch href) st);
          [| discriminate].
        destruct (Hout (length (Final.calls st)) (String ch href)) as [e ->].
        eexists. split; [reflexivity |].
        split; [reflexivity |]. split; reflexivity.
      - rewrite get_item_by_href_blank. eexists. split; [reflexivity |].
        split; [reflexivity |]. split; [reflexivity |].
        symmetry. apply app_nil_r. }
    destruct Hadd as [st1 [-> [Hpc [Hbc Hcalls]]]].
    destruct (IH (fst t, snd t + quantity_of pos) st1)
      as [q [st' [Hloop [Hpc' [Hbc' Hcalls']]]]].
    exists q, st'. split; [exact Hloop |].
    rewrite Hpc', Hbc', Hcalls', Hpc, Hbc, Hcalls.
    split; [reflexivity |]. split; [reflexivity |].
    rewrite <- app_assoc. f_equal.
    unfold item_requests. cbn [flat_map]. f_equal. apply app_nil_r.
Qed.

(** X21: while every item lookup fails, the summary is still produced
    (when the commission fields hold numbers): one request per row with an
    href, the caches untouched, cost 0 with the flag "Нет", and a net
    profit of revenue - commission - VAT up to rounding. *)
Theorem summary_during_outage (o : order)
    (rows : list FinalReport.position_ref) (st : Final.state) :
  rows <> [] ->
  (forall n href, exists e, api n (Final.GetHref href) = Raise e) ->
  (forall attr, In attr (order_attributes o) ->
     commission_field str_lower attr = true ->
     FinalReport.truthy (attr_value attr) = true ->
     exists v, Extractor.float str_to_float (attr_value attr) = Ok v) ->
  exists s st',
    summary_of o (Some rows) st = (Ok s, st')
    /\ FinalReport.fs_cost s == 0
    /\ FinalReport.fs_cost_available s = "Нет"
    /\ Qabs (FinalReport.fs_net_profit s
             - (FinalReport.fs_revenue s - FinalReport.fs_commission s
                - FinalReport.fs_vat s)) <= 1 # 50
    /\ Final.calls st' = (Final.calls st ++ item_requests rows)%list
    /\ Final.product_cache st' = Final.product_cache st
    /\ Final.buy_price_cache st' = Final.buy_price_cache st.
Proof.
  intros Hrows Hout Hnum.
  destruct rows as [| pos rows]; [contradiction |].
  rewrite summary_run.
  destruct (positions_loop_outage (pos :: rows) Hout (0, 0) st)
    as [q [st' [-> [Hpc [Hbc Hcalls]]]]].
  destruct (scan_commission_returns (order_attributes o) Hnum (0, 0))
    as [c ->].
  eexists. eexists. split; [reflexivity |].
  cbn [fst snd].
  split; [exact round2_zero |].
  split; [reflexivity |].
  split; [| split; [exact Hcalls |]; split; [exact Hpc | exact Hbc]].
  unfold FinalReport.summarize. cbv zeta.
  cbn [FinalReport.fs_net_profit FinalReport.fs_revenue
       FinalReport.fs_commission FinalReport.fs_vat].
  set (revenue := get (order_sum_field o) 0 / 100).
  set (commission := if Qlt_le_dec 0 (fst c) then _ else _).
  set (vat := get (order_vatSum o) 0 / 100).
  pose proof (round2_near revenue) as [? ?].
  pose proof (round2_near commission) as [? ?].
  pose proof (round2_near vat) as [? ?].
  pose proof (round2_near (revenue - 0 - commission - vat)) as [? ?].
  apply Qabs_Qle_condition. split; lra.
Qed.

(** X22: the commission sum of final.py is assigned, not accumulated:
    when the last attribute is a sum field (a commission field without
    "%") with a number other than 0, that number alone is the commission of
    the summary, whatever the attributes before it held. *)
Theorem commission_sum_overwritten (o : order) (attrs : list attribute)
    (a : attribute) (v : Q) (rows : list FinalReport.position_ref)
    (st st' : Final.state) (s : FinalReport.summary) :
  order_attributes o = (attrs ++ [a])%list ->
  commission_field str_lower a = true ->
  contains "%" (str_lower (attr_name a)) = false ->
  FinalReport.float_or_zero str_to_float (attr_value a) = Ok v ->
  ~ v == 0 ->
  rows <> [] ->
  summary_of o (Some rows) st = (Ok s, st') ->
  FinalReport.fs_commission s = round2 v.
Proof.
  intros Hattrs Hfield Hpercent Hfloat Hv Hrows Hrun.
  destruct rows as [| pos rows]; [contradiction |].
  rewrite summary_run in Hrun.
  destruct (FinalReport.for_eachM add (0, 0) (pos :: rows) st)
    as [[t | e] st1]; [| discriminate].
  rewrite Hattrs, for_each_app in Hrun.
  destruct (for_each scan (0, 0) attrs) as [c | e]; [| discriminate].
  cbn [bind for_each] in Hrun.
  rewrite (scan_commission_field c a Hfield), Hpercent, Hfloat in Hrun.
  cbn [bind fst snd] in Hrun.
  injection Hrun as <- _.
  unfold FinalReport.summarize. cbv zeta. cbn [FinalReport.fs_commission].
  destruct (Qlt_le_dec 0 (fst c)); [| reflexivity].
  destruct (Qeq_dec v 0); [contradiction | reflexivity].
Qed.

End ReportFacts.

Lemma summary_aborts_on_commission_value_witness :
  (exists e st',
     FinalReport.calculate_order_summary Py.lower Py.float_of_str
       (fun _ _ => Raise Timeout)
       (order_with 100000
          [{| attr_name := "Комиссия %"; attr_value := VStr "десять" |}])
       (Some [position_row 1 "" "product"]) Final.empty_state
     = (Raise e, st')).
Proof.
  refine (proj1 (summary_aborts_on_commission_value Py.lower Py.float_of_str
                   (fun _ _ => Raise Timeout)
                   (order_with 100000
                      [{| attr_name := "Комиссия %";
                          attr_value := VStr "десять" |}])
                   {| attr_name := "Комиссия %"; attr_value := VStr "десять" |}
                   [position_row 1 "" "product"] Final.empty_state
                   _ _ _ _ _)).
  - discriminate.
  - left. reflexivity.
  - vm_compute. reflexivity.
  - reflexivity.
  - exists ValueError. vm_compute. reflexivity.
Defined.

Lemma summary_returns_witness :
  exists s st',
    FinalReport.calculate_order_summary Py.lower Py.float_of_str
      (fun _ req =>
         match req with
         | Final.GetHref _ => Ok (Final.Entity Sample.tea)
         | Final.GetProductByArticle _ => Raise Timeout
         end)
      (order_with 100000
         [{| attr_name := "Комиссия %"; attr_value := VNum 10 |}])
      (Some [position_row 2 "https://api/entity/product/p-1" "product"])
      Final.empty_state
    = (Ok s, st')
    /\ FinalReport.fs_quantity s == 2.
Proof.
  destruct (summary_returns Py.lower Py.float_of_str
              (fun _ req =>
                 match req with
                 | Final.GetHref _ => Ok (Final.Entity Sample.tea)
                 | Final.GetProductByArticle _ => Raise Timeout
                 end)
              (order_with 100000
                 [{| attr_name := "Комиссия %"; attr_value := VNum 10 |}])
              (Some [position_row 2 "https://api/entity/product/p-1"
                       "product"])
              Final.empty_state)
    as [s [st' [Hrun [Hquantity _]]]].
  - intros n [article | href] e [= <-]. reflexivity.
  - intros attr [<- | []] _ _. exists 10. reflexivity.
  - exists s, st'. split; [exact Hrun |].
    rewrite Hquantity. vm_compute. reflexivity.
Defined.

Lemma summary_during_outage_witness :
  exists s st',
    FinalReport.calculate_order_summary Py.lower Py.float_of_str
      (fun _ _ => Raise ConnectionError)
      (order_with 100000 [])
      (Some [position_row 2 "https://api/entity/product/p-1" "product"])
      Final.empty_state
    = (Ok s, st')
    /\ FinalReport.fs_cost s == 0
    /\ FinalReport.fs_cost_available s = "Нет".
Proof.
  destruct (summary_during_outage Py.lower Py.float_of_str
              (fun _ _ => Raise ConnectionError)
              (order_with 100000 [])
              [position_row 2 "https://api/entity/product/p-1" "product"]
              Final.empty_state)
    as [s [st' [Hrun [Hcost [Hflag _]]]]].
  - discriminate.
  - intros n href. exists ConnectionError. reflexivity.
  - intros attr [].
  - exists s, st'. split; [exact Hrun |]. split; [exact Hcost | exact Hflag].
Defined.

Lemma commission_sum_overwritten_witness :
  let o :=
    order_with 100000
      [{| attr_name := "Комиссия сумма"; attr_value := VNum 30 |};
       {| attr_name := "Комиссия сумма"; attr_value := VNum 50 |}] in
  let s := FinalReport.summarize o 0 (0 + 1) 0 50 in
  FinalReport.calculate_order_summary Py.lower Py.float_of_str
    (fun _ _ => Raise Timeout) o (Some [position_row 1 "" "product"])
    Final.empty_state
  = (Ok s, Final.empty_state)
  /\ FinalReport.fs_commission s = round2 50.
Proof.
  intros o s.
  assert (Hrun : FinalReport.calculate_order_summary Py.lower Py.float_of_str
                   (fun _ _ => Raise Timeout) o
                   (Some [position_row 1 "" "product"]) Final.empty_state
                 = (Ok s, Final.empty_state))
    by (vm_compute; reflexivity).
  split; [exact Hrun |].
  refine (commission_sum_overwritten Py.lower Py.float_of_str
            (fun _ _ => Raise Timeout) o
            [{| attr_name := "Комиссия сумма"; attr_value := VNum 30 |}]
            {| attr_name := "Комиссия сумма"; attr_value := VNum 50 |}
            50 [position_row 1 "" "product"]
            Final.empty_state Final.empty_state s _ _ _ _ _ _ Hrun).
  - reflexivity.
  - vm_compute. reflexivity.
  - vm_compute. reflexivity.
  - reflexivity.
  - intros H. discriminate H.
  - discriminate.
Defined.

(** ** The stock totals of final.py *)

Section StockFacts.

Variable api : FinalStock.service.

Lemma stock_hit (item_id item_type : string) (moment : option string)
    (st : FinalStock.state) (cached : FinalStock.stock_info) :
  FinalStock.stock_cache st !! FinalStock.cache_key item_id item_type moment
  = Some cached ->
  FinalStock.get_total_stock api item_id item_type moment st = (Ok cached, st).
Proof.
  intros Hhit. unfold FinalStock.get_total_stock. cbv zeta.
  unfold FinalStock.bindM at 1. unfold FinalStock.get_state at 1.
  rewrite Hhit. reflexivity.
Qed.

(** A miss for an item that is no bundle sends the request and reads the
    answer. *)
Lemma stock_miss (item_id item_type : string) (moment : option string)
    (st : FinalStock.state) :
  item_type <> "bundle" ->
  FinalStock.stock_cache st !! FinalStock.cache_key item_id item_type moment
  = None ->
  let req := stock_request_of item_id item_type moment in
  let st1 := FinalStock.log_call st req in
  FinalStock.get_total_stock api item_id item_type moment st
  = match api (length (FinalStock.calls st)) req with
    | Ok (FinalStock.Rows (row :: rows)) =>
        let t := fold_left FinalStock.add_row (row :: rows) (0, 0) in
        let result :=
          {| FinalStock.stock := fst t;
             FinalStock.reserve := snd t;
             FinalStock.available := fst t - snd t |} in
        (Ok result,
         {| FinalStock.stock_cache :=
              <[FinalStock.cache_key item_id item_type moment := result]>
                (FinalStock.stock_cache st);
            FinalStock.calls := FinalStock.calls st1 |})
    | Ok _ => (Ok FinalStock.no_stock, st1)
    | Raise e =>
        if is_RequestException e then (Ok FinalStock.no_stock, st1)
        else (Raise e, st1)
    end.
Proof.
  intros Htype Hmiss req st1.
  unfold FinalStock.get_total_stock. cbv zeta.
  unfold FinalStock.bindM at 1. unfold FinalStock.get_state at 1.
  rewrite Hmiss.
  destruct (String.eqb_spec item_type "bundle") as [Hb | _];
    [contradiction |].
  unfold FinalStock.bindM at 1.
  unfold FinalStock.get_stock_by_store.
  destruct (String.eqb_spec item_type "bundle") as [Hb | _];
    [contradiction |].
  unfold FinalStock._make_request. subst st1 req. unfold stock_request_of.
  destruct (api (length (FinalStock.calls st)) _)
    as [[| [| row rows]] | e]; try reflexivity.
  destruct e; reflexivity.
Qed.

Lemma fold_add_store (stores : list FinalStock.store) (t : Q * Q) :
  fst (fold_left FinalStock.add_store stores t)
  == fst t + sum (map (fun s => get (FinalStock.store_stock s) 0) stores)
  /\ snd (fold_left FinalStock.add_store stores t)
     == snd t + sum (map (fun s => get (FinalStock.store_reserve s) 0) stores).
Proof.
  revert t. induction stores as [| s stores IH]; intros t.
  - cbn. split; lra.
  - cbn [fold_left map].
    destruct (IH (FinalStock.add_store t s)) as [Hs Hr].
    change (sum (?x :: ?xs)) with (x + sum xs).
    change (fst (FinalStock.add_store t s))
      with (fst t + get (FinalStock.store_stock s) 0) in Hs.
    change (snd (FinalStock.add_store t s))
      with (snd t + get (FinalStock.store_reserve s) 0) in Hr.
    split; lra.
Qed.

Lemma fold_add_row (rows : list FinalStock.stock_row) (t : Q * Q) :
  fst (fold_left FinalStock.add_row rows t)
  == fst t
     + sum (map (fun s => get (FinalStock.store_stock s) 0) (stores_of rows))
  /\ snd (fold_left FinalStock.add_row rows t)
     == snd t
        + sum (map (fun s => get (FinalStock.store_reserve s) 0)
                 (stores_of rows)).
Proof.
  revert t. induction rows as [| row rows IH]; intros t.
  - cbn. split; lra.
  - cbn [fold_left]. unfold stores_of. cbn [flat_map]. fold (stores_of rows).
    destruct (IH (FinalStock.add_row t row)) as [Hs Hr].
    destruct (fold_add_store (get (FinalStock.stockByStore row) []) t)
      as [Hs1 Hr1].
    fold (FinalStock.add_row t row) in Hs1, Hr1.
    rewrite !map_app, !sum_app.
    split; lra.
Qed.

(** A miss for a bundle stores the zeros and sends nothing. *)
Lemma stock_miss_bundle (item_id : string) (moment : option string)
    (st : FinalStock.state) :
  FinalStock.stock_cache st !! FinalStock.cache_key item_id "bundle" moment
  = None ->
  FinalStock.get_total_stock api item_id "bundle" moment st
  = (Ok FinalStock.no_stock,
     {| FinalStock.stock_cache :=
          <[FinalStock.cache_key item_id "bundle" moment
            := FinalStock.no_stock]> (FinalStock.stock_cache st);
        FinalStock.calls := FinalStock.calls st |}).
Proof.
  intros Hmiss.
  unfold FinalStock.get_total_stock. cbv zeta.
  unfold FinalStock.bindM at 1. unfold FinalStock.get_state at 1.
  rewrite Hmiss. reflexivity.
Qed.

(** X23: a stock report with at least one row is added up over all stores
    of all rows, available being stock - reserve, and is remembered under
    the key of the call: asking again with the same item, type and moment
    gives the same record without a request, whatever the service would
    answer then. *)
Theorem stock_answer_is_cached (api' : FinalStock.service)
    (item_id item_type : string) (moment : option string)
    (st : FinalStock.state) (rows : list FinalStock.stock_row) :
  item_type <> "bundle" ->
  FinalStock.stock_cache st !! FinalStock.cache_key item_id item_type moment
  = None ->
  api (length (FinalStock.calls st)) (stock_request_of item_id item_type moment)
  = Ok (FinalStock.Rows rows) ->
  rows <> [] ->
  exists r st',
    FinalStock.get_total_stock api item_id item_type moment st = (Ok r, st')
    /\ FinalStock.stock r
       == sum (map (fun s => get (FinalStock.store_stock s) 0)
                 (stores_of rows))
    /\ FinalStock.reserve r
       == sum (map (fun s => get (FinalStock.store_reserve s) 0)
                 (stores_of rows))
    /\ stock_info_ok r
    /\ FinalStock.calls st'
       = (FinalStock.calls st
          ++ [stock_request_of item_id item_type moment])%list
    /\ FinalStock.get_total_stock api' item_id item_type moment st'
       = (Ok r, st').
Proof.
  intros Htype Hmiss Hanswer Hrows.
  destruct rows as [| row rows]; [contradiction |].
  rewrite (stock_miss item_id item_type moment st Htype Hmiss).
  cbv zeta. rewrite Hanswer.
  eexists. eexists. split; [reflexivity |].
  destruct (fold_add_row (row :: rows) (0, 0)) as [Hs Hr].
  cbn [fst snd] in Hs, Hr.
  cbn [FinalStock.stock FinalStock.reserve].
  split; [rewrite Hs; lra |]. split; [rewrite Hr; lra |].
  split; [unfold stock_info_ok; cbn; lra |].
  split; [reflexivity |].
  unfold FinalStock.get_total_stock. cbv zeta.
  unfold FinalStock.bindM at 1. unfold FinalStock.get_state at 1.
  cbn [FinalStock.stock_cache]. rewrite lookup_insert_eq. reflexivity.
Qed.

(** X24: the two ways to read zeros differ in what is kept: for a bundle
    no request is sent and the zeros are stored under the key; for another
    item whose request fails or brings no rows, one request is sent and
    nothing is stored, so the next call for it asks again. *)
Theorem stock_zero_answers (item_id item_type : string)
    (moment : option string) (st : FinalStock.state) :
  FinalStock.stock_cache st !! FinalStock.cache_key item_id item_type moment
  = None ->
  let run := FinalStock.get_total_stock api item_id item_type moment st in
  (item_type = "bundle" ->
   fst run = Ok FinalStock.no_stock
   /\ FinalStock.calls (snd run) = FinalStock.calls st
   /\ FinalStock.stock_cache (snd run)
      = <[FinalStock.cache_key item_id item_type moment
          := FinalStock.no_stock]> (FinalStock.stock_cache st))
  /\ (item_type <> "bundle" ->
      without_stock_rows
        (api (length (FinalStock.calls st))
           (stock_request_of item_id item_type moment)) ->
      fst run = Ok FinalStock.no_stock
      /\ FinalStock.calls (snd run)
         = (FinalStock.calls st
            ++ [stock_request_of item_id item_type moment])%list
      /\ FinalStock.stock_cache (snd run) = FinalStock.stock_cache st).
Proof.
  intros Hmiss run. split.
  - intros Hb. subst run item_type.
    rewrite (stock_miss_bundle item_id moment st Hmiss).
    split; [reflexivity |]. split; reflexivity.
  - intros Htype Hanswer. subst run.
    rewrite (stock_miss item_id item_type moment st Htype Hmiss).
    cbv zeta.
    destruct Hanswer as [[e [-> ->]] | [-> | ->]];
      (split; [reflexivity |]; split; reflexivity).
Qed.

(** X25: against a service that fails only with request errors
    [get_total_stock] returns, and available = stock - reserve holds for
    the returned record and for every record of the cache when it held
    for the cache before. *)
Theorem stock_figures_fit (item_id item_type : string)
    (moment : option string) (st : FinalStock.state) :
  (forall n req e, api n req = Raise e -> is_RequestException e = true) ->
  (forall key r, FinalStock.stock_cache st !! key = Some r ->
     stock_info_ok r) ->
  exists r st',
    FinalStock.get_total_stock api item_id item_type moment st = (Ok r, st')
    /\ stock_info_ok r
    /\ forall key r', FinalStock.stock_cache st' !! key = Some r' ->
         stock_info_ok r'.
Proof.
  intros Hnet Hcache.
  assert (Hzero : stock_info_ok FinalStock.no_stock)
    by (unfold stock_info_ok; cbn; lra).
  assert (Hins : forall k v, stock_info_ok v ->
            forall key r',
              <[k := v]> (FinalStock.stock_cache st) !! key = Some r' ->
              stock_info_ok r').
  { intros k v Hv key r' Hlook.
    destruct (decide (k = key)) as [-> | Hne].
    - rewrite lookup_insert_eq in Hlook. injection Hlook as <-. exact Hv.
    - rewrite lookup_insert_ne in Hlook by exact Hne.
      exact (Hcache key r' Hlook). }
  destruct (FinalStock.stock_cache st
              !! FinalStock.cache_key item_id item_type moment)
    as [cached |] eqn:Hc.
  - rewrite (stock_hit item_id item_type moment st cached Hc).
    exists cached, st. split; [reflexivity |].
    split; [exact (Hcache _ _ Hc) | exact Hcache].
  - destruct (String.eqb_spec item_type "bundle") as [Hb | Hb].
    + subst item_type. rewrite (stock_miss_bundle item_id moment st Hc).
      eexists. eexists. split; [reflexivity |].
      split; [exact Hzero | exact (Hins _ _ Hzero)].
    + rewrite (stock_miss item_id item_type moment st Hb Hc). cbv zeta.
      destruct (api (length (FinalStock.calls st))
                  (stock_request_of item_id item_type moment))
        as [[| [| row rows]] | e] eqn:Hanswer.
      * eexists. eexists. split; [reflexivity |].
        split; [exact Hzero | exact Hcache].
      * eexists. eexists. split; [reflexivity |].
        split; [exact Hzero | exact Hcache].
      * eexists. eexists. split; [reflexivity |].
        assert (Hr : stock_info_ok
                       {| FinalStock.stock :=
                            fst (fold_left FinalStock.add_row (row :: rows)
                                   (0, 0));
                          FinalStock.reserve :=
                            snd (fold_left FinalStock.add_row (row :: rows)
                                   (0, 0));
                          FinalStock.available :=
                            fst (fold_left FinalStock.add_row (row :: rows)
                                   (0, 0))
                            - snd (fold_left FinalStock.add_row (row :: rows)
                                     (0, 0)) |})
          by (unfold stock_info_ok; cbn [FinalStock.available FinalStock.stock
                                           FinalStock.reserve]; lra).
        split; [exact Hr |]. exact (Hins _ _ Hr).
      * rewrite (Hnet _ _ _ Hanswer).
        eexists. eexists. split; [reflexivity |].
        split; [exact Hzero | exact Hcache].
Qed.

End StockFacts.

Lemma stock_answer_is_cached_witness :
  exists r st',
    FinalStock.get_total_stock
      (fun _ _ =>
         Ok (FinalStock.Rows
               [{| FinalStock.stockByStore :=
                     Some [{| FinalStock.store_stock := Some 5;
                              FinalStock.store_reserve := Some 2 |};
                           {| FinalStock.store_stock := Some 3;
                              FinalStock.store_reserve := None |}] |}]))
      "p-1" "product" (Some "2025-01-01 10:00:00") FinalStock.empty_state
    = (Ok r, st')
    /\ FinalStock.stock r == 8
    /\ FinalStock.get_total_stock (fun _ _ => Raise Timeout)
         "p-1" "product" (Some "2025-01-01 10:00:00") st'
       = (Ok r, st').
Proof.
  destruct (stock_answer_is_cached
              (fun _ _ =>
                 Ok (FinalStock.Rows
                       [{| FinalStock.stockByStore :=
                             Some [{| FinalStock.store_stock := Some 5;
                                      FinalStock.store_reserve := Some 2 |};
                                   {| FinalStock.store_stock := Some 3;
                                      FinalStock.store_reserve := None |}] |}]))
              (fun _ _ => Raise Timeout)
              "p-1" "product" (Some "2025-01-01 10:00:00")
              FinalStock.empty_state
              [{| FinalStock.stockByStore :=
                    Some [{| FinalStock.store_stock := Some 5;
                             FinalStock.store_reserve := Some 2 |};
                          {| FinalStock.store_stock := Some 3;
                             FinalStock.store_reserve := None |}] |}])
    as [r [st' [Hrun [Hstock [_ [_ [_ Hagain]]]]]]].
  - discriminate.
  - apply lookup_empty.
  - reflexivity.
  - discriminate.
  - exists r, st'. split; [exact Hrun |]. split; [| exact Hagain].
    rewrite Hstock. vm_compute. reflexivity.
Defined.

Lemma stock_zero_answers_witness :
  fst (FinalStock.get_total_stock (fun _ _ => Raise Timeout)
         "p-1" "product" None FinalStock.empty_state)
  = Ok FinalStock.no_stock
  /\ FinalStock.calls
       (snd (FinalStock.get_total_stock (fun _ _ => Raise Timeout)
               "p-1" "product" None FinalStock.empty_state))
     = ([] ++ [stock_request_of "p-1" "product" None])%list
  /\ FinalStock.stock_cache
       (snd (FinalStock.get_total_stock (fun _ _ => Raise Timeout)
               "p-1" "product" None FinalStock.empty_state))
     = FinalStock.stock_cache FinalStock.empty_state.
Proof.
  refine (proj2 (stock_zero_answers (fun _ _ => Raise Timeout)
                   "p-1" "product" None FinalStock.empty_state _) _ _).
  - apply lookup_empty.
  - discriminate.
  - left. exists Timeout. split; reflexivity.
Defined.

Lemma stock_figures_fit_witness :
  exists r st',
    FinalStock.get_total_stock (fun _ _ => Raise ConnectionError)
      "v-1" "variant" None FinalStock.empty_state
    = (Ok r, st')
    /\ stock_info_ok r.
Proof.
  destruct (stock_figures_fit (fun _ _ => Raise ConnectionError)
              "v-1" "variant" None FinalStock.empty_state)
    as [r [st' [Hrun [Hr _]]]].
  - intros n req e [= <-]. reflexivity.
  - intros key r Hlook.
    change (FinalStock.stock_cache FinalStock.empty_state)
      with (∅ : gmap string FinalStock.stock_info) in Hlook.
    rewrite lookup_empty in Hlook. discriminate.
  - exists r, st'. split; [exact Hrun | exact Hr].
Defined.
